(** * BroadbandX dynamic pricing engine

    A shallow embedding of [ml/models/pricing_model.py] (class
    [DynamicPricingEngine]) together with the parts of [ml/config.py],
    [ml/models/churn_model.py] and [ml/models/segmentation_model.py] it
    reads, and with its callers in the API layer: the request and response
    models of [ml/api/schemas/models.py], the pricing routes of
    [ml/api/routes/pricing.py] and the prediction routes of
    [ml/api/routes/churn.py].

    Conventions of the embedding:
    - Python numbers are exact rationals ([Q]); results are compared with
      [==] ([Qeq]).  Sums, products and quotients carry no binary rounding
      error.
    - [round(x, n)] is round-half-to-even on the n-th decimal of the exact
      value.  The interpreter rounds the double nearest to that value, so
      where the exact value lies at a tie, or next to one, the two can differ
      by one unit of the last digit.  A property that says what a rounded
      entry is states it with [rounded_to]: a multiple of the unit, at most
      half a unit away from the value rounded, whichever neighbour is taken.
    - the weights dictionary is a heap object: the engine and every pricing
      result hold a reference to it, as [self.weights] and
      [result["weights"]] do.
    - [datetime.now()] reads a wall clock carried by the world.
    - an uncaught Python exception is the [Raised] outcome. *)

From Stdlib Require Import ZArith QArith Qround Qminmax Lqa Lia.
From stdpp Require Import gmap strings list.

Local Open Scope Q_scope.

(** ** Python numerics *)

Module Py.

(** [max(a, b)] and [min(a, b)] on numbers. *)
Definition max (a b : Q) : Q := Qmax a b.
Definition min (a b : Q) : Q := Qmin a b.

(** The comparisons [a <= b] and [a < b]. *)
Definition leb (a b : Q) : bool := Qle_bool a b.
Definition ltb (a b : Q) : bool := negb (Qle_bool b a).

(** [10 ** n] as a rational. *)
Definition pow10 (n : nat) : Q := inject_Z (10 ^ Z.of_nat n).

(** Round half to even, to the nearest integer: what [round] does on the
    scaled value. *)
Definition round_half_even (x : Q) : Z :=
  let f := Qfloor x in
  let r := x - inject_Z f in
  match Qcompare r (1 # 2) with
  | Lt => f
  | Gt => (f + 1)%Z
  | Eq => if Z.even f then f else (f + 1)%Z
  end.

(** [round(x, ndigits)]. *)
Definition round (x : Q) (ndigits : nat) : Q :=
  inject_Z (round_half_even (x * pow10 ndigits)) / pow10 ndigits.

End Py.

(** ** [datetime] *)

Record datetime := {
  dt_year : Z; dt_month : Z; dt_day : Z;
  dt_hour : Z; dt_minute : Z; dt_second : Z
}.

Module Calendar.

Definition is_leap (year : Z) : bool :=
  ((year mod 4 =? 0) && (negb (year mod 100 =? 0) || (year mod 400 =? 0)))%Z.

Definition days_before_year (year : Z) : Z :=
  let y := (year - 1)%Z in
  (y * 365 + y / 4 - y / 100 + y / 400)%Z.

Definition days_before_month_table : list Z :=
  [0; 31; 59; 90; 120; 151; 181; 212; 243; 273; 304; 334]%Z.

Definition days_before_month (year month : Z) : Z :=
  (nth (Z.to_nat (month - 1)) days_before_month_table 0
   + (if (2 <? month) && is_leap year then 1 else 0))%Z.

Definition toordinal (d : datetime) : Z :=
  (days_before_year (dt_year d)
   + days_before_month (dt_year d) (dt_month d) + dt_day d)%Z.

End Calendar.

(** [timestamp.weekday()]: Monday is 0, Sunday is 6. *)
Definition weekday (d : datetime) : Z := ((Calendar.toordinal d + 6) mod 7)%Z.

Inductive day_name := Monday | Tuesday | Wednesday | Thursday | Friday
                    | Saturday | Sunday.

Definition day_of_week (d : datetime) : day_name :=
  match weekday d with
  | 0 => Monday | 1 => Tuesday | 2 => Wednesday | 3 => Thursday
  | 4 => Friday | 5 => Saturday | _ => Sunday
  end%Z.

Definition mk_datetime (y m d hh mm : Z) : datetime :=
  {| dt_year := y; dt_month := m; dt_day := d;
     dt_hour := hh; dt_minute := mm; dt_second := 0 |}.

(** ** Configuration ([ml/config.py]) *)

Record Weights := { alpha : Q; beta : Q; gamma : Q }.

Record Constraints := {
  min_discount : Q; max_premium : Q; churn_threshold : Q
}.

Record DemandFactors := {
  peak_hours : Z * Z;
  peak_multiplier : Q;
  offpeak_multiplier : Q;
  weekend_multiplier : Q
}.

Record SegmentDefinition := {
  sd_name : string; sd_population : Q; sd_elasticity : Q
}.

Module Config.

(** [PRICING_CONFIG] *)
Definition PRICING_weights : Weights :=
  {| alpha := 0.15; beta := 0.10; gamma := 0.20 |}.

Definition PRICING_constraints : Constraints :=
  {| min_discount := -0.30; max_premium := 0.20; churn_threshold := 0.70 |}.

Definition PRICING_demand_factors : DemandFactors :=
  {| peak_hours := (18, 22)%Z;
     peak_multiplier := 0.15;
     offpeak_multiplier := -0.10;
     weekend_multiplier := 0.05 |}.

Definition premium_power_users : SegmentDefinition :=
  {| sd_name := "Premium Power Users"; sd_population := 0.15;
     sd_elasticity := -0.3 |}.
Definition price_conscious : SegmentDefinition :=
  {| sd_name := "Price-Conscious"; sd_population := 0.25;
     sd_elasticity := -1.8 |}.
Definition value_seekers : SegmentDefinition :=
  {| sd_name := "Value-Seekers"; sd_population := 0.30;
     sd_elasticity := -1.2 |}.
Definition budget_users : SegmentDefinition :=
  {| sd_name := "Budget Users"; sd_population := 0.20;
     sd_elasticity := -2.0 |}.
Definition casual_premium : SegmentDefinition :=
  {| sd_name := "Casual Premium"; sd_population := 0.10;
     sd_elasticity := -0.5 |}.

(** [SEGMENTATION_CONFIG["segment_definitions"]] *)
Definition segment_definitions (k : Z) : option SegmentDefinition :=
  match k with
  | 0 => Some premium_power_users
  | 1 => Some price_conscious
  | 2 => Some value_seekers
  | 3 => Some budget_users
  | 4 => Some casual_premium
  | _ => None
  end%Z.

End Config.

(** ** Customer features: a dictionary from feature name to number *)

Abbreviation Features := (gmap string Q).

(** [customer_features.get(key, default)] *)
Definition get (features : Features) (key : string) (dflt : Q) : Q :=
  default dflt (features !! key).

(** ** Exceptions and outcomes *)

Inductive exception :=
| ZeroDivisionError
| ValueError (msg : string)
| FileNotFoundError (msg : string).

Inductive outcome (A : Type) :=
| Returned (a : A)
| Raised (e : exception).
Arguments Returned {A} a.
Arguments Raised {A} e.

(** Python's [a / b] on numbers. *)
Definition truediv (a b : Q) : outcome Q :=
  if Qeq_bool b 0 then Raised ZeroDivisionError else Returned (a / b).

(** ** Collaborators *)

(** [ChurnPredictor] ([ml/models/churn_model.py]).  The classifier behind
    [predict_proba] is trained elsewhere; the engine only sees it as a
    function of the feature dictionary.  Of the dictionary [predict_single]
    returns, the free-text ["recommendation"] entry is left out. *)
Record ChurnPredictor := {
  churn_is_fitted : bool;
  churn_predict_proba : Features -> Q
}.

Record ChurnPrediction := {
  churn_probability : Q;
  churn_prediction : Z;
  risk_level : string
}.

Module Churn.

Definition predict_single (m : ChurnPredictor) (features : Features)
  : outcome ChurnPrediction :=
  if negb (churn_is_fitted m) then
    Raised (ValueError "Model not fitted. Call train() or load() first.")
  else
    let probability := churn_predict_proba m features in
    let prediction := if Py.leb 0.5 probability then 1%Z else 0%Z in
    let level :=
      if Py.ltb probability 0.3 then "low"
      else if Py.ltb probability 0.6 then "medium"
      else "high" in
    Returned {| churn_probability := Py.round probability 4;
                churn_prediction := prediction;
                risk_level := level |}.

(** [_get_recommendation].  The ["recommendation"] entry of the dictionary
    [predict_single] returns is [_get_recommendation probability features],
    on the probability before rounding. *)
Definition _get_recommendation (probability : Q) (features : Features)
  : string :=
  if Py.ltb probability 0.3 then
    "Customer is stable. Continue standard engagement."
  else
    let risk_factors : list string :=
      (if Py.ltb (get features "usage_change_30d" 0) (-10)
       then ["declining usage"] else [])
      ++ (if Py.ltb 14 (get features "days_since_login" 0)
          then ["low engagement"] else [])
      ++ (if Py.ltb 0 (get features "payment_failures_90d" 0)
          then ["payment issues"] else [])
      ++ (if Py.ltb 3 (get features "support_tickets" 0)
          then ["frequent support requests"] else [])
      ++ (if Py.ltb (get features "nps_score" 5) 5
          then ["low satisfaction"] else []) in
    let action :=
      if Py.leb 0.6 probability
      then "URGENT: Immediate intervention required"
      else "Consider proactive outreach" in
    match risk_factors with
    | [] => action +:+ ". Monitor customer engagement closely."
    | _ => action +:+ ". Key risk factors: "
           +:+ String.concat ", " risk_factors +:+ "."
    end.

End Churn.

(** [CustomerSegmentation] ([ml/models/segmentation_model.py]).  Scaling and
    K-Means prediction are one function from features to a cluster label,
    the distance-based confidence another.  A segment profile keeps the
    three entries [predict_single] reads. *)
Record SegmentProfile := {
  sp_name : string;
  sp_price_elasticity : Q;
  sp_pricing_strategy : string
}.

Record CustomerSegmentation := {
  seg_is_fitted : bool;
  seg_predict : Features -> Z;
  seg_confidence : Features -> Q;
  segment_profiles : gmap Z SegmentProfile
}.

Record SegmentPrediction := {
  segment_id : Z;
  segment_name : string;
  price_elasticity : Q;
  pricing_strategy : string;
  confidence : Q
}.

Module Segmentation.

(** [_match_segment_definition], on the three column means it computes. *)
Definition _match_segment_definition (avg_price avg_usage avg_nps : Q)
  : option SegmentDefinition :=
  if Py.ltb 1500 avg_price && Py.ltb 400 avg_usage && Py.ltb 7 avg_nps
  then Config.segment_definitions 0
  else if Py.ltb avg_price 700 && Py.ltb avg_nps 6
  then Config.segment_definitions 3
  else if Py.ltb 1200 avg_price && Py.ltb avg_usage 200
  then Config.segment_definitions 4
  else if Py.ltb avg_nps 5 then Config.segment_definitions 1
  else Config.segment_definitions 2.

Definition _get_pricing_strategy (segment_def : SegmentDefinition) : string :=
  let name := sd_name segment_def in
  if String.eqb name "Premium Power Users" then
    "Focus on loyalty rewards and exclusive features. Low price sensitivity."
  else if String.eqb name "Price-Conscious" then
    "Offer dynamic discounts and promotional pricing. High price sensitivity."
  else if String.eqb name "Value-Seekers" then
    "Emphasize value-for-money with tiered pricing options."
  else if String.eqb name "Budget Users" then
    "Off-peak offers and basic plans with flexibility."
  else if String.eqb name "Casual Premium" then
    "Convenience pricing with simple premium options."
  else "Standard pricing strategy".

(** The profile [_create_segment_profiles] stores for one cluster. *)
Definition create_profile (segment_def : SegmentDefinition) : SegmentProfile :=
  {| sp_name := sd_name segment_def;
     sp_price_elasticity := sd_elasticity segment_def;
     sp_pricing_strategy := _get_pricing_strategy segment_def |}.

(** Profiles as training leaves them: every stored profile was created from
    the definition [_match_segment_definition] picked for its cluster. *)
Definition profiles_from_training (m : CustomerSegmentation) : Prop :=
  forall (k : Z) (p : SegmentProfile),
    segment_profiles m !! k = Some p ->
    exists avg_price avg_usage avg_nps segment_def,
      _match_segment_definition avg_price avg_usage avg_nps = Some segment_def
      /\ p = create_profile segment_def.

Definition predict_single (m : CustomerSegmentation) (features : Features)
  : outcome SegmentPrediction :=
  if negb (seg_is_fitted m) then
    Raised (ValueError "Model not fitted. Call train() or load() first.")
  else
    let sid := seg_predict m features in
    let segment_info := segment_profiles m !! sid in
    Returned
      {| segment_id := sid;
         segment_name := from_option sp_name "Unknown" segment_info;
         price_elasticity := from_option sp_price_elasticity (-1.0) segment_info;
         pricing_strategy := from_option sp_pricing_strategy "" segment_info;
         confidence := Py.round (seg_confidence m features) 4 |}.

End Segmentation.

(** ** Engine state *)

(** Heap addresses of weight dictionaries. *)
Abbreviation loc := positive.

Record Factors := {
  demand_factor : Q;
  elasticity : Q;
  elasticity_factor : Q;
  churn_risk : Q
}.

(** The dictionary [calculate_dynamic_price] returns.  Its ["weights"] entry
    is the object [self.weights] itself, hence an address. *)
Record PricingResult := {
  base_price : Q;
  dynamic_price : Q;
  price_change : Q;
  price_change_percent : Q;
  factors : Factors;
  result_weights : loc;
  adjustment : Q;
  timestamp : datetime;
  recommendation : string
}.

Record Engine := {
  weights : loc;
  constraints : Constraints;
  demand_factors : DemandFactors;
  churn_model : option ChurnPredictor;
  segmentation_model : option CustomerSegmentation;
  pricing_history : list PricingResult
}.

Record World := {
  heap : gmap loc Weights;
  wall_clock : nat -> datetime;
  clock_reads : nat;
  self : Engine
}.

Definition set_heap (h : gmap loc Weights) (w : World) : World :=
  {| heap := h; wall_clock := wall_clock w;
     clock_reads := clock_reads w; self := self w |}.

Definition set_self (e : Engine) (w : World) : World :=
  {| heap := heap w; wall_clock := wall_clock w;
     clock_reads := clock_reads w; self := e |}.

(** ** State and exception monad *)

Definition M (A : Type) : Type := World -> outcome A * World.

Definition ret {A} (a : A) : M A := fun w => (Returned a, w).

Definition raise {A} (e : exception) : M A := fun w => (Raised e, w).

Definition bind {A B} (m : M A) (k : A -> M B) : M B :=
  fun w =>
    match m w with
    | (Returned a, w') => k a w'
    | (Raised e, w') => (Raised e, w')
    end.

Definition lift {A} (o : outcome A) : M A := fun w => (o, w).

Definition get_self : M Engine := fun w => (Returned (self w), w).

Definition put_self (e : Engine) : M unit :=
  fun w => (Returned tt, set_self e w).

Definition get_heap : M (gmap loc Weights) := fun w => (Returned (heap w), w).

Definition put_heap (h : gmap loc Weights) : M unit :=
  fun w => (Returned tt, set_heap h w).

(** [datetime.now()] *)
Definition datetime_now : M datetime :=
  fun w =>
    (Returned (wall_clock w (clock_reads w)),
     {| heap := heap w; wall_clock := wall_clock w;
        clock_reads := S (clock_reads w); self := self w |}).

#[global] Instance M_ret : MRet M := @ret.
#[global] Instance M_bind : MBind M := fun A B k m => bind m k.

(** The local variables of [calculate_dynamic_price] once the price is
    final (source lines 195 to 230).  [combined] is [adjustment] before the
    constraints are applied, [unfloored_price] is [dynamic_price] before the
    half-price floor. *)
Module Locals.
Record t := {
  demand_factor : Q;
  elasticity : Q;
  churn_risk : Q;
  alpha : Q;
  beta : Q;
  gamma : Q;
  elasticity_factor : Q;
  churn_discount : Q;
  combined : Q;
  adjustment : Q;
  unfloored_price : Q;
  dynamic_price : Q
}.
End Locals.

(** What [optimize_revenue] returns. *)
Record RevenueReport := {
  total_base_revenue : Q;
  total_dynamic_revenue : Q;
  revenue_change : Q;
  revenue_change_percent : Q;
  customers_processed : nat;
  avg_price_change_pct : Q;
  individual_results : list PricingResult
}.

(** What [calculate_roi_projection] returns. *)
Record RoiProjection := {
  roi_customers_saved : Z;
  roi_revenue_saved : Q;
  roi_implementation_cost : Q;
  roi_net_benefit : Q;
  roi_percent : Q;
  roi_payback_months : Q
}.

(** The content of a saved engine file. *)
Record EngineData := {
  ed_weights : Weights;
  ed_constraints : Constraints;
  ed_demand_factors : DemandFactors
}.

(** Reading through a reference is [h !!! l].  A Python reference never
    dangles, and none does in a world the engine builds (see
    [well_formed]), so the default below is never read. *)
#[global] Instance Weights_inhabited : Inhabited Weights :=
  populate {| alpha := 0; beta := 0; gamma := 0 |}.

(** ** [DynamicPricingEngine] *)

Module DynamicPricingEngine.

(** A new dictionary object on the heap. *)
Definition alloc (d : Weights) (h : gmap loc Weights)
  : loc * gmap loc Weights :=
  let l := fresh (dom h) in (l, <[l := d]> h).

(** [__init__]: the three configuration tables are copied, so the engine's
    weights dictionary is an object of its own. *)
Definition __init__ (h : gmap loc Weights) : Engine * gmap loc Weights :=
  let '(w, h') := alloc Config.PRICING_weights h in
  ({| weights := w;
      constraints := Config.PRICING_constraints;
      demand_factors := Config.PRICING_demand_factors;
      churn_model := None;
      segmentation_model := None;
      pricing_history := [] |}, h').

(** The world right after [DynamicPricingEngine()]. *)
Definition new_world (clk : nat -> datetime) : World :=
  let '(e, h) := __init__ ∅ in
  {| heap := h; wall_clock := clk; clock_reads := 0; self := e |}.

(** [set_models] *)
Definition set_models (churn : option ChurnPredictor)
    (segmentation : option CustomerSegmentation) : M unit :=
  e ← get_self;
  put_self {| weights := weights e;
              constraints := constraints e;
              demand_factors := demand_factors e;
              churn_model := churn;
              segmentation_model := segmentation;
              pricing_history := pricing_history e |}.

(** [calculate_demand_factor] *)
Definition calculate_demand_factor (timestamp : option datetime) : M Q :=
  timestamp ← match timestamp with
              | None => datetime_now
              | Some t => mret t
              end;
  e ← get_self;
  let hour := dt_hour timestamp in
  let is_weekend := (5 <=? weekday timestamp)%Z in
  let '(peak_start, peak_end) := peak_hours (demand_factors e) in
  let demand :=
    if ((peak_start <=? hour) && (hour <=? peak_end))%Z
    then peak_multiplier (demand_factors e)
    else offpeak_multiplier (demand_factors e) in
  let demand :=
    if is_weekend then demand + weekend_multiplier (demand_factors e)
    else demand in
  mret (Py.round demand 4).

(** The feature heuristic of [estimate_price_elasticity], before the final
    rounding. *)
Definition elasticity_heuristic (customer_features : Features) : Q :=
  let nps := get customer_features "nps_score" 5 in
  let plan_price := get customer_features "plan_price" 1000 in
  let usage := get customer_features "avg_monthly_usage_gb" 200 in
  let nps_factor := nps / 10 in
  let price_factor := Py.min (plan_price / 2000) 1 in
  let usage_factor := Py.min (usage / 500) 1 in
  let elasticity :=
    -2.0 + (nps_factor * 0.7) + (price_factor * 0.5) + (usage_factor * 0.3) in
  Py.max (-2.5) (Py.min (-0.2) elasticity).

(** [estimate_price_elasticity]; its optional [segment_id] argument is never
    read and is left out. *)
Definition estimate_price_elasticity (customer_features : Features) : M Q :=
  e ← get_self;
  match segmentation_model e with
  | Some m =>
      if seg_is_fitted m then
        result ← lift (Segmentation.predict_single m customer_features);
        mret (price_elasticity result)
      else mret (Py.round (elasticity_heuristic customer_features) 2)
  | None => mret (Py.round (elasticity_heuristic customer_features) 2)
  end.

(** The local function [normalize] of [calculate_churn_risk]; it is only
    called with constant bounds [min_val < max_val]. *)
Definition normalize (val min_val max_val : Q) : Q :=
  Py.max 0 (Py.min 1 ((val - min_val) / (max_val - min_val))).

(** The feature heuristic of [calculate_churn_risk], before the final
    rounding. *)
Definition churn_heuristic (customer_features : Features) : Q :=
  let usage_decline := - get customer_features "usage_change_30d" 0 in
  let days_inactive := get customer_features "days_since_login" 0 in
  let payment_issues := get customer_features "payment_failures_90d" 0 in
  let support_tickets := get customer_features "support_tickets" 0 in
  let nps := get customer_features "nps_score" 5 in
  0.25 * normalize usage_decline 0 30 +
  0.20 * normalize days_inactive 0 30 +
  0.20 * normalize payment_issues 0 3 +
  0.15 * normalize support_tickets 0 5 +
  0.20 * (1 - nps / 10).

(** [calculate_churn_risk] *)
Definition calculate_churn_risk (customer_features : Features) : M Q :=
  e ← get_self;
  match churn_model e with
  | Some m =>
      if churn_is_fitted m then
        result ← lift (Churn.predict_single m customer_features);
        mret (churn_probability result)
      else mret (Py.round (churn_heuristic customer_features) 4)
  | None => mret (Py.round (churn_heuristic customer_features) 4)
  end.

(** [_generate_recommendation], on the two entries of the result it reads:
    [pricing_result["price_change_percent"]] and
    [pricing_result["factors"]["churn_risk"]]. *)
Definition _generate_recommendation (change_pct churn_risk : Q) : string :=
  if Py.ltb change_pct (-20) then
    "High retention risk. Apply maximum discount with loyalty offer."
  else if Py.ltb change_pct (-10) then
    "Moderate retention risk. Offer promotional discount."
  else if Py.ltb change_pct 0 then
    "Slight concern. Consider small incentive to maintain engagement."
  else if Py.leb change_pct 10 then
    "Customer is stable. Standard pricing applies."
  else
    "High-value customer. Premium pricing acceptable.".

(** Lines 195 to 230 of [calculate_dynamic_price]: the three factors, the
    weights read through [self.weights], and the arithmetic on them. *)
Definition pricing_locals (base_price : Q) (customer_features : Features)
    (timestamp : option datetime) : M Locals.t :=
  demand_factor ← calculate_demand_factor timestamp;
  elasticity ← estimate_price_elasticity customer_features;
  churn_risk ← calculate_churn_risk customer_features;
  e ← get_self;
  h ← get_heap;
  let alpha := alpha (h !!! weights e) in
  let beta := beta (h !!! weights e) in
  let gamma := gamma (h !!! weights e) in
  let elasticity_factor := Py.max 0 (Py.min 1 ((- elasticity - 0.2) / 2.3)) in
  let churn_discount := churn_risk * gamma in
  let combined :=
    alpha * demand_factor + beta * (- elasticity_factor) + (- churn_discount) in
  let adjustment :=
    Py.max (min_discount (constraints e))
           (Py.min (max_premium (constraints e)) combined) in
  let unfloored_price := base_price * (1 + adjustment) in
  let dynamic_price := Py.max (base_price * 0.5) unfloored_price in
  mret {| Locals.demand_factor := demand_factor;
          Locals.elasticity := elasticity;
          Locals.churn_risk := churn_risk;
          Locals.alpha := alpha;
          Locals.beta := beta;
          Locals.gamma := gamma;
          Locals.elasticity_factor := elasticity_factor;
          Locals.churn_discount := churn_discount;
          Locals.combined := combined;
          Locals.adjustment := adjustment;
          Locals.unfloored_price := unfloored_price;
          Locals.dynamic_price := dynamic_price |}.

(** [self.pricing_history.append(result)] *)
Definition append_history (result : PricingResult) : M unit :=
  e ← get_self;
  put_self {| weights := weights e;
              constraints := constraints e;
              demand_factors := demand_factors e;
              churn_model := churn_model e;
              segmentation_model := segmentation_model e;
              pricing_history := pricing_history e ++ [result] |}.

(** [calculate_dynamic_price] *)
Definition calculate_dynamic_price (base_price : Q)
    (customer_features : Features) (timestamp : option datetime)
  : M PricingResult :=
  l ← pricing_locals base_price customer_features timestamp;
  q ← lift (truediv (Locals.dynamic_price l - base_price) base_price);
  let price_change_pct := q * 100 in
  e ← get_self;
  stamp ← match timestamp with
          | Some t => mret t
          | None => datetime_now
          end;
  let change := Py.round price_change_pct 2 in
  let result :=
    {| base_price := base_price;
       dynamic_price := Py.round (Locals.dynamic_price l) 2;
       price_change := Py.round (Locals.dynamic_price l - base_price) 2;
       price_change_percent := change;
       factors :=
         {| demand_factor := Locals.demand_factor l;
            elasticity := Locals.elasticity l;
            elasticity_factor := Py.round (Locals.elasticity_factor l) 4;
            churn_risk := Locals.churn_risk l |};
       result_weights := weights e;
       adjustment := Py.round (Locals.adjustment l) 4;
       timestamp := stamp;
       recommendation :=
         _generate_recommendation change (Locals.churn_risk l) |} in
  append_history result;;
  mret result.

(** The loop of [optimize_revenue] over [zip(customers, base_prices)], with
    its three accumulators. *)
Fixpoint optimize_loop (pairs : list (Features * Q))
    (results : list PricingResult)
    (total_base_revenue total_dynamic_revenue : Q)
  : M (list PricingResult * Q * Q) :=
  match pairs with
  | [] => mret (results, total_base_revenue, total_dynamic_revenue)
  | (features, base_price) :: rest =>
      pricing ← calculate_dynamic_price base_price features None;
      optimize_loop rest (results ++ [pricing])
        (total_base_revenue + base_price)
        (total_dynamic_revenue + dynamic_price pricing)
  end.

(** [sum(...)] over numbers. *)
Definition sum (xs : list Q) : Q := foldl Qplus 0 xs.

(** [len(xs)], as a number. *)
Definition len {A} (xs : list A) : Q := inject_Z (Z.of_nat (length xs)).

(** [optimize_revenue] *)
Definition optimize_revenue (customers : list Features)
    (base_prices : list Q) : M RevenueReport :=
  '(results, total_base_revenue, total_dynamic_revenue) ←
    optimize_loop (zip customers base_prices) [] 0 0;
  let revenue_change := total_dynamic_revenue - total_base_revenue in
  q ← lift (truediv revenue_change total_base_revenue);
  let revenue_change_pct := q * 100 in
  avg ← lift (truediv (sum (price_change_percent <$> results)) (len results));
  mret {| total_base_revenue := Py.round total_base_revenue 2;
          total_dynamic_revenue := Py.round total_dynamic_revenue 2;
          revenue_change := Py.round revenue_change 2;
          revenue_change_percent := Py.round revenue_change_pct 2;
          customers_processed := length customers;
          avg_price_change_pct := Py.round avg 2;
          individual_results := results |}.

(** [self.weights[key] = value]: a write into the dictionary object. *)
Definition setitem (f : Weights -> Weights) : M unit :=
  e ← get_self;
  h ← get_heap;
  put_heap (<[weights e := f (h !!! weights e)]> h).

Definition set_alpha (v : Q) (d : Weights) : Weights :=
  {| alpha := v; beta := beta d; gamma := gamma d |}.
Definition set_beta (v : Q) (d : Weights) : Weights :=
  {| alpha := alpha d; beta := v; gamma := gamma d |}.
Definition set_gamma (v : Q) (d : Weights) : Weights :=
  {| alpha := alpha d; beta := beta d; gamma := v |}.

(** [update_weights] *)
Definition update_weights (alpha beta gamma : option Q) : M unit :=
  match alpha with Some v => setitem (set_alpha v) | None => mret tt end;;
  match beta with Some v => setitem (set_beta v) | None => mret tt end;;
  match gamma with Some v => setitem (set_gamma v) | None => mret tt end.

(** [get_pricing_history]: the slice [self.pricing_history[-limit:]]. *)
Definition get_pricing_history (limit : Z) : M (list PricingResult) :=
  e ← get_self;
  let history := pricing_history e in
  let start :=
    if (0 <? limit)%Z then (length history - Z.to_nat limit)%nat
    else Z.to_nat (- limit) in
  mret (drop start history).

(** [calculate_roi_projection] *)
Definition calculate_roi_projection (customers_saved : Z)
    (avg_revenue_per_user : Q) (avg_lifetime_months : Z)
    (implementation_cost : Q) : M RoiProjection :=
  let revenue_saved :=
    inject_Z customers_saved * avg_revenue_per_user
    * inject_Z avg_lifetime_months in
  let net_benefit := revenue_saved - implementation_cost in
  q ← lift (truediv net_benefit implementation_cost);
  let roi := q * 100 in
  monthly ← lift (truediv revenue_saved (inject_Z avg_lifetime_months));
  payback ← lift (truediv implementation_cost monthly);
  mret {| roi_customers_saved := customers_saved;
          roi_revenue_saved := Py.round revenue_saved 2;
          roi_implementation_cost := implementation_cost;
          roi_net_benefit := Py.round net_benefit 2;
          roi_percent := Py.round roi 2;
          roi_payback_months := Py.round payback 1 |}.

(** [load]: [stored] is the content of the file at [filepath], if it
    exists.  The unpickled weights dictionary is a new object. *)
Definition load (stored : option EngineData) : M unit :=
  match stored with
  | None => raise (FileNotFoundError "Pricing engine file not found")
  | Some engine_data =>
      e ← get_self;
      h ← get_heap;
      let '(w, h') := alloc (ed_weights engine_data) h in
      put_heap h';;
      put_self {| weights := w;
                  constraints := ed_constraints engine_data;
                  demand_factors := ed_demand_factors engine_data;
                  churn_model := churn_model e;
                  segmentation_model := segmentation_model e;
                  pricing_history := pricing_history e |}
  end.

(** The scenarios [simulate_pricing_scenarios] runs when none are given. *)
Definition default_scenarios : list string :=
  ["peak_weekday"; "offpeak_weekday"; "peak_weekend"; "offpeak_weekend"].

(** The fixed timestamp of a known scenario; [None] for any other name,
    for which the code takes [datetime.now()]. *)
Definition scenario_timestamp (scenario : string) : option datetime :=
  if String.eqb scenario "peak_weekday"
  then Some (mk_datetime 2024 1 15 20 0)
  else if String.eqb scenario "offpeak_weekday"
  then Some (mk_datetime 2024 1 15 10 0)
  else if String.eqb scenario "peak_weekend"
  then Some (mk_datetime 2024 1 20 20 0)
  else if String.eqb scenario "offpeak_weekend"
  then Some (mk_datetime 2024 1 20 10 0)
  else None.

(** The loop of [simulate_pricing_scenarios] over the scenario names;
    [results] is the dictionary built so far, looked up by key only. *)
Fixpoint simulate_loop (base_price : Q) (customer_features : Features)
    (scenarios : list string) (results : gmap string PricingResult)
  : M (gmap string PricingResult) :=
  match scenarios with
  | [] => mret results
  | scenario :: rest =>
      ts ← match scenario_timestamp scenario with
           | Some t => mret t
           | None => datetime_now
           end;
      r ← calculate_dynamic_price base_price customer_features (Some ts);
      simulate_loop base_price customer_features rest
        (<[scenario := r]> results)
  end.

(** [simulate_pricing_scenarios] *)
Definition simulate_pricing_scenarios (base_price : Q)
    (customer_features : Features) (scenarios : option (list string))
  : M (gmap string PricingResult) :=
  simulate_loop base_price customer_features
    (default default_scenarios scenarios) ∅.

(** [save]: the file system is outside the world, so the call yields what it
    writes: the content of [engine_data], dumped to the model file and to
    the JSON report alike. *)
Definition save : M EngineData :=
  e ← get_self;
  h ← get_heap;
  mret {| ed_weights := h !!! weights e;
          ed_constraints := constraints e;
          ed_demand_factors := demand_factors e |}.

End DynamicPricingEngine.

(** * The API layer

    The request and response models of [ml/api/schemas/models.py] and the
    pricing routes of [ml/api/routes/pricing.py].  A route body runs after
    the framework has validated the request against its model, and after
    [get_engine()] has returned the engine the module holds, which is the
    [self] of the world; an exception that leaves a route is the
    framework's to answer. *)

(** [CustomerFeatures] *)
Module CustomerFeatures.

Record t := {
  usage_change_30d : Q;
  days_since_login : Z;
  avg_monthly_usage_gb : Q;
  session_count_30d : Z;
  avg_speed_mbps : Q;
  payment_failures_90d : Z;
  late_payments_count : Z;
  support_tickets : Z;
  complaints_count : Z;
  contract_age_months : Z;
  plan_price : Q;
  total_revenue : Q;
  nps_score : Z;
  billing_cycle_monthly : Z;
  account_type_business : Z
}.

(** The bounds its [Field]s declare. *)
Definition validated (f : t) : Prop :=
  (0 <= days_since_login f)%Z
  /\ 0 <= avg_monthly_usage_gb f
  /\ (0 <= session_count_30d f)%Z
  /\ 0 <= avg_speed_mbps f
  /\ (0 <= payment_failures_90d f)%Z
  /\ (0 <= late_payments_count f)%Z
  /\ (0 <= support_tickets f)%Z
  /\ (0 <= complaints_count f)%Z
  /\ (0 <= contract_age_months f)%Z
  /\ 0 <= plan_price f
  /\ 0 <= total_revenue f
  /\ (0 <= nps_score f <= 10)%Z
  /\ (0 <= billing_cycle_monthly f <= 1)%Z
  /\ (0 <= account_type_business f <= 1)%Z.

(** [model_dump()]: every field, under its name. *)
Definition model_dump (f : t) : Features :=
  list_to_map
    [ ("usage_change_30d", usage_change_30d f);
      ("days_since_login", inject_Z (days_since_login f));
      ("avg_monthly_usage_gb", avg_monthly_usage_gb f);
      ("session_count_30d", inject_Z (session_count_30d f));
      ("avg_speed_mbps", avg_speed_mbps f);
      ("payment_failures_90d", inject_Z (payment_failures_90d f));
      ("late_payments_count", inject_Z (late_payments_count f));
      ("support_tickets", inject_Z (support_tickets f));
      ("complaints_count", inject_Z (complaints_count f));
      ("contract_age_months", inject_Z (contract_age_months f));
      ("plan_price", plan_price f);
      ("total_revenue", total_revenue f);
      ("nps_score", inject_Z (nps_score f));
      ("billing_cycle_monthly", inject_Z (billing_cycle_monthly f));
      ("account_type_business", inject_Z (account_type_business f)) ].

End CustomerFeatures.

(** [DynamicPricingRequest] *)
Module DynamicPricingRequest.

Record t := {
  customer_id : option string;
  base_price : Q;
  features : CustomerFeatures.t;
  timestamp : option datetime
}.

Definition validated (request : t) : Prop :=
  0 < base_price request /\ CustomerFeatures.validated (features request).

End DynamicPricingRequest.

(** [DynamicPricingResponse]; its [PricingFactors] has the four entries of
    the engine's ["factors"]. *)
Module DynamicPricingResponse.

Record t := {
  customer_id : option string;
  base_price : Q;
  dynamic_price : Q;
  price_change : Q;
  price_change_percent : Q;
  factors : Factors;
  adjustment : Q;
  recommendation : string;
  timestamp : datetime
}.

End DynamicPricingResponse.

(** [PricingSimulationRequest] *)
Module PricingSimulationRequest.

Record t := {
  base_price : Q;
  features : CustomerFeatures.t;
  scenarios : option (list string)
}.

Definition validated (request : t) : Prop :=
  0 < base_price request /\ CustomerFeatures.validated (features request).

End PricingSimulationRequest.

(** [CustomerAnalysisRequest] *)
Module CustomerAnalysisRequest.

Record t := {
  customer_id : option string;
  base_price : Q;
  features : CustomerFeatures.t
}.

Definition validated (request : t) : Prop :=
  0 < base_price request /\ CustomerFeatures.validated (features request).

End CustomerAnalysisRequest.

(** [CustomerAnalysisResponse] *)
Module CustomerAnalysisResponse.

Record t := {
  customer_id : option string;
  churn_probability : Q;
  churn_prediction : Z;
  risk_level : string;
  segment_id : Z;
  segment_name : string;
  price_elasticity : Q;
  base_price : Q;
  recommended_price : Q;
  price_adjustment_percent : Q;
  overall_recommendation : string;
  action_items : list string;
  timestamp : datetime
}.

End CustomerAnalysisResponse.

(** The dictionaries the simulation route returns. *)
Module SimulationResult.

Record scenario := {
  base_price : Q;
  dynamic_price : Q;
  price_change : Q;
  price_change_percent : Q;
  factors : Factors
}.

Record comparison := {
  min_price : Q;
  max_price : Q;
  avg_price : Q
}.

Record t := {
  request_base_price : Q;
  scenarios : gmap string scenario;
  compared : comparison
}.

End SimulationResult.

(** The dictionaries the batch route returns. *)
Module Batch.

Record entry := {
  customer_id : option string;
  base_price : Q;
  dynamic_price : Q;
  price_change_percent : Q;
  churn_risk : Q
}.

Record summary := {
  total_customers : nat;
  total_base_revenue : Q;
  total_dynamic_revenue : Q;
  revenue_change : Q;
  revenue_change_percent : Q
}.

Record t := {
  results : list entry;
  summarized : summary
}.

End Batch.

(** The pricing routes. *)
Module PricingRoutes.

(** [features_to_dict] *)
Definition features_to_dict (features : CustomerFeatures.t) : Features :=
  CustomerFeatures.model_dump features.

(** [POST /pricing/calculate] *)
Definition calculate_dynamic_price (request : DynamicPricingRequest.t)
  : M DynamicPricingResponse.t :=
  let features_dict :=
    features_to_dict (DynamicPricingRequest.features request) in
  result ← DynamicPricingEngine.calculate_dynamic_price
             (DynamicPricingRequest.base_price request) features_dict
             (DynamicPricingRequest.timestamp request);
  now ← datetime_now;
  mret {| DynamicPricingResponse.customer_id :=
            DynamicPricingRequest.customer_id request;
          DynamicPricingResponse.base_price := base_price result;
          DynamicPricingResponse.dynamic_price := dynamic_price result;
          DynamicPricingResponse.price_change := price_change result;
          DynamicPricingResponse.price_change_percent :=
            price_change_percent result;
          DynamicPricingResponse.factors :=
            {| demand_factor := demand_factor (factors result);
               elasticity := elasticity (factors result);
               elasticity_factor := elasticity_factor (factors result);
               churn_risk := churn_risk (factors result) |};
          DynamicPricingResponse.adjustment := adjustment result;
          DynamicPricingResponse.recommendation := recommendation result;
          DynamicPricingResponse.timestamp := now |}.

(** [min(...)] and [max(...)] over the values of a generator: the first
    smallest and the first largest, [ValueError] when there is none (the
    text of its message varies with the interpreter, and no property reads
    it). *)
Definition min_of (xs : list Q) : outcome Q :=
  match xs with
  | [] => Raised (ValueError "min() arg is an empty sequence")
  | x :: rest =>
      Returned (foldl (fun m y => if Py.ltb y m then y else m) x rest)
  end.

Definition max_of (xs : list Q) : outcome Q :=
  match xs with
  | [] => Raised (ValueError "max() arg is an empty sequence")
  | x :: rest =>
      Returned (foldl (fun m y => if Py.ltb m y then y else m) x rest)
  end.

(** One entry of [formatted_scenarios]. *)
Definition format_scenario (result : PricingResult) : SimulationResult.scenario :=
  {| SimulationResult.base_price := base_price result;
     SimulationResult.dynamic_price := dynamic_price result;
     SimulationResult.price_change := price_change result;
     SimulationResult.price_change_percent := price_change_percent result;
     SimulationResult.factors := factors result |}.

(** [formatted_scenarios.values()], as the prices the comparison reads. *)
Definition scenario_prices (formatted : gmap string SimulationResult.scenario)
  : list Q :=
  (fun item => SimulationResult.dynamic_price (snd item)) <$> map_to_list formatted.

(** [POST /pricing/simulate] *)
Definition simulate_pricing_scenarios (request : PricingSimulationRequest.t)
  : M SimulationResult.t :=
  let features_dict :=
    features_to_dict (PricingSimulationRequest.features request) in
  scenarios ← DynamicPricingEngine.simulate_pricing_scenarios
                (PricingSimulationRequest.base_price request) features_dict
                (PricingSimulationRequest.scenarios request);
  let formatted_scenarios := format_scenario <$> scenarios in
  let prices := scenario_prices formatted_scenarios in
  min_price ← lift (min_of prices);
  max_price ← lift (max_of prices);
  avg_price ← lift (truediv (DynamicPricingEngine.sum prices)
                            (DynamicPricingEngine.len prices));
  mret {| SimulationResult.request_base_price :=
            PricingSimulationRequest.base_price request;
          SimulationResult.scenarios := formatted_scenarios;
          SimulationResult.compared :=
            {| SimulationResult.min_price := min_price;
               SimulationResult.max_price := max_price;
               SimulationResult.avg_price := avg_price |} |}.

(** The dictionary [calculate_batch_pricing] appends to its results for
    one customer. *)
Definition batch_entry (customer : DynamicPricingRequest.t)
    (result : PricingResult) : Batch.entry :=
  {| Batch.customer_id := DynamicPricingRequest.customer_id customer;
     Batch.base_price := base_price result;
     Batch.dynamic_price := dynamic_price result;
     Batch.price_change_percent := price_change_percent result;
     Batch.churn_risk := churn_risk (factors result) |}.

(** The loop of [calculate_batch_pricing], with its three accumulators. *)
Fixpoint batch_loop (customers : list DynamicPricingRequest.t)
    (results : list Batch.entry) (total_base total_dynamic : Q)
  : M (list Batch.entry * Q * Q) :=
  match customers with
  | [] => mret (results, total_base, total_dynamic)
  | customer :: rest =>
      let features_dict :=
        features_to_dict (DynamicPricingRequest.features customer) in
      result ← DynamicPricingEngine.calculate_dynamic_price
                 (DynamicPricingRequest.base_price customer) features_dict
                 (DynamicPricingRequest.timestamp customer);
      batch_loop rest
        (results ++ [batch_entry customer result])
        (total_base + base_price result)
        (total_dynamic + dynamic_price result)
  end.

(** [POST /pricing/batch] *)
Definition calculate_batch_pricing (customers : list DynamicPricingRequest.t)
  : M Batch.t :=
  '(results, total_base, total_dynamic) ← batch_loop customers [] 0 0;
  percent ← (if Py.ltb 0 total_base
             then q ← lift (truediv (total_dynamic - total_base) total_base);
                  mret (Py.round (q * 100) 2)
             else mret 0);
  mret {| Batch.results := results;
          Batch.summarized :=
            {| Batch.total_customers := length results;
               Batch.total_base_revenue := Py.round total_base 2;
               Batch.total_dynamic_revenue := Py.round total_dynamic 2;
               Batch.revenue_change :=
                 Py.round (total_dynamic - total_base) 2;
               Batch.revenue_change_percent := percent |} |}.

(** The segment [analyze_customer] estimates from an elasticity: its name
    and its identifier. *)
Definition segment_of_elasticity (elasticity : Q) : string * Z :=
  if Py.ltb (-0.5) elasticity then ("Premium Power Users", 0%Z)
  else if Py.ltb (-1.0) elasticity then ("Casual Premium", 4%Z)
  else if Py.ltb (-1.5) elasticity then ("Value-Seekers", 2%Z)
  else if Py.ltb (-1.9) elasticity then ("Price-Conscious", 1%Z)
  else ("Budget Users", 3%Z).

(** [POST /pricing/customer-analysis] *)
Definition analyze_customer (request : CustomerAnalysisRequest.t)
  : M CustomerAnalysisResponse.t :=
  let features_dict :=
    features_to_dict (CustomerAnalysisRequest.features request) in
  pricing_result ← DynamicPricingEngine.calculate_dynamic_price
                     (CustomerAnalysisRequest.base_price request)
                     features_dict None;
  let risk := churn_risk (factors pricing_result) in
  let churn_prediction := if Py.leb 0.5 risk then 1%Z else 0%Z in
  let risk_level :=
    if Py.leb 0.6 risk then "high"
    else if Py.leb 0.3 risk then "medium"
    else "low" in
  let elasticity := elasticity (factors pricing_result) in
  let '(segment_name, segment_id) := segment_of_elasticity elasticity in
  let action_items : list string :=
    (if String.eqb risk_level "high"
     then ["URGENT: Initiate proactive retention outreach";
           "Apply retention discount immediately"]
     else if String.eqb risk_level "medium"
     then ["Schedule customer success check-in";
           "Consider loyalty rewards program"]
     else [])
    ++ (if Py.ltb 0.3 risk
        then ["Review and resolve any pending support tickets"] else [])
    ++ (if Py.ltb 0 (get features_dict "payment_failures_90d" 0)
        then ["Address payment issues with customer"] else []) in
  let action_items :=
    match action_items with
    | [] => ["Maintain current engagement level";
             "Consider upsell opportunities"]
    | _ => action_items
    end in
  now ← datetime_now;
  mret {| CustomerAnalysisResponse.customer_id :=
            CustomerAnalysisRequest.customer_id request;
          CustomerAnalysisResponse.churn_probability := risk;
          CustomerAnalysisResponse.churn_prediction := churn_prediction;
          CustomerAnalysisResponse.risk_level := risk_level;
          CustomerAnalysisResponse.segment_id := segment_id;
          CustomerAnalysisResponse.segment_name := segment_name;
          CustomerAnalysisResponse.price_elasticity := elasticity;
          CustomerAnalysisResponse.base_price :=
            CustomerAnalysisRequest.base_price request;
          CustomerAnalysisResponse.recommended_price :=
            dynamic_price pricing_result;
          CustomerAnalysisResponse.price_adjustment_percent :=
            price_change_percent pricing_result;
          CustomerAnalysisResponse.overall_recommendation :=
            recommendation pricing_result;
          CustomerAnalysisResponse.action_items := action_items;
          CustomerAnalysisResponse.timestamp := now |}.

End PricingRoutes.

(** [ChurnPredictionRequest] *)
Module ChurnPredictionRequest.

Record t := {
  customer_id : option string;
  features : CustomerFeatures.t
}.

End ChurnPredictionRequest.

(** [ChurnPredictionResponse] *)
Module ChurnPredictionResponse.

Record t := {
  customer_id : option string;
  churn_probability : Q;
  churn_prediction : Z;
  risk_level : string;
  recommendation : string;
  timestamp : datetime
}.

(** [ChurnPredictionResponse(...)]: the model checks the bounds of its
    [Field]s when it is built, and raises a validation error, which is a
    [ValueError], when one is violated. *)
Definition create (customer_id : option string) (churn_probability : Q)
    (churn_prediction : Z) (risk_level recommendation : string)
    (timestamp : datetime) : outcome t :=
  if Py.leb 0 churn_probability && Py.leb churn_probability 1
     && (0 <=? churn_prediction)%Z && (churn_prediction <=? 1)%Z
  then Returned {| customer_id := customer_id;
                   churn_probability := churn_probability;
                   churn_prediction := churn_prediction;
                   risk_level := risk_level;
                   recommendation := recommendation;
                   timestamp := timestamp |}
  else Raised (ValueError "1 validation error for ChurnPredictionResponse").

End ChurnPredictionResponse.

(** [BatchChurnResponse] with its summary dictionary. *)
Module BatchChurn.

Record summary := {
  total_customers : nat;
  high_risk : nat;
  medium_risk : nat;
  low_risk : nat;
  avg_churn_probability : Q;
  predicted_churners : nat
}.

Record t := {
  predictions : list ChurnPredictionResponse.t;
  summarized : summary
}.

End BatchChurn.

(** The churn routes of [ml/api/routes/churn.py], from the point where
    [get_model()] has returned the model the module holds. *)
Module ChurnRoutes.

(** [features_to_dict] *)
Definition features_to_dict (features : CustomerFeatures.t) : Features :=
  CustomerFeatures.model_dump features.

(** The response built for one request from [model.predict_single]; the
    arguments of the response, the clock reading among them, are evaluated
    before the response is validated. *)
Definition respond (model : ChurnPredictor)
    (request : ChurnPredictionRequest.t)
  : M (ChurnPrediction * ChurnPredictionResponse.t) :=
  let features_dict :=
    features_to_dict (ChurnPredictionRequest.features request) in
  result ← lift (Churn.predict_single model features_dict);
  now ← datetime_now;
  response ← lift (ChurnPredictionResponse.create
                     (ChurnPredictionRequest.customer_id request)
                     (churn_probability result)
                     (churn_prediction result)
                     (risk_level result)
                     (Churn._get_recommendation
                        (churn_predict_proba model features_dict)
                        features_dict)
                     now);
  mret (result, response).

(** [POST /churn/predict] *)
Definition predict_churn (model : ChurnPredictor)
    (request : ChurnPredictionRequest.t) : M ChurnPredictionResponse.t :=
  '(_, response) ← respond model request;
  mret response.

(** The loop of [predict_churn_batch], with its list and three counters. *)
Fixpoint batch_loop (model : ChurnPredictor)
    (customers : list ChurnPredictionRequest.t)
    (predictions : list ChurnPredictionResponse.t)
    (high_risk_count medium_risk_count low_risk_count : nat)
  : M (list ChurnPredictionResponse.t * nat * nat * nat) :=
  match customers with
  | [] => mret (predictions, high_risk_count, medium_risk_count,
                low_risk_count)
  | customer_request :: rest =>
      '(result, prediction) ← respond model customer_request;
      if String.eqb (risk_level result) "high" then
        batch_loop model rest (predictions ++ [prediction])
          (high_risk_count + 1) medium_risk_count low_risk_count
      else if String.eqb (risk_level result) "medium" then
        batch_loop model rest (predictions ++ [prediction])
          high_risk_count (medium_risk_count + 1) low_risk_count
      else
        batch_loop model rest (predictions ++ [prediction])
          high_risk_count medium_risk_count (low_risk_count + 1)
  end.

(** [sum(1 for p in predictions if p.churn_prediction == 1)] *)
Definition count_churners (predictions : list ChurnPredictionResponse.t)
  : nat :=
  length (List.filter
            (fun p => (ChurnPredictionResponse.churn_prediction p =? 1)%Z)
            predictions).

(** [POST /churn/predict/batch] *)
Definition predict_churn_batch (model : ChurnPredictor)
    (customers : list ChurnPredictionRequest.t) : M BatchChurn.t :=
  '(predictions, high_risk_count, medium_risk_count, low_risk_count) ←
    batch_loop model customers [] 0%nat 0%nat 0%nat;
  let total := length predictions in
  avg_probability ←
    (if (0 <? total)%nat
     then lift (truediv
                  (DynamicPricingEngine.sum
                     (ChurnPredictionResponse.churn_probability
                        <$> predictions))
                  (DynamicPricingEngine.len predictions))
     else mret 0);
  mret {| BatchChurn.predictions := predictions;
          BatchChurn.summarized :=
            {| BatchChurn.total_customers := total;
               BatchChurn.high_risk := high_risk_count;
               BatchChurn.medium_risk := medium_risk_count;
               BatchChurn.low_risk := low_risk_count;
               BatchChurn.avg_churn_probability :=
                 Py.round avg_probability 4;
               BatchChurn.predicted_churners :=
                 count_churners predictions |} |}.

End ChurnRoutes.

(** * Vocabulary of the properties *)

Import DynamicPricingEngine.

(** ** Worlds and outcomes *)

(** The world after the first clock read of a call, if it makes one. *)
Definition tick (w : World) : World :=
  {| heap := heap w; wall_clock := wall_clock w;
     clock_reads := S (clock_reads w); self := self w |}.

Definition after_clock (timestamp : option datetime) (w : World) : World :=
  match timestamp with Some _ => w | None => tick w end.

(** The time a call works with. *)
Definition effective_time (timestamp : option datetime) (w : World)
  : datetime :=
  match timestamp with
  | Some t => t
  | None => wall_clock w (clock_reads w)
  end.

(** The world a returning call leaves behind: the clock may have been read
    twice, and [result] is the new last entry of the history. *)
Definition after_call (w : World) (ts : option datetime)
    (result : PricingResult) : World :=
  let w1 := match ts with Some _ => w | None => tick (tick w) end in
  {| heap := heap w1; wall_clock := wall_clock w1;
     clock_reads := clock_reads w1;
     self := {| weights := weights (self w);
                constraints := constraints (self w);
                demand_factors := demand_factors (self w);
                churn_model := churn_model (self w);
                segmentation_model := segmentation_model (self w);
                pricing_history := pricing_history (self w) ++ [result] |} |}.

(** The outcome is a return whose value satisfies [P]. *)
Definition returned_with {A} (P : A -> Prop) (o : outcome A) : Prop :=
  match o with Returned a => P a | Raised _ => False end.

Definition raised_with {A} (P : exception -> Prop) (o : outcome A) : Prop :=
  match o with Returned _ => False | Raised e => P e end.

(** [w'] differs from [w] in the content of the engine's weights dictionary
    only, which went through [f]. *)
Definition weights_rewritten (f : Weights -> Weights) (w w' : World) : Prop :=
  self w' = self w
  /\ wall_clock w' = wall_clock w
  /\ clock_reads w' = clock_reads w
  /\ heap w' !!! weights (self w) = f (heap w !!! weights (self w))
  /\ (forall l : loc, l <> weights (self w) -> heap w' !! l = heap w !! l)
  /\ (forall l : loc, is_Some (heap w !! l) -> is_Some (heap w' !! l)).

(** Every reference held by the engine or by a recorded result points to a
    dictionary on the heap. *)
Definition well_formed (w : World) : Prop :=
  is_Some (heap w !! weights (self w))
  /\ Forall (fun r => is_Some (heap w !! result_weights r))
            (pricing_history (self w)).

(** The assignment one optional argument of [update_weights] makes. *)
Definition assign (set : Q -> Weights -> Weights) (arg : option Q)
  : Weights -> Weights :=
  match arg with Some v => set v | None => id end.

(** What [result["weights"]] shows when read in world [w]. *)
Definition recorded_weights (w : World) (r : PricingResult) : Weights :=
  heap w !!! result_weights r.

(** The pricing history as a reader sees it: every entry together with the
    weights it shows. *)
Definition history_view (w : World) : list (PricingResult * Weights) :=
  (fun r => (r, recorded_weights w r)) <$> pricing_history (self w).

(** [rs] are the results of pricing the pairs one after the other, from
    world [w] to world [w'], each call without a timestamp. *)
Inductive priced_in_turn
  : World -> list (Features * Q) -> list PricingResult -> World -> Prop :=
| priced_nil (w : World) : priced_in_turn w [] [] w
| priced_cons (w w1 w2 : World) (features : Features) (base : Q)
    (r : PricingResult) (rest : list (Features * Q))
    (rs : list PricingResult) :
    calculate_dynamic_price base features None w = (Returned r, w1) ->
    priced_in_turn w1 rest rs w2 ->
    priced_in_turn w ((features, base) :: rest) (r :: rs) w2.

(** ** The specification's words *)

(** [clamp(x, lo, hi)] *)
Definition clamp (x lo hi : Q) : Q :=
  if Py.ltb x lo then lo else if Py.ltb hi x then hi else x.


(** Min-max normalisation of [x] against [[lo, hi]], clamped to [[0, 1]]. *)
Definition norm (x lo hi : Q) : Q := clamp ((x - lo) / (hi - lo)) 0 1.

(** The hour lies in the peak window, both ends included. *)
Definition in_peak_window (df : DemandFactors) (t : datetime) : Prop :=
  (fst (peak_hours df) <= dt_hour t /\ dt_hour t <= snd (peak_hours df))%Z.

(** The day is Saturday or Sunday. *)
Definition on_weekend (t : datetime) : Prop :=
  day_of_week t = Saturday \/ day_of_week t = Sunday.

#[global] Instance day_name_eq_dec : EqDecision day_name.
Proof. solve_decision. Defined.

#[global] Instance in_peak_window_dec df t : Decision (in_peak_window df t).
Proof. unfold in_peak_window. apply _. Defined.

#[global] Instance on_weekend_dec t : Decision (on_weekend t).
Proof. unfold on_weekend. apply _. Defined.

(** The demand factor as the specification words it: the peak or off-peak
    multiplier by the hour, the weekend multiplier on top on Saturday and
    Sunday, rounded to four decimals. *)
Definition spec_demand_factor (df : DemandFactors) (t : datetime) : Q :=
  let by_hour :=
    if decide (in_peak_window df t) then peak_multiplier df
    else offpeak_multiplier df in
  let by_day :=
    if decide (on_weekend t) then by_hour + weekend_multiplier df
    else by_hour in
  Py.round by_day 4.

(** [v] is [x] rounded to [n] decimals, to the nearest: a multiple of
    [10 ** -n] at most half a unit away from [x].  Which of two neighbours
    is taken when [x] lies halfway, or so close to halfway that the binary
    representation decides, is left open. *)
Definition rounded_to (n : nat) (x v : Q) : Prop :=
  (exists k : Z, v == inject_Z k / Py.pow10 n)
  /\ - (1 # 2) / Py.pow10 n <= v - x <= (1 # 2) / Py.pow10 n.

(** The fallback heuristic as the specification words it, before the
    rounding. *)
Definition spec_churn_risk (features : Features) : Q :=
  let usage_decline := - get features "usage_change_30d" 0 in
  let days_since_login := get features "days_since_login" 0 in
  let payment_failures := get features "payment_failures_90d" 0 in
  let support_tickets := get features "support_tickets" 0 in
  let nps := get features "nps_score" 5 in
  0.25 * norm usage_decline 0 30
  + 0.20 * norm days_since_login 0 30
  + 0.20 * norm payment_failures 0 3
  + 0.15 * norm support_tickets 0 5
  + 0.20 * (1 - nps / 10).

(** The invariant of the pricing constraints: a discount bound below zero,
    a premium bound at or above it. *)
Definition constraints_invariant (c : Constraints) : Prop :=
  min_discount c < 0 /\ 0 <= max_premium c.






(** Errors the code reports on purpose, as opposed to faults of the
    arithmetic. *)
Definition domain_error (e : exception) : Prop :=
  match e with
  | ZeroDivisionError => False
  | ValueError _ | FileNotFoundError _ => True
  end.

(** The projected revenue of a call. *)
Definition revenue_saved (customers_saved : Z) (avg_revenue_per_user : Q)
    (avg_lifetime_months : Z) : Q :=
  inject_Z customers_saved * avg_revenue_per_user
  * inject_Z avg_lifetime_months.

(** ** What the methods evaluate to *)

(** No fitted collaborator is attached: the estimator takes its fallback. *)
Definition no_fitted_segmentation (e : Engine) : Prop :=
  match segmentation_model e with
  | Some m => seg_is_fitted m = false
  | None => True
  end.

Definition no_fitted_churn (e : Engine) : Prop :=
  match churn_model e with
  | Some m => churn_is_fitted m = false
  | None => True
  end.

(** What [estimate_price_elasticity] evaluates to. *)
Definition elasticity_value (e : Engine) (features : Features) : Q :=
  match segmentation_model e with
  | Some m =>
      if seg_is_fitted m
      then from_option sp_price_elasticity (-1.0)
             (segment_profiles m !! seg_predict m features)
      else Py.round (elasticity_heuristic features) 2
  | None => Py.round (elasticity_heuristic features) 2
  end.

(** What [calculate_churn_risk] evaluates to. *)
Definition churn_value (e : Engine) (features : Features) : Q :=
  match churn_model e with
  | Some m =>
      if churn_is_fitted m
      then Py.round (churn_predict_proba m features) 4
      else Py.round (churn_heuristic features) 4
  | None => Py.round (churn_heuristic features) 4
  end.



(** [l] holds the values the local variables take in the call
    [calculate_dynamic_price(base, features, ts)] made in world [w]. *)
Definition locals_trace (w : World) (base : Q) (features : Features)
    (ts : option datetime) (l : Locals.t) : Prop :=
  Locals.demand_factor l
    = spec_demand_factor (demand_factors (self w)) (effective_time ts w)
  /\ Locals.elasticity l = elasticity_value (self w) features
  /\ Locals.churn_risk l = churn_value (self w) features
  /\ Locals.alpha l = alpha (heap w !!! weights (self w))
  /\ Locals.beta l = beta (heap w !!! weights (self w))
  /\ Locals.gamma l = gamma (heap w !!! weights (self w))
  /\ Locals.elasticity_factor l
     = Py.max 0 (Py.min 1 ((- Locals.elasticity l - 0.2) / 2.3))
  /\ Locals.churn_discount l = Locals.churn_risk l * Locals.gamma l
  /\ Locals.combined l
     = Locals.alpha l * Locals.demand_factor l
       + Locals.beta l * (- Locals.elasticity_factor l)
       + (- Locals.churn_discount l)
  /\ Locals.adjustment l
     = Py.max (min_discount (constraints (self w)))
              (Py.min (max_premium (constraints (self w)))
                      (Locals.combined l))
  /\ Locals.unfloored_price l = base * (1 + Locals.adjustment l)
  /\ Locals.dynamic_price l
     = Py.max (base * 0.5) (Locals.unfloored_price l).

(** [r] is the dictionary the call builds from the locals [l]. *)
Definition result_of (w : World) (base : Q) (ts : option datetime)
    (l : Locals.t) (r : PricingResult) : Prop :=
  base_price r = base
  /\ dynamic_price r = Py.round (Locals.dynamic_price l) 2
  /\ price_change r = Py.round (Locals.dynamic_price l - base) 2
  /\ price_change_percent r
     = Py.round ((Locals.dynamic_price l - base) / base * 100) 2
  /\ demand_factor (factors r) = Locals.demand_factor l
  /\ elasticity (factors r) = Locals.elasticity l
  /\ elasticity_factor (factors r) = Py.round (Locals.elasticity_factor l) 4
  /\ churn_risk (factors r) = Locals.churn_risk l
  /\ result_weights r = weights (self w)
  /\ adjustment r = Py.round (Locals.adjustment l) 4
  /\ timestamp r
     = match ts with
       | Some t => t
       | None => wall_clock w (S (clock_reads w))
       end
  /\ recommendation r
     = _generate_recommendation (price_change_percent r)
                                (churn_risk (factors r)).

(** ** Sample worlds and inputs *)

Definition monday_10h : datetime := mk_datetime 2024 1 15 10 0.
Definition monday_20h : datetime := mk_datetime 2024 1 15 20 0.
Definition saturday_10h : datetime := mk_datetime 2024 1 20 10 0.
Definition saturday_20h : datetime := mk_datetime 2024 1 20 20 0.

(** A fresh engine under a clock that always reads Monday 10:00. *)
Definition fresh_world : World := new_world (fun _ => monday_10h).

(** A saved engine file whose discount bound lies above its premium bound. *)
Definition inverted_constraints_file : EngineData :=
  {| ed_weights := Config.PRICING_weights;
     ed_constraints :=
       {| min_discount := 0.5; max_premium := 0.2; churn_threshold := 0.7 |};
     ed_demand_factors := Config.PRICING_demand_factors |}.

(** The engine after loading that file. *)
Definition inverted_world : World :=
  snd (load (Some inverted_constraints_file) fresh_world).

(** A customer with every risk indicator raised. *)
Definition risky_customer : Features :=
  {[ "usage_change_30d" := -45; "days_since_login" := 12;
     "payment_failures_90d" := 2; "support_tickets" := 7;
     "nps_score" := 3 ]}.

(** A fitted segmentation collaborator with two trained clusters. *)
Definition trained_segmentation : CustomerSegmentation :=
  {| seg_is_fitted := true;
     seg_predict := fun features =>
       if Py.ltb 1500 (get features "plan_price" 0) then 0%Z else 2%Z;
     seg_confidence := fun _ => 0.8;
     segment_profiles :=
       {[ 0%Z := Segmentation.create_profile Config.premium_power_users;
          2%Z := Segmentation.create_profile Config.value_seekers ]} |}.

Definition segmented_world : World :=
  snd (set_models None (Some trained_segmentation) fresh_world).

(** ** Frames *)

(** From [w] to [w'] nothing of the configuration changed: the heap of
    weights dictionaries, the engine's reference to its own, the constraints,
    the demand-factor table, the collaborators, the wall clock. *)
Definition configuration_kept (w w' : World) : Prop :=
  heap w' = heap w
  /\ wall_clock w' = wall_clock w
  /\ weights (self w') = weights (self w)
  /\ constraints (self w') = constraints (self w)
  /\ demand_factors (self w') = demand_factors (self w)
  /\ churn_model (self w') = churn_model (self w)
  /\ segmentation_model (self w') = segmentation_model (self w).

(** From [w] to [w'] the history grew by [added], at its end. *)
Definition history_extended_by (added : list PricingResult) (w w' : World)
  : Prop :=
  pricing_history (self w') = pricing_history (self w) ++ added.

(** The results a call to [calculate_dynamic_price] records. *)
Definition recorded {A} (o : outcome A) (f : A -> list PricingResult)
  : list PricingResult :=
  match o with Returned a => f a | Raised _ => [] end.

(** The churn estimate of this customer cannot be negative: a fitted
    collaborator gives a non-negative probability, or the heuristic runs on
    an NPS score of at most 10. *)
Definition churn_risk_nonnegative (e : Engine) (features : Features) : Prop :=
  match churn_model e with
  | Some m =>
      if churn_is_fitted m then 0 <= churn_predict_proba m features
      else get features "nps_score" 5 <= 10
  | None => get features "nps_score" 5 <= 10
  end.

(** The features of the churn heuristic that count events: more of them
    means more risk. *)
Definition risk_indicator (key : string) : Prop :=
  key = "days_since_login" \/ key = "payment_failures_90d"
  \/ key = "support_tickets".

(** The scenario name is one of the four with a fixed timestamp. *)
Definition known_scenario (scenario : string) : Prop :=
  is_Some (scenario_timestamp scenario).

(** In the dictionary [m], the scenario [name] holds the result that
    [calculate_dynamic_price] returns in world [w] at the scenario's
    timestamp. *)
Definition scenario_priced_as_in (w : World) (base : Q) (features : Features)
    (m : gmap string PricingResult) (name : string) : Prop :=
  exists (t : datetime) (r : PricingResult),
    scenario_timestamp name = Some t
    /\ m !! name = Some r
    /\ fst (calculate_dynamic_price base features (Some t) w) = Returned r.

(** A fresh engine that has priced two customers at 999, on Monday 20:00 and
    on Saturday 10:00. *)
Definition twice_priced_world : World :=
  snd (calculate_dynamic_price 999 risky_customer (Some saturday_10h)
         (snd (calculate_dynamic_price 999 ∅ (Some monday_20h) fresh_world))).

(** ** The API: sample data and words *)

(** A fitted churn collaborator that looks at the NPS score only. *)
Definition fitted_churn : ChurnPredictor :=
  {| churn_is_fitted := true;
     churn_predict_proba := fun features =>
       if Py.ltb (get features "nps_score" 5) 5 then 0.72 else 0.12 |}.

(** The example body of the [CustomerFeatures] schema. *)
Definition example_features : CustomerFeatures.t :=
  {| CustomerFeatures.usage_change_30d := -5.5;
     CustomerFeatures.days_since_login := 3;
     CustomerFeatures.avg_monthly_usage_gb := 250.5;
     CustomerFeatures.session_count_30d := 45;
     CustomerFeatures.avg_speed_mbps := 95.5;
     CustomerFeatures.payment_failures_90d := 0;
     CustomerFeatures.late_payments_count := 1;
     CustomerFeatures.support_tickets := 2;
     CustomerFeatures.complaints_count := 0;
     CustomerFeatures.contract_age_months := 18;
     CustomerFeatures.plan_price := 999;
     CustomerFeatures.total_revenue := 18000;
     CustomerFeatures.nps_score := 7;
     CustomerFeatures.billing_cycle_monthly := 1;
     CustomerFeatures.account_type_business := 0 |}.

(** A customer in trouble, within the bounds of the schema. *)
Definition troubled_features : CustomerFeatures.t :=
  {| CustomerFeatures.usage_change_30d := -45;
     CustomerFeatures.days_since_login := 25;
     CustomerFeatures.avg_monthly_usage_gb := 80;
     CustomerFeatures.session_count_30d := 4;
     CustomerFeatures.avg_speed_mbps := 20;
     CustomerFeatures.payment_failures_90d := 2;
     CustomerFeatures.late_payments_count := 3;
     CustomerFeatures.support_tickets := 7;
     CustomerFeatures.complaints_count := 2;
     CustomerFeatures.contract_age_months := 6;
     CustomerFeatures.plan_price := 499;
     CustomerFeatures.total_revenue := 3000;
     CustomerFeatures.nps_score := 2;
     CustomerFeatures.billing_cycle_monthly := 1;
     CustomerFeatures.account_type_business := 0 |}.

Definition example_request : DynamicPricingRequest.t :=
  {| DynamicPricingRequest.customer_id := Some "CUST_000123";
     DynamicPricingRequest.base_price := 999;
     DynamicPricingRequest.features := example_features;
     DynamicPricingRequest.timestamp := None |}.

Definition troubled_request : DynamicPricingRequest.t :=
  {| DynamicPricingRequest.customer_id := None;
     DynamicPricingRequest.base_price := 499;
     DynamicPricingRequest.features := troubled_features;
     DynamicPricingRequest.timestamp := None |}.

Definition example_analysis_request : CustomerAnalysisRequest.t :=
  {| CustomerAnalysisRequest.customer_id := Some "CUST_000123";
     CustomerAnalysisRequest.base_price := 999;
     CustomerAnalysisRequest.features := example_features |}.

(** A world whose engine has the fitted churn collaborator, and one whose
    engine has both fitted collaborators. *)
Definition churn_fitted_world : World :=
  snd (set_models (Some fitted_churn) None fresh_world).

(** A fitted churn collaborator whose probability is just below the
    threshold of the medium risk level, and an engine that holds it. *)
Definition borderline_churn : ChurnPredictor :=
  {| churn_is_fitted := true;
     churn_predict_proba := fun _ => 0.29996 |}.

Definition borderline_world : World :=
  snd (set_models (Some borderline_churn) None fresh_world).

(** The probability is not so close below the threshold that rounding to
    four places lifts it onto the threshold. *)
Definition clear_of_rounding (probability threshold : Q) : Prop :=
  probability < threshold - 0.00005 \/ threshold <= probability.

(** The arguments [optimize_revenue] would get for a batch request. *)
Definition pricing_pair (customer : DynamicPricingRequest.t) : Features * Q :=
  (PricingRoutes.features_to_dict (DynamicPricingRequest.features customer),
   DynamicPricingRequest.base_price customer).

(** The classifier's probability for this request is a probability. *)
Definition probability_in_range (model : ChurnPredictor)
    (request : ChurnPredictionRequest.t) : Prop :=
  0 <= churn_predict_proba model
         (ChurnRoutes.features_to_dict
            (ChurnPredictionRequest.features request)) <= 1.

Definition example_churn_request : ChurnPredictionRequest.t :=
  {| ChurnPredictionRequest.customer_id := Some "CUST_000123";
     ChurnPredictionRequest.features := example_features |}.

Definition troubled_churn_request : ChurnPredictionRequest.t :=
  {| ChurnPredictionRequest.customer_id := None;
     ChurnPredictionRequest.features := troubled_features |}.

(** The text [_get_recommendation] gives for a stable customer. *)
Definition stable_message : string :=
  "Customer is stable. Continue standard engagement.".

(** * Properties *)

(** ** The embedding on known values *)

Example round_ex1 : Py.round (917125 # 1000) 2 == 91712 # 100.
Proof. reflexivity. Qed.

Example round_ex2 : Py.round (375 # 1000) 2 == 38 # 100.
Proof. reflexivity. Qed.

Example round_ex3 : Py.round (- (125 # 1000)) 2 == - (12 # 100).
Proof. reflexivity. Qed.

Example round_ex4 : Py.round (- (128 # 100)) 2 == - (128 # 100).
Proof. reflexivity. Qed.

Example monday_2024_01_15 : day_of_week (mk_datetime 2024 1 15 20 0) = Monday.
Proof. reflexivity. Qed.

Example saturday_2024_01_20 : day_of_week (mk_datetime 2024 1 20 10 0) = Saturday.
Proof. reflexivity. Qed.

Example sunday_2026_11_01 : day_of_week (mk_datetime 2026 11 1 9 30) = Sunday.
Proof. reflexivity. Qed.

(** ** Numerics *)

Section PyFacts.

Lemma ltb_true (a b : Q) : Py.ltb a b = true <-> a < b.
Proof.
  unfold Py.ltb. rewrite negb_true_iff.
  split; intro H.
  - apply Qnot_le_lt. intro Hle. apply Qle_bool_iff in Hle. congruence.
  - destruct (Qle_bool b a) eqn:E; [|reflexivity].
    apply Qle_bool_iff in E. exfalso. apply (Qlt_not_le _ _ H E).
Qed.

Lemma ltb_false (a b : Q) : Py.ltb a b = false <-> b <= a.
Proof.
  unfold Py.ltb. rewrite negb_false_iff. apply Qle_bool_iff.
Qed.

Lemma leb_true (a b : Q) : Py.leb a b = true <-> a <= b.
Proof. apply Qle_bool_iff. Qed.

Lemma leb_false (a b : Q) : Py.leb a b = false <-> b < a.
Proof.
  unfold Py.leb. split; intro H.
  - apply Qnot_le_lt. intro Hle. apply Qle_bool_iff in Hle. congruence.
  - destruct (Qle_bool a b) eqn:E; [|reflexivity].
    apply Qle_bool_iff in E. exfalso. apply (Qlt_not_le _ _ H E).
Qed.

Lemma max_cases (a b : Q) :
  (a <= b /\ Py.max a b == b) \/ (b <= a /\ Py.max a b == a).
Proof.
  unfold Py.max.
  destruct (Q.max_spec a b) as [[H E]|[H E]]; [left|right]; split;
    auto using Qlt_le_weak.
Qed.

Lemma min_cases (a b : Q) :
  (a <= b /\ Py.min a b == a) \/ (b <= a /\ Py.min a b == b).
Proof.
  unfold Py.min.
  destruct (Q.min_spec a b) as [[H E]|[H E]]; [left|right]; split;
    auto using Qlt_le_weak.
Qed.

(** [max(lo, min(hi, x))] is the clamp of [x] when [lo <= hi]. *)
Lemma clamp_bounds (lo hi x : Q) :
  lo <= hi -> lo <= Py.max lo (Py.min hi x) <= hi.
Proof.
  intros Hlh.
  destruct (max_cases lo (Py.min hi x)) as [[H1 E1]|[H1 E1]];
  destruct (min_cases hi x) as [[H2 E2]|[H2 E2]]; lra.
Qed.

Lemma clamp_lower (lo hi x : Q) : lo <= Py.max lo (Py.min hi x).
Proof.
  destruct (max_cases lo (Py.min hi x)) as [[H1 E1]|[H1 E1]]; lra.
Qed.

Lemma clamp_inside (lo hi x : Q) :
  lo <= x <= hi -> Py.max lo (Py.min hi x) == x.
Proof.
  intros Hx.
  destruct (max_cases lo (Py.min hi x)) as [[H1 E1]|[H1 E1]];
  destruct (min_cases hi x) as [[H2 E2]|[H2 E2]]; lra.
Qed.


#[global] Instance min_proper : Proper (Qeq ==> Qeq ==> Qeq) Py.min.
Proof. intros a a' Ha b b' Hb. unfold Py.min. now rewrite Ha, Hb. Qed.

Lemma pow10_pos (n : nat) : 0 < Py.pow10 n.
Proof.
  unfold Py.pow10. change 0 with (inject_Z 0). rewrite <- Zlt_Qlt.
  apply Z.pow_pos_nonneg; lia.
Qed.

Lemma round_half_even_floor (x : Q) :
  (Qfloor x <= Py.round_half_even x <= Qfloor x + 1)%Z.
Proof.
  unfold Py.round_half_even. cbv zeta.
  destruct (Qcompare _ _); [destruct (Z.even _)| |]; lia.
Qed.

Lemma round_half_even_lower (a : Z) (x : Q) :
  inject_Z a <= x -> (a <= Py.round_half_even x)%Z.
Proof.
  intros H. apply Qfloor_resp_le in H. rewrite Qfloor_Z in H.
  pose proof (round_half_even_floor x). lia.
Qed.

Lemma round_half_even_upper (a : Z) (x : Q) :
  x <= inject_Z a -> (Py.round_half_even x <= a)%Z.
Proof.
  intros H.
  pose proof (Qfloor_resp_le _ _ H) as Hf. rewrite Qfloor_Z in Hf.
  destruct (Z.eq_dec (Qfloor x) a) as [E|NE].
  - unfold Py.round_half_even. cbv zeta.
    destruct (Qcompare _ _) eqn:C; [|lia|].
    + apply Qeq_alt in C. rewrite E in C. lra.
    + apply Qgt_alt in C. rewrite E in C. lra.
  - pose proof (round_half_even_floor x). lia.
Qed.

Lemma round_half_even_error (x : Q) :
  - (1 # 2) <= inject_Z (Py.round_half_even x) - x <= 1 # 2.
Proof.
  pose proof (Qfloor_le x) as Hlo. pose proof (Qlt_floor x) as Hhi.
  rewrite inject_Z_plus in Hhi. change (inject_Z 1) with 1 in Hhi.
  unfold Py.round_half_even. cbv zeta.
  destruct (Qcompare _ _) eqn:E.
  - apply Qeq_alt in E.
    destruct (Z.even _); [|rewrite inject_Z_plus; change (inject_Z 1) with 1];
      lra.
  - apply Qlt_alt in E. lra.
  - apply Qgt_alt in E. rewrite inject_Z_plus. change (inject_Z 1) with 1. lra.
Qed.

#[global] Instance round_half_even_proper :
  Proper (Qeq ==> eq) Py.round_half_even.
Proof.
  intros x y H. unfold Py.round_half_even.
  rewrite (Qfloor_comp _ _ H).
  assert (E : x - inject_Z (Qfloor y) == y - inject_Z (Qfloor y))
    by now rewrite H.
  now rewrite (Qcompare_comp _ _ E _ _ (Qeq_refl (1 # 2))).
Qed.

#[global] Instance round_proper : Proper (Qeq ==> eq ==> Qeq) Py.round.
Proof.
  intros x y H n ? <-. unfold Py.round. now rewrite H.
Qed.

(** Rounding never crosses a bound that is itself a multiple of the
    rounding unit. *)
Lemma round_lower_bound (a : Z) (n : nat) (lo x : Q) :
  lo == inject_Z a / Py.pow10 n -> lo <= x -> lo <= Py.round x n.
Proof.
  intros E H. pose proof (pow10_pos n) as Hp.
  unfold Py.round. rewrite E in *.
  apply Qmult_le_r with (z := Py.pow10 n); [exact Hp|].
  assert (Ha : inject_Z a <= x * Py.pow10 n).
  { apply Qmult_le_r with (z := Py.pow10 n) in H; [|exact Hp].
    field_simplify in H; [|lra]. lra. }
  apply round_half_even_lower in Ha. rewrite Zle_Qle in Ha.
  field_simplify; [|lra|lra]. lra.
Qed.

Lemma round_upper_bound (a : Z) (n : nat) (hi x : Q) :
  hi == inject_Z a / Py.pow10 n -> x <= hi -> Py.round x n <= hi.
Proof.
  intros E H. pose proof (pow10_pos n) as Hp.
  unfold Py.round. rewrite E in *.
  apply Qmult_le_r with (z := Py.pow10 n); [exact Hp|].
  assert (Ha : x * Py.pow10 n <= inject_Z a).
  { apply Qmult_le_r with (z := Py.pow10 n) in H; [|exact Hp].
    field_simplify in H; [|lra]. lra. }
  apply round_half_even_upper in Ha. rewrite Zle_Qle in Ha.
  field_simplify; [|lra|lra]. lra.
Qed.

(** Rounding moves a number by at most half a unit of the last digit. *)
Lemma round_error (x : Q) (n : nat) :
  - (1 # 2) / Py.pow10 n <= Py.round x n - x <= (1 # 2) / Py.pow10 n.
Proof.
  pose proof (pow10_pos n) as Hp.
  pose proof (round_half_even_error (x * Py.pow10 n)) as [H1 H2].
  unfold Py.round.
  set (r := inject_Z (Py.round_half_even (x * Py.pow10 n))) in *.
  split; apply Qmult_le_r with (z := Py.pow10 n); try exact Hp;
    field_simplify; try lra.
Qed.

End PyFacts.

(** ** Running the engine's methods *)

Ltac run_monad :=
  unfold mbind, M_bind, mret, M_ret, bind, ret, raise, lift, get_self,
    put_self, get_heap, put_heap, set_self, set_heap, datetime_now in *;
  cbv beta in *; cbn [fst snd] in *.

Lemma after_clock_self ts w : self (after_clock ts w) = self w.
Proof. now destruct ts. Qed.

Lemma after_clock_heap ts w : heap (after_clock ts w) = heap w.
Proof. now destruct ts. Qed.

(** ** Demand factor *)

Section DemandFactor.

Lemma weekday_range (t : datetime) : (0 <= weekday t < 7)%Z.
Proof. unfold weekday. apply Z.mod_pos_bound. lia. Qed.

Lemma weekend_test (t : datetime) :
  (5 <=? weekday t)%Z = true <-> on_weekend t.
Proof.
  unfold on_weekend, day_of_week.
  pose proof (weekday_range t) as R.
  rewrite Z.leb_le.
  assert (C : (weekday t = 0 \/ weekday t = 1 \/ weekday t = 2
               \/ weekday t = 3 \/ weekday t = 4 \/ weekday t = 5
               \/ weekday t = 6)%Z) by lia.
  destruct C as [E|[E|[E|[E|[E|[E|E]]]]]]; rewrite E;
    split; intros H; try lia; try (destruct H; discriminate); auto.
Qed.

Lemma peak_test (df : DemandFactors) (t : datetime) :
  ((fst (peak_hours df) <=? dt_hour t) && (dt_hour t <=? snd (peak_hours df)))%Z
  = true <-> in_peak_window df t.
Proof.
  unfold in_peak_window. rewrite andb_true_iff, !Z.leb_le. tauto.
Qed.

Lemma calculate_demand_factor_run (timestamp : option datetime) (w : World) :
  calculate_demand_factor timestamp w =
  (Returned (spec_demand_factor (demand_factors (self w))
                                (effective_time timestamp w)),
   after_clock timestamp w).
Proof.
  pose proof (peak_test (demand_factors (self w))
                (effective_time timestamp w)) as HP.
  pose proof (weekend_test (effective_time timestamp w)) as HW.
  unfold calculate_demand_factor, spec_demand_factor.
  destruct timestamp as [t|]; run_monad;
    cbn [after_clock effective_time tick self] in *;
    destruct (peak_hours (demand_factors (self w))) as [ps pe];
    cbn [fst snd] in HP; cbv zeta;
    destruct ((ps <=? _) && (_ <=? pe))%Z;
    destruct (5 <=? _)%Z;
    repeat case_decide; try reflexivity; exfalso; intuition congruence.
Qed.

End DemandFactor.

(** ** The two feature estimators *)

Section Estimators.

Lemma estimate_price_elasticity_run (features : Features) (w : World) :
  estimate_price_elasticity features w =
  (Returned (elasticity_value (self w) features), w).
Proof.
  unfold estimate_price_elasticity, elasticity_value. run_monad.
  destruct (segmentation_model (self w)) as [m|]; [|reflexivity].
  unfold Segmentation.predict_single.
  destruct (seg_is_fitted m); reflexivity.
Qed.

Lemma calculate_churn_risk_run (features : Features) (w : World) :
  calculate_churn_risk features w =
  (Returned (churn_value (self w) features), w).
Proof.
  unfold calculate_churn_risk, churn_value. run_monad.
  destruct (churn_model (self w)) as [m|]; [|reflexivity].
  unfold Churn.predict_single.
  destruct (churn_is_fitted m); reflexivity.
Qed.

End Estimators.

(** ** [calculate_dynamic_price], step by step *)

Section PriceCalculation.

Variables (w : World) (base : Q) (features : Features)
          (ts : option datetime).

Lemma pricing_locals_run :
  exists l : Locals.t,
    pricing_locals base features ts w = (Returned l, after_clock ts w)
    /\ locals_trace w base features ts l.
Proof.
  unfold pricing_locals. run_monad.
  rewrite calculate_demand_factor_run.
  rewrite estimate_price_elasticity_run.
  rewrite calculate_churn_risk_run.
  rewrite after_clock_self, after_clock_heap.
  eexists. split; [reflexivity|].
  unfold locals_trace; cbn. repeat split.
Qed.

Lemma calculate_dynamic_price_returns :
  ~ base == 0 ->
  exists (l : Locals.t) (r : PricingResult),
    calculate_dynamic_price base features ts w
      = (Returned r, after_call w ts r)
    /\ pricing_locals base features ts w = (Returned l, after_clock ts w)
    /\ locals_trace w base features ts l
    /\ result_of w base ts l r.
Proof.
  intros Hb.
  destruct pricing_locals_run as (l & Hrun & Htrace).
  unfold calculate_dynamic_price. run_monad. rewrite Hrun.
  unfold truediv.
  destruct (Qeq_bool base 0) eqn:E; [apply Qeq_bool_iff in E; tauto|].
  exists l. unfold append_history, after_call, result_of. run_monad.
  destruct ts as [t|]; cbn in *;
    (eexists; split; [reflexivity|split; [reflexivity|split; [exact Htrace|]]]);
    cbn; repeat split.
Qed.

Lemma calculate_dynamic_price_raises :
  base == 0 ->
  calculate_dynamic_price base features ts w
    = (Raised ZeroDivisionError, after_clock ts w).
Proof.
  intros Hb.
  destruct pricing_locals_run as (l & Hrun & _).
  unfold calculate_dynamic_price. run_monad. rewrite Hrun.
  unfold truediv. apply Qeq_bool_iff in Hb. now rewrite Hb.
Qed.

End PriceCalculation.

(** Closed comparisons between rationals, by evaluation. *)
Ltac q_decide :=
  vm_compute;
  match goal with
  | |- _ = _ => reflexivity
  | |- _ -> False => discriminate
  | |- ~ _ => discriminate
  end.

(** ** Clamping and flooring *)



(** ** Rounded entries *)



Lemma rounded_to_1 (x v : Q) : rounded_to 1 x v -> -0.05 <= v - x <= 0.05.
Proof.
  intros [_ [H1 H2]]. split.
  - eapply Qle_trans; [|exact H1]. q_decide.
  - eapply Qle_trans; [exact H2|]. q_decide.
Qed.





(** ** A result in terms of its own breakdown *)

Section ResultRelations.

Variables (w : World) (base : Q) (features : Features)
          (ts : option datetime).

Let wts := heap w !!! weights (self w).
Let c := constraints (self w).






End ResultRelations.

(** ** Demand factor (C7) *)

(** C7.  For an explicit timestamp, [calculate_demand_factor] returns the
    peak multiplier when the hour lies in the peak window (both ends
    included) and the off-peak multiplier otherwise, plus the weekend
    multiplier on Saturday and Sunday, rounded to four decimals.  The call
    leaves the world as it found it, and its value depends on the timestamp
    and the demand-factor table only: the same timestamp gives the same
    factor in any other state of the engine, and on every repetition. *)
Theorem C7_demand_factor_of_timestamp (w : World) (t : datetime) :
  calculate_demand_factor (Some t) w
    = (Returned (spec_demand_factor (demand_factors (self w)) t), w)
  /\ (forall w' : World,
        demand_factors (self w') = demand_factors (self w) ->
        fst (calculate_demand_factor (Some t) w')
        = fst (calculate_demand_factor (Some t) w))
  /\ (forall (A : Type) (k : Q -> M A),
        (calculate_demand_factor (Some t) ≫= fun d1 =>
         calculate_demand_factor (Some t) ≫= fun d2 => k d2) w
        = (calculate_demand_factor (Some t) ≫= fun d1 => k d1) w).
Proof.
  split; [|split].
  - apply (calculate_demand_factor_run (Some t) w).
  - intros w' E. rewrite !calculate_demand_factor_run. cbn. now rewrite E.
  - intros A k. run_monad.
    rewrite (calculate_demand_factor_run (Some t) w). cbv beta iota.
    unfold after_clock.
    rewrite (calculate_demand_factor_run (Some t) w). reflexivity.
Qed.

Lemma C7_witness :
  fst (calculate_demand_factor (Some saturday_20h) fresh_world)
  = Returned (spec_demand_factor Config.PRICING_demand_factors saturday_20h)
  /\ spec_demand_factor Config.PRICING_demand_factors saturday_20h == 0.2.
Proof.
  split.
  - now rewrite (proj1 (C7_demand_factor_of_timestamp fresh_world saturday_20h)).
  - reflexivity.
Defined.

Example demand_peak_weekday :
  spec_demand_factor Config.PRICING_demand_factors monday_20h == 0.15.
Proof. reflexivity. Qed.

Example demand_offpeak_weekday :
  spec_demand_factor Config.PRICING_demand_factors monday_10h == -0.1.
Proof. reflexivity. Qed.

Example demand_offpeak_weekend :
  spec_demand_factor Config.PRICING_demand_factors saturday_10h == -0.05.
Proof. reflexivity. Qed.

Example demand_window_ends_included :
  spec_demand_factor Config.PRICING_demand_factors (mk_datetime 2024 1 15 18 0)
    == 0.15
  /\ spec_demand_factor Config.PRICING_demand_factors (mk_datetime 2024 1 15 22 59)
    == 0.15
  /\ spec_demand_factor Config.PRICING_demand_factors (mk_datetime 2024 1 15 23 0)
    == -0.1
  /\ spec_demand_factor Config.PRICING_demand_factors (mk_datetime 2024 1 15 17 59)
    == -0.1.
Proof. repeat split. Qed.

(** ** Recommendation (C8) *)

Section Recommendation.

Lemma _generate_recommendation_thresholds (pct churn : Q) :
  (pct < -20 ->
     _generate_recommendation pct churn
     = "High retention risk. Apply maximum discount with loyalty offer.")
  /\ (-20 <= pct < -10 ->
     _generate_recommendation pct churn
     = "Moderate retention risk. Offer promotional discount.")
  /\ (-10 <= pct < 0 ->
     _generate_recommendation pct churn
     = "Slight concern. Consider small incentive to maintain engagement.")
  /\ (0 <= pct <= 10 ->
     _generate_recommendation pct churn
     = "Customer is stable. Standard pricing applies.")
  /\ (10 < pct ->
     _generate_recommendation pct churn
     = "High-value customer. Premium pricing acceptable.").
Proof.
  unfold _generate_recommendation.
  destruct (Py.ltb pct (-20)) eqn:E1;
    [apply ltb_true in E1|apply ltb_false in E1];
  (destruct (Py.ltb pct (-10)) eqn:E2;
    [apply ltb_true in E2|apply ltb_false in E2]);
  (destruct (Py.ltb pct 0) eqn:E3;
    [apply ltb_true in E3|apply ltb_false in E3]);
  (destruct (Py.leb pct 10) eqn:E4;
    [apply leb_true in E4|apply leb_false in E4]);
  repeat split; intros; try reflexivity; exfalso; lra.
Qed.

(** C8.  Every call of [calculate_dynamic_price] that prices a non-zero base
    price returns a result whose recommendation is fixed by its
    [price_change_percent] alone, through the thresholds -20, -10, 0
    and 10. *)
Theorem C8_recommendation_by_thresholds (w : World) (base : Q)
    (features : Features) (ts : option datetime) :
  ~ base == 0 ->
  exists (r : PricingResult) (w' : World),
    calculate_dynamic_price base features ts w = (Returned r, w')
    /\ (price_change_percent r < -20 ->
          recommendation r
          = "High retention risk. Apply maximum discount with loyalty offer.")
    /\ (-20 <= price_change_percent r < -10 ->
          recommendation r
          = "Moderate retention risk. Offer promotional discount.")
    /\ (-10 <= price_change_percent r < 0 ->
          recommendation r
          = "Slight concern. Consider small incentive to maintain engagement.")
    /\ (0 <= price_change_percent r <= 10 ->
          recommendation r
          = "Customer is stable. Standard pricing applies.")
    /\ (10 < price_change_percent r ->
          recommendation r
          = "High-value customer. Premium pricing acceptable.").
Proof.
  intros Hb.
  destruct (calculate_dynamic_price_returns w base features ts Hb)
    as (l & r & Hrun & _ & _ & Hres).
  exists r, (after_call w ts r). split; [exact Hrun|].
  destruct Hres as (_ & _ & _ & _ & _ & _ & _ & _ & _ & _ & _ & Hrec).
  rewrite Hrec. apply _generate_recommendation_thresholds.
Qed.

Lemma C8_witness :
  ~ 999 == 0
  /\ returned_with
       (fun r => recommendation r
          = "Slight concern. Consider small incentive to maintain engagement.")
       (fst (calculate_dynamic_price 999 ∅ (Some monday_20h) fresh_world)).
Proof.
  assert (H : ~ 999 == 0) by discriminate.
  split; [exact H|].
  destruct (C8_recommendation_by_thresholds fresh_world 999 ∅
              (Some monday_20h) H) as (r & w' & Hrun & _ & _ & H3 & _).
  rewrite Hrun. cbn. apply H3.
  assert (E : fst (calculate_dynamic_price 999 ∅ (Some monday_20h) fresh_world)
              = Returned r) by now rewrite Hrun.
  vm_compute in E. injection E as <-. split; q_decide.
Defined.

End Recommendation.

(** ** Adjustment and its constraints (C1) *)

Section Adjustment.

(** Nothing checks the constraints when an engine file is loaded.  With
    [min_discount = 0.5] and [max_premium = 0.2] in force, against the
    invariant, the adjustment of a call is 0.5: above the premium bound. *)
Example constraints_outside_the_invariant :
  ~ constraints_invariant (constraints (self inverted_world))
  /\ returned_with
       (fun l => Locals.adjustment l == 0.5
                 /\ ~ (min_discount (constraints (self inverted_world))
                       <= Locals.adjustment l
                       <= max_premium (constraints (self inverted_world))))
       (fst (pricing_locals 999 ∅ (Some monday_20h) inverted_world)).
Proof.
  split.
  - intros [H _]. vm_compute in H. discriminate.
  - unfold returned_with.
    destruct (fst (pricing_locals _ _ _ _)) as [l|] eqn:E;
      vm_compute in E; [injection E as <-|discriminate].
    split; [reflexivity|].
    intros [_ H]. vm_compute in H. apply H. reflexivity.
Qed.



Example default_adjustment_monday_peak :
  returned_with (fun r => adjustment r == -0.0445)
    (fst (calculate_dynamic_price 999 ∅ (Some monday_20h) fresh_world)).
Proof. vm_compute. reflexivity. Qed.

End Adjustment.

(** ** The half-price floor (C2) *)

Section PriceFloor.




Example default_price_monday_peak :
  returned_with (fun r => dynamic_price r == 954.59)
    (fst (calculate_dynamic_price 999 ∅ (Some monday_20h) fresh_world)).
Proof. vm_compute. reflexivity. Qed.

End PriceFloor.

(** ** Churn risk fallback (C3) *)

Section ChurnRisk.


Lemma normalize_range (x lo hi : Q) : 0 <= normalize x lo hi <= 1.
Proof. unfold normalize. apply clamp_bounds. lra. Qed.


Lemma churn_heuristic_range (features : Features) :
  0 <= get features "nps_score" 5 <= 10 ->
  0 <= Py.round (churn_heuristic features) 4 <= 1.
Proof.
  intros Hnps.
  assert (H : 0 <= churn_heuristic features <= 1).
  { unfold churn_heuristic. cbv zeta.
    pose proof (normalize_range (- get features "usage_change_30d" 0) 0 30).
    pose proof (normalize_range (get features "days_since_login" 0) 0 30).
    pose proof (normalize_range (get features "payment_failures_90d" 0) 0 3).
    pose proof (normalize_range (get features "support_tickets" 0) 0 5).
    assert (E : get features "nps_score" 5 / 10
                == get features "nps_score" 5 * (1 # 10)) by field.
    lra. }
  split.
  - apply (round_lower_bound 0 4); [reflexivity|tauto].
  - apply (round_upper_bound 10000 4); [reflexivity|tauto].
Qed.

Lemma churn_value_fallback (e : Engine) (features : Features) :
  no_fitted_churn e ->
  churn_value e features = Py.round (churn_heuristic features) 4.
Proof.
  unfold no_fitted_churn, churn_value.
  destruct (churn_model e) as [m|]; [|reflexivity].
  now intros ->.
Qed.




Example risky_customer_churn_risk :
  spec_churn_risk risky_customer == 113 # 150
  /\ returned_with (fun v => v == 0.7533)
       (fst (calculate_churn_risk risky_customer fresh_world)).
Proof. split; vm_compute; reflexivity. Qed.

End ChurnRisk.

(** ** Price elasticity (C6) *)

Section Elasticity.



Lemma elasticity_value_fallback (e : Engine) (features : Features) :
  no_fitted_segmentation e ->
  elasticity_value e features = Py.round (elasticity_heuristic features) 2.
Proof.
  unfold no_fitted_segmentation, elasticity_value.
  destruct (segmentation_model e) as [m|]; [|reflexivity].
  now intros ->.
Qed.







Lemma trained_segmentation_profiles :
  Segmentation.profiles_from_training trained_segmentation.
Proof.
  intros k p H. cbn in H.
  apply lookup_insert_Some in H as [[<- <-]|[_ H]].
  - exists 1600, 450, 8, Config.premium_power_users. now split.
  - apply lookup_singleton_Some in H as [<- <-].
    exists 1000, 300, 7, Config.value_seekers. now split.
Qed.


Example delegated_elasticity_premium :
  fst (estimate_price_elasticity {[ "plan_price" := 1999 ]} segmented_world)
  = Returned (-0.3).
Proof. reflexivity. Qed.

Example fallback_elasticity_defaults :
  returned_with (fun v => v == -1.28)
    (fst (estimate_price_elasticity ∅ fresh_world)).
Proof. vm_compute. reflexivity. Qed.

End Elasticity.

(** ** ROI projection (C4) *)

Section RoiProjection.

(** No customer saved: the call ends in [ZeroDivisionError], which is not a
    domain error. *)
Lemma C4_counterexample_zero_revenue :
  revenue_saved 0 500 24 == 0
  /\ fst (calculate_roi_projection 0 500 24 1000000 fresh_world)
     = Raised ZeroDivisionError
  /\ ~ raised_with domain_error
         (fst (calculate_roi_projection 0 500 24 1000000 fresh_world)).
Proof.
  split; [reflexivity|]. split; [reflexivity|].
  vm_compute. tauto.
Qed.

(** C4 (amended).  When the projected revenue
    [customers_saved * avg_revenue_per_user * avg_lifetime_months] is 0,
    [calculate_roi_projection] raises [ZeroDivisionError] to its caller,
    whatever the implementation cost, and changes nothing in the world. *)
Theorem C4_roi_zero_revenue_raises (w : World) (customers_saved : Z)
    (avg_revenue_per_user : Q) (avg_lifetime_months : Z)
    (implementation_cost : Q) :
  revenue_saved customers_saved avg_revenue_per_user avg_lifetime_months == 0 ->
  calculate_roi_projection customers_saved avg_revenue_per_user
    avg_lifetime_months implementation_cost w
  = (Raised ZeroDivisionError, w).
Proof.
  unfold revenue_saved. intros Hz.
  unfold calculate_roi_projection, truediv. run_monad.
  destruct (Qeq_bool implementation_cost 0); [reflexivity|].
  destruct (Qeq_bool (inject_Z avg_lifetime_months) 0); [reflexivity|].
  assert (E : inject_Z customers_saved * avg_revenue_per_user
              * inject_Z avg_lifetime_months / inject_Z avg_lifetime_months
              == 0).
  { rewrite Hz. unfold Qdiv. ring. }
  apply Qeq_bool_iff in E. now rewrite E.
Qed.

Lemma C4_witness :
  revenue_saved 0 500 24 == 0
  /\ calculate_roi_projection 0 500 24 1000000 fresh_world
     = (Raised ZeroDivisionError, fresh_world).
Proof.
  assert (H : revenue_saved 0 500 24 == 0) by reflexivity.
  split; [exact H|].
  exact (C4_roi_zero_revenue_raises fresh_world 0 500 24 1000000 H).
Defined.

(** The worked example of the research paper's formula. *)
Example roi_projection_example :
  returned_with
    (fun r => roi_revenue_saved r == 8400000
              /\ roi_net_benefit r == 7400000
              /\ roi_percent r == 740
              /\ roi_payback_months r == 2.9)
    (fst (calculate_roi_projection 700 500 24 1000000 fresh_world)).
Proof. vm_compute. repeat split. Qed.

End RoiProjection.

(** ** Weights: partial update and sharing (C9, C5) *)

Section WeightsUpdate.

Lemma weights_rewritten_id (w : World) : weights_rewritten id w w.
Proof. repeat split; auto. Qed.

Lemma weights_rewritten_setitem (f : Weights -> Weights) (w : World) :
  exists w', setitem f w = (Returned tt, w') /\ weights_rewritten f w w'.
Proof.
  unfold setitem. run_monad. eexists. split; [reflexivity|].
  repeat split; cbn.
  - apply lookup_total_insert_eq.
  - intros l Hl. now apply lookup_insert_ne.
  - intros l Hl. destruct (decide (weights (self w) = l)) as [<-|Hne].
    + rewrite lookup_insert_eq. eauto.
    + now rewrite lookup_insert_ne.
Qed.

Lemma weights_rewritten_trans (f g : Weights -> Weights) (w1 w2 w3 : World) :
  weights_rewritten f w1 w2 -> weights_rewritten g w2 w3 ->
  weights_rewritten (g ∘ f) w1 w3.
Proof.
  intros (S1 & C1 & R1 & H1 & O1 & A1) (S2 & C2 & R2 & H2 & O2 & A2).
  rewrite S1 in H2, O2.
  repeat split; try congruence.
  - cbn. now rewrite H2, H1.
  - intros l Hl. now rewrite O2, O1.
  - intros l Hl. auto.
Qed.

Lemma optional_setitem (set : Q -> Weights -> Weights) (arg : option Q)
    (w : World) :
  exists w',
    match arg with Some v => setitem (set v) | None => mret tt end w
    = (Returned tt, w')
    /\ weights_rewritten (assign set arg) w w'.
Proof.
  destruct arg as [v|]; [apply weights_rewritten_setitem|].
  exists w. split; [reflexivity|apply weights_rewritten_id].
Qed.

Lemma update_weights_run (a b g : option Q) (w : World) :
  exists w',
    update_weights a b g w = (Returned tt, w')
    /\ weights_rewritten
         (assign set_gamma g ∘ assign set_beta b ∘ assign set_alpha a) w w'.
Proof.
  unfold update_weights.
  destruct (optional_setitem set_alpha a w) as (w1 & E1 & R1).
  destruct (optional_setitem set_beta b w1) as (w2 & E2 & R2).
  destruct (optional_setitem set_gamma g w2) as (w3 & E3 & R3).
  exists w3. split.
  - run_monad. rewrite E1, E2. exact E3.
  - eapply weights_rewritten_trans; [exact R1|].
    eapply weights_rewritten_trans; [exact R2|exact R3].
Qed.

(** After one pricing call under the default weights, [update_weights(0.9)]
    turns the alpha shown by the recorded entry from 0.15 into 0.9. *)
Lemma C9_failing_input_history_view_changes :
  let w1 := snd (calculate_dynamic_price 999 ∅ (Some monday_20h) fresh_world) in
  let w2 := snd (update_weights (Some 0.9) None None w1) in
  (alpha ∘ snd <$> history_view w1) = [0.15]
  /\ (alpha ∘ snd <$> history_view w2) = [0.9]
  /\ history_view w2 <> history_view w1.
Proof.
  cbv zeta. split; [vm_compute; reflexivity|].
  split; [vm_compute; reflexivity|].
  intros H. apply (f_equal (fmap (alpha ∘ snd))) in H.
  vm_compute in H. discriminate.
Qed.

(** C9.  [update_weights] is a partial update: each argument passed as
    [None] leaves its weight as it was, each supplied value is stored as
    given, whatever its size or sign.  The call returns and leaves the
    engine's constraints, demand-factor table and collaborators as they
    were; the history list keeps the same entries, every entry of its own
    unchanged and still referring to the same weights dictionary; no other
    dictionary on the heap is written.  But the dictionary it writes is the
    one that every result recorded since the engine got it refers to: such
    a result showed the old weights before the call and shows the engine's
    new weights after it, so the pricing history as it reads is changed by
    the call as soon as a supplied value differs from the weight in
    force. *)
Theorem C9_update_weights_partial (w : World) (a b g : option Q) :
  let old := heap w !!! weights (self w) in
  exists w' : World,
    update_weights a b g w = (Returned tt, w')
    /\ alpha (heap w' !!! weights (self w')) = default (alpha old) a
    /\ beta (heap w' !!! weights (self w')) = default (beta old) b
    /\ gamma (heap w' !!! weights (self w')) = default (gamma old) g
    /\ weights (self w') = weights (self w)
    /\ constraints (self w') = constraints (self w)
    /\ demand_factors (self w') = demand_factors (self w)
    /\ churn_model (self w') = churn_model (self w)
    /\ segmentation_model (self w') = segmentation_model (self w)
    /\ pricing_history (self w') = pricing_history (self w)
    /\ (forall l : loc, l <> weights (self w) -> heap w' !! l = heap w !! l)
    /\ (forall r : PricingResult,
          result_weights r = weights (self w) ->
          recorded_weights w r = old
          /\ recorded_weights w' r = heap w' !!! weights (self w')
          /\ (forall v : Q,
                a = Some v -> v <> alpha old ->
                recorded_weights w' r <> recorded_weights w r)).
Proof.
  intros old.
  destruct (update_weights_run a b g w) as (w' & Hrun & S & _ & _ & H & O & _).
  exists w'. split; [exact Hrun|].
  rewrite S, H. fold old.
  do 9 (split; [destruct a, b, g; reflexivity|]).
  split; [exact O|].
  intros r Hr. unfold recorded_weights. rewrite Hr, H. fold old.
  split; [reflexivity|]. split; [reflexivity|].
  intros v -> Hne E. apply (f_equal alpha) in E.
  destruct b, g; cbn in E; congruence.
Qed.

Example update_only_beta :
  let w' := snd (update_weights None (Some 0.35) None fresh_world) in
  heap w' !!! weights (self w')
  = {| alpha := 0.15; beta := 0.35; gamma := 0.20 |}.
Proof. vm_compute. reflexivity. Qed.

Example update_out_of_range :
  let w' := snd (update_weights (Some (-7)) None (Some 1000) fresh_world) in
  heap w' !!! weights (self w')
  = {| alpha := -7; beta := 0.10; gamma := 1000 |}.
Proof. vm_compute. reflexivity. Qed.

(** A pricing result keeps the address of the engine's weights dictionary,
    so a later [update_weights] shows through every recorded result. *)
Lemma recorded_weights_follow_update (w : World) (base : Q)
    (features : Features) (ts : option datetime) (a b g : option Q)
    (r : PricingResult) (w1 w2 : World) :
  calculate_dynamic_price base features ts w = (Returned r, w1) ->
  update_weights a b g w1 = (Returned tt, w2) ->
  In r (pricing_history (self w2))
  /\ recorded_weights w2 r
     = (assign set_gamma g ∘ assign set_beta b ∘ assign set_alpha a)
         (recorded_weights w1 r).
Proof.
  intros Hcall Hupd.
  destruct (Qeq_dec base 0) as [Hz|Hnz].
  { rewrite (calculate_dynamic_price_raises w base features ts Hz) in Hcall.
    discriminate. }
  destruct (calculate_dynamic_price_returns w base features ts Hnz)
    as (l & r' & Hrun & _ & _ & Hres).
  rewrite Hrun in Hcall. injection Hcall as -> <-.
  destruct (update_weights_run a b g (after_call w ts r))
    as (w' & Hrun' & S & _ & _ & H & _ & _).
  rewrite Hrun' in Hupd. injection Hupd as <-.
  assert (Hw : result_weights r = weights (self (after_call w ts r))).
  { destruct Hres as (_ & _ & _ & _ & _ & _ & _ & _ & Hw & _). exact Hw. }
  split.
  - rewrite S. cbn. apply in_or_app. right. now left.
  - unfold recorded_weights. rewrite Hw. exact H.
Qed.

(** C5.  On a fresh engine, price one customer and then call
    [update_weights(alpha=0.9)]: the result recorded in the history, priced
    with alpha 0.15 and read back with [get_pricing_history], now shows
    alpha 0.9 in its weights breakdown. *)
Theorem C5_recorded_weights_changed_by_update :
  let call := calculate_dynamic_price 999 ∅ (Some monday_20h) fresh_world in
  let w1 := snd call in
  let w2 := snd (update_weights (Some 0.9) None None w1) in
  returned_with
    (fun r => pricing_history (self w1) = [r]
              /\ fst (get_pricing_history 100 w2) = Returned [r]
              /\ result_weights r = weights (self w2)
              /\ alpha (recorded_weights w1 r) = 0.15
              /\ alpha (recorded_weights w2 r) = 0.9)
    (fst call).
Proof.
  cbv zeta. unfold returned_with.
  destruct (fst (calculate_dynamic_price _ _ _ _)) as [r|] eqn:E;
    vm_compute in E; [injection E as <-|discriminate].
  repeat split; vm_compute; reflexivity.
Qed.

End WeightsUpdate.

(** ** No reference dangles *)

Section WellFormed.

Lemma new_world_well_formed (clk : nat -> datetime) :
  well_formed (new_world clk).
Proof.
  unfold well_formed, new_world, __init__, alloc. cbn.
  split; [|constructor]. rewrite lookup_insert_eq. eauto.
Qed.

Lemma calculate_dynamic_price_well_formed (w w' : World) (base : Q)
    (features : Features) (ts : option datetime) (o : outcome PricingResult) :
  well_formed w ->
  calculate_dynamic_price base features ts w = (o, w') ->
  well_formed w'.
Proof.
  intros [Hw Hh] Hcall.
  destruct (Qeq_dec base 0) as [Hz|Hnz].
  - rewrite (calculate_dynamic_price_raises w base features ts Hz) in Hcall.
    injection Hcall as _ <-. unfold well_formed.
    rewrite after_clock_self, after_clock_heap. now split.
  - destruct (calculate_dynamic_price_returns w base features ts Hnz)
      as (l & r & Hrun & _ & _ & Hres).
    rewrite Hrun in Hcall. injection Hcall as _ <-.
    destruct Hres as (_ & _ & _ & _ & _ & _ & _ & _ & Hrw & _).
    unfold well_formed, after_call.
    destruct ts; cbn; (split; [exact Hw|]);
      (apply Forall_app; split; [exact Hh|]);
      (constructor; [now rewrite Hrw|constructor]).
Qed.

Lemma update_weights_well_formed (w w' : World) (a b g : option Q)
    (o : outcome unit) :
  well_formed w ->
  update_weights a b g w = (o, w') ->
  well_formed w'.
Proof.
  intros [Hw Hh] Hcall.
  destruct (update_weights_run a b g w) as (w2 & Hrun & S & _ & _ & _ & _ & A).
  rewrite Hrun in Hcall. injection Hcall as _ <-.
  unfold well_formed. rewrite S. split; [now apply A|].
  eapply Forall_impl; [exact Hh|]. intros r Hr. now apply A.
Qed.

Lemma load_well_formed (w w' : World) (stored : option EngineData)
    (o : outcome unit) :
  well_formed w ->
  load stored w = (o, w') ->
  well_formed w'.
Proof.
  intros [Hw Hh] Hcall. unfold load in Hcall.
  destruct stored as [d|]; run_monad.
  - unfold alloc in Hcall. cbn in Hcall. injection Hcall as _ <-.
    unfold well_formed. cbn. split; [rewrite lookup_insert_eq; eauto|].
    eapply Forall_impl; [exact Hh|]. intros r Hr. cbn in Hr.
    rewrite lookup_insert_ne; [exact Hr|].
    intros E. pose proof (is_fresh (dom (heap w))) as Hf.
    rewrite E in Hf. apply Hf. now apply elem_of_dom.
  - injection Hcall as _ <-. now split.
Qed.

End WellFormed.

(** ** Batch revenue (C10) *)

Section OptimizeRevenue.

Lemma foldl_Qplus_app (a : Q) (xs ys : list Q) :
  foldl Qplus a (xs ++ ys) = foldl Qplus (foldl Qplus a xs) ys.
Proof. apply foldl_app. Qed.


Lemma optimize_loop_raises (pairs : list (Features * Q)) :
  forall (results : list PricingResult) (tb td : Q) (w : World),
    Exists (fun p => snd p == 0) pairs ->
    exists w' : World,
      optimize_loop pairs results tb td w = (Raised ZeroDivisionError, w').
Proof.
  induction pairs as [|[features base] rest IH]; intros results tb td w Hex.
  - inversion Hex.
  - cbn [optimize_loop]. run_monad.
    destruct (Qeq_dec base 0) as [Hz|Hnz].
    + rewrite (calculate_dynamic_price_raises w base features None Hz).
      eexists. reflexivity.
    + destruct (calculate_dynamic_price_returns w base features None Hnz)
        as (l & r & Hrun & _).
      rewrite Hrun. apply IH.
      apply Exists_cons in Hex as [Hz|Hex]; [cbn in Hz; tauto|exact Hex].
Qed.

Lemma foldl_Qplus_ge (xs : list Q) :
  forall a : Q, Forall (fun x => 0 < x) xs -> a <= foldl Qplus a xs.
Proof.
  induction xs as [|x xs IH]; intros a Hpos; cbn; [lra|].
  apply Forall_cons in Hpos as [Hx Hxs].
  specialize (IH (a + x) Hxs). lra.
Qed.

Lemma sum_positive (xs : list Q) :
  xs <> [] -> Forall (fun x => 0 < x) xs -> 0 < sum xs.
Proof.
  intros Hne Hpos. destruct xs as [|x xs]; [congruence|].
  apply Forall_cons in Hpos as [Hx Hxs]. unfold sum. cbn.
  pose proof (foldl_Qplus_ge xs (0 + x) Hxs). lra.
Qed.


Lemma len_nonzero {A} (xs : list A) : xs <> [] -> Qeq_bool (len xs) 0 = false.
Proof.
  intros Hne. destruct (Qeq_bool (len xs) 0) eqn:E; [|reflexivity].
  apply Qeq_bool_iff in E. unfold len, Qeq in E. cbn in E.
  destruct xs; [congruence|]. cbn in E. lia.
Qed.




Example optimize_revenue_example :
  returned_with
    (fun report => total_base_revenue report == 2498
                   /\ total_dynamic_revenue report == 2088.29
                   /\ revenue_change report == -409.71
                   /\ revenue_change_percent report == -16.4)
    (fst (optimize_revenue [∅; risky_customer] [999; 1499] fresh_world)).
Proof. vm_compute. repeat split. Qed.

End OptimizeRevenue.


(** * Further properties of the engine *)

(** ** Rounding keeps the order *)

Section RoundMonotone.

Lemma round_half_even_monotone (x y : Q) :
  x <= y -> (Py.round_half_even x <= Py.round_half_even y)%Z.
Proof.
  intros Hxy.
  pose proof (Qfloor_resp_le _ _ Hxy) as Hf.
  destruct (Z.eq_dec (Qfloor x) (Qfloor y)) as [E|NE].
  - unfold Py.round_half_even. cbv zeta. rewrite <- E.
    destruct (Qcompare (x - inject_Z (Qfloor x)) (1 # 2)) eqn:Cx;
    destruct (Qcompare (y - inject_Z (Qfloor x)) (1 # 2)) eqn:Cy;
      try (destruct (Z.even (Qfloor x))); try lia; exfalso;
      repeat match goal with
             | H : Qcompare _ _ = Eq |- _ => apply Qeq_alt in H
             | H : Qcompare _ _ = Lt |- _ => apply Qlt_alt in H
             | H : Qcompare _ _ = Gt |- _ => apply Qgt_alt in H
             end; lra.
  - pose proof (round_half_even_floor x). pose proof (round_half_even_floor y).
    lia.
Qed.

Lemma round_monotone (x y : Q) (n : nat) :
  x <= y -> Py.round x n <= Py.round y n.
Proof.
  intros Hxy. pose proof (pow10_pos n) as Hp. unfold Py.round.
  assert (H : x * Py.pow10 n <= y * Py.pow10 n).
  { apply Qmult_le_compat_r; lra. }
  apply round_half_even_monotone in H. rewrite Zle_Qle in H.
  apply Qmult_le_r with (z := Py.pow10 n); [exact Hp|].
  field_simplify; lra.
Qed.

(** A number with at most [n] decimals is its own rounding. *)
Lemma round_exact (a : Z) (n : nat) (x : Q) :
  x == inject_Z a / Py.pow10 n -> Py.round x n == x.
Proof.
  intros E. apply Qle_antisym.
  - apply (round_upper_bound a n); [exact E|apply Qle_refl].
  - apply (round_lower_bound a n); [exact E|apply Qle_refl].
Qed.

End RoundMonotone.

(** ** Reading the history *)

Section HistoryRead.

(** X1.  [get_pricing_history(limit)] changes nothing.  For a positive
    [limit] it returns the last [min(limit, n)] of the [n] recorded results,
    in order; for [limit = 0] the slice [[-0:]] is the whole history, not the
    empty list. *)
Theorem get_pricing_history_slice (w : World) (limit : Z) :
  ((0 < limit)%Z ->
   exists older recent : list PricingResult,
     get_pricing_history limit w = (Returned recent, w)
     /\ pricing_history (self w) = older ++ recent
     /\ length recent
        = Nat.min (Z.to_nat limit) (length (pricing_history (self w))))
  /\ (limit = 0%Z ->
      get_pricing_history limit w = (Returned (pricing_history (self w)), w)).
Proof.
  split.
  - intros Hpos. unfold get_pricing_history. run_monad.
    apply Z.ltb_lt in Hpos. rewrite Hpos.
    set (h := pricing_history (self w)).
    exists (take (length h - Z.to_nat limit) h),
           (drop (length h - Z.to_nat limit) h).
    split; [reflexivity|]. split; [now rewrite take_drop|].
    rewrite length_drop. lia.
  - intros ->. reflexivity.
Qed.

Lemma get_pricing_history_slice_witness :
  (0 < 1)%Z
  /\ exists older recent : list PricingResult,
       get_pricing_history 1 twice_priced_world
         = (Returned recent, twice_priced_world)
       /\ pricing_history (self twice_priced_world) = older ++ recent
       /\ length recent = 1%nat.
Proof.
  assert (H : (0 < 1)%Z) by lia.
  split; [exact H|].
  destruct (proj1 (get_pricing_history_slice twice_priced_world 1) H)
    as (older & recent & Hrun & Hsplit & Hlen).
  exists older, recent. split; [exact Hrun|]. split; [exact Hsplit|].
  rewrite Hlen. reflexivity.
Defined.

End HistoryRead.

(** ** Pricing leaves the configuration alone and only appends *)

Section PricingFrame.

Lemma configuration_kept_refl (w : World) : configuration_kept w w.
Proof. repeat split. Qed.

Lemma configuration_kept_trans (w1 w2 w3 : World) :
  configuration_kept w1 w2 -> configuration_kept w2 w3 ->
  configuration_kept w1 w3.
Proof.
  unfold configuration_kept. intros H1 H2.
  destruct H1 as (? & ? & ? & ? & ? & ? & ?).
  destruct H2 as (? & ? & ? & ? & ? & ? & ?).
  repeat split; congruence.
Qed.

Lemma configuration_kept_tick (w : World) : configuration_kept w (tick w).
Proof. repeat split. Qed.

Lemma history_extended_trans (xs ys : list PricingResult) (w1 w2 w3 : World) :
  history_extended_by xs w1 w2 -> history_extended_by ys w2 w3 ->
  history_extended_by (xs ++ ys) w1 w3.
Proof.
  unfold history_extended_by. intros H1 H2.
  now rewrite H2, H1, app_assoc.
Qed.

Lemma calculate_dynamic_price_frame (w w' : World) (base : Q)
    (features : Features) (ts : option datetime) (o : outcome PricingResult) :
  calculate_dynamic_price base features ts w = (o, w') ->
  configuration_kept w w'
  /\ history_extended_by (recorded o (fun r => [r])) w w'
  /\ (clock_reads w <= clock_reads w')%nat.
Proof.
  intros Hcall.
  destruct (Qeq_dec base 0) as [Hz|Hnz].
  - rewrite (calculate_dynamic_price_raises w base features ts Hz) in Hcall.
    injection Hcall as <- <-. unfold history_extended_by.
    destruct ts; cbn; rewrite app_nil_r; repeat split; lia.
  - destruct (calculate_dynamic_price_returns w base features ts Hnz)
      as (l & r & Hrun & _).
    rewrite Hrun in Hcall. injection Hcall as <- <-.
    unfold history_extended_by, after_call.
    destruct ts; cbn; repeat split; lia.
Qed.

Lemma optimize_loop_frame (pairs : list (Features * Q)) :
  forall (results : list PricingResult) (tb td : Q) (w w' : World)
         (o : outcome (list PricingResult * Q * Q)),
    optimize_loop pairs results tb td w = (o, w') ->
    configuration_kept w w'
    /\ exists added : list PricingResult,
         history_extended_by added w w'
         /\ (length added <= length pairs)%nat
         /\ recorded o (fun a => a.1.1) = recorded o (fun _ => results ++ added).
Proof.
  induction pairs as [|[features base] rest IH];
    intros results tb td w w' o Hloop.
  - cbn in Hloop. injection Hloop as <- <-.
    split; [apply configuration_kept_refl|].
    exists []. unfold history_extended_by. cbn. rewrite !app_nil_r.
    repeat split. lia.
  - cbn [optimize_loop] in Hloop. run_monad.
    destruct (calculate_dynamic_price base features None w) as [o1 w1] eqn:E1.
    destruct (calculate_dynamic_price_frame _ _ _ _ _ _ E1) as (K1 & H1 & _).
    destruct o1 as [r|e].
    + destruct (IH _ _ _ _ _ _ Hloop) as (K2 & added & H2 & Hlen & Hrec).
      split; [eapply configuration_kept_trans; eassumption|].
      exists (r :: added). split; [|split].
      * apply (history_extended_trans [r] added w w1 w'); assumption.
      * cbn. lia.
      * rewrite Hrec. destruct o; cbn; [|reflexivity].
        now rewrite <- app_assoc.
    + injection Hloop as <- <-. split; [exact K1|].
      exists []. split; [exact H1|]. split; [cbn; lia|reflexivity].
Qed.

Lemma simulate_loop_frame (base : Q) (features : Features)
    (scenarios : list string) :
  forall (results : gmap string PricingResult) (w w' : World)
         (o : outcome (gmap string PricingResult)),
    simulate_loop base features scenarios results w = (o, w') ->
    configuration_kept w w'
    /\ exists added : list PricingResult,
         history_extended_by added w w'
         /\ (length added <= length scenarios)%nat.
Proof.
  induction scenarios as [|scenario rest IH]; intros results w w' o Hloop.
  - cbn in Hloop. injection Hloop as <- <-.
    split; [apply configuration_kept_refl|].
    exists []. unfold history_extended_by. rewrite app_nil_r. split; [easy|].
    cbn. lia.
  - cbn [simulate_loop] in Hloop. run_monad.
    assert (Hts : exists t w0,
               match scenario_timestamp scenario with
               | Some t => (fun w => (Returned t, w)) : M datetime
               | None => fun w =>
                   (Returned (wall_clock w (clock_reads w)),
                    {| heap := heap w; wall_clock := wall_clock w;
                       clock_reads := S (clock_reads w); self := self w |})
               end w = (Returned t, w0)
               /\ configuration_kept w w0
               /\ history_extended_by [] w w0).
    { destruct (scenario_timestamp scenario) as [t|]; eexists; eexists;
        (split; [reflexivity|]); unfold history_extended_by; cbn;
        rewrite app_nil_r; repeat split. }
    destruct Hts as (t & w0 & Ets & K0 & H0). rewrite Ets in Hloop.
    destruct (calculate_dynamic_price base features (Some t) w0)
      as [o1 w1] eqn:E1.
    destruct (calculate_dynamic_price_frame _ _ _ _ _ _ E1) as (K1 & H1 & _).
    destruct o1 as [r|e].
    + destruct (IH _ _ _ _ Hloop) as (K2 & added & H2 & Hlen).
      split.
      * eapply configuration_kept_trans; [exact K0|].
        eapply configuration_kept_trans; eassumption.
      * exists (r :: added). split; [|cbn; lia].
        apply (history_extended_trans [] (r :: added) w w0 w'); [exact H0|].
        apply (history_extended_trans [r] added w0 w1 w'); assumption.
    + injection Hloop as <- <-.
      split; [eapply configuration_kept_trans; eassumption|].
      exists []. split; [|cbn; lia].
      apply (history_extended_trans [] [] w w0 w1); assumption.
Qed.

(** X2.  Whatever their outcome, [calculate_dynamic_price],
    [optimize_revenue] and [simulate_pricing_scenarios] leave the weights
    dictionaries, the constraints, the demand-factor table and the
    collaborators as they were, and they only append to the history: the
    results recorded before the call are still its first entries, in the
    same order.  A returning [calculate_dynamic_price] appends exactly its
    result, a raising one nothing; the two batch operations append at most
    one entry per customer or scenario. *)
Theorem pricing_keeps_configuration_and_appends (w w' : World) :
  (forall base features ts (o : outcome PricingResult),
     calculate_dynamic_price base features ts w = (o, w') ->
     configuration_kept w w'
     /\ history_extended_by (recorded o (fun r => [r])) w w')
  /\ (forall customers base_prices (o : outcome RevenueReport),
        optimize_revenue customers base_prices w = (o, w') ->
        configuration_kept w w'
        /\ exists added : list PricingResult,
             history_extended_by added w w'
             /\ (length added <= length (zip customers base_prices))%nat
             /\ recorded o individual_results = recorded o (fun _ => added))
  /\ (forall base features scenarios
             (o : outcome (gmap string PricingResult)),
        simulate_pricing_scenarios base features scenarios w = (o, w') ->
        configuration_kept w w'
        /\ exists added : list PricingResult,
             history_extended_by added w w'
             /\ (length added
                 <= length (default default_scenarios scenarios))%nat).
Proof.
  split; [|split].
  - intros base features ts o Hcall.
    destruct (calculate_dynamic_price_frame _ _ _ _ _ _ Hcall) as (K & H & _).
    now split.
  - intros customers base_prices o Hcall.
    unfold optimize_revenue in Hcall. run_monad.
    destruct (optimize_loop (zip customers base_prices) [] 0 0 w)
      as [o1 w1] eqn:E1.
    destruct (optimize_loop_frame _ _ _ _ _ _ _ E1)
      as (K & added & H & Hlen & Hrec).
    destruct o1 as [[[rs tb] td]|e].
    + cbn in Hrec. subst rs. unfold truediv in Hcall.
      destruct (Qeq_bool tb 0);
        [|destruct (Qeq_bool (len added) 0)];
        injection Hcall as <- <-; (split; [exact K|]);
        exists added; repeat split; assumption.
    + injection Hcall as <- <-. split; [exact K|].
      exists added. repeat split; assumption.
  - intros base features scenarios o Hcall.
    apply (simulate_loop_frame _ _ _ _ _ _ _ Hcall).
Qed.

End PricingFrame.

Lemma pricing_keeps_configuration_witness :
  calculate_dynamic_price 999 ∅ (Some monday_20h) fresh_world
    = (fst (calculate_dynamic_price 999 ∅ (Some monday_20h) fresh_world),
       snd (calculate_dynamic_price 999 ∅ (Some monday_20h) fresh_world))
  /\ configuration_kept fresh_world
       (snd (calculate_dynamic_price 999 ∅ (Some monday_20h) fresh_world)).
Proof.
  assert (H : calculate_dynamic_price 999 ∅ (Some monday_20h) fresh_world
              = (fst (calculate_dynamic_price 999 ∅ (Some monday_20h)
                        fresh_world),
                 snd (calculate_dynamic_price 999 ∅ (Some monday_20h)
                        fresh_world)))
    by apply surjective_pairing.
  split; [exact H|].
  exact (proj1 (proj1 (pricing_keeps_configuration_and_appends fresh_world _)
                  999 ∅ (Some monday_20h) _ H)).
Defined.

(** ** The percent change and the adjustment *)

Section PercentChange.

Variables (w : World) (base : Q) (features : Features)
          (ts : option datetime).

Let c := constraints (self w).

Lemma adjustment_lower (l : Locals.t) :
  locals_trace w base features ts l -> min_discount c <= Locals.adjustment l.
Proof.
  intros (_ & _ & _ & _ & _ & _ & _ & _ & _ & Hadj & _).
  rewrite Hadj. apply clamp_lower.
Qed.


(** X4.  A negative base price is not rejected.  With
    [-0.5 < min_discount] the floor [0.5 * base_price] is the larger of the
    two candidate prices, whatever the customer and the time: the call
    returns half the base price, a change of exactly -50 percent and the
    maximum-discount recommendation. *)
Theorem negative_base_price_is_halved :
  base < 0 ->
  -0.5 < min_discount c ->
  exists (r : PricingResult) (w' : World),
    calculate_dynamic_price base features ts w = (Returned r, w')
    /\ dynamic_price r == Py.round (0.5 * base) 2
    /\ price_change_percent r == -50
    /\ recommendation r
       = "High retention risk. Apply maximum discount with loyalty offer.".
Proof.
  intros Hneg Hmin.
  assert (Hnz : ~ base == 0) by lra.
  destruct (calculate_dynamic_price_returns w base features ts Hnz)
    as (l & r & Hrun & Hloc & Htrace & Hres).
  exists r, (after_call w ts r). split; [exact Hrun|].
  pose proof (adjustment_lower l Htrace) as Hlow.
  pose proof Htrace as (_ & _ & _ & _ & _ & _ & _ & _ & _ & _ & Hun & Hdp).
  assert (Hprice : Locals.dynamic_price l == 0.5 * base).
  { rewrite Hdp, Hun.
    destruct (max_cases (base * 0.5) (base * (1 + Locals.adjustment l)))
      as [[H1 E]|[H1 E]]; rewrite E; nra. }
  destruct Hres as (_ & Hd & _ & Hp & _ & _ & _ & _ & _ & _ & _ & Hrec).
  assert (Hpct : price_change_percent r == -50).
  { rewrite Hp.
    assert (E : (Locals.dynamic_price l - base) / base * 100 == -50).
    { rewrite Hprice. field. exact Hnz. }
    transitivity (Py.round (-50) 2).
    - apply round_proper; [exact E|reflexivity].
    - apply (round_exact (-5000) 2). reflexivity. }
  split; [|split; [exact Hpct|]].
  - rewrite Hd. apply round_proper; [exact Hprice|reflexivity].
  - rewrite Hrec.
    apply (proj1 (_generate_recommendation_thresholds _ _)).
    rewrite Hpct. reflexivity.
Qed.

End PercentChange.


Lemma negative_base_price_is_halved_witness :
  -200 < 0
  /\ -0.5 < min_discount (constraints (self fresh_world))
  /\ returned_with (fun r => dynamic_price r == -100)
       (fst (calculate_dynamic_price (-200) risky_customer None fresh_world)).
Proof.
  assert (H1 : -200 < 0) by reflexivity.
  assert (H2 : -0.5 < min_discount (constraints (self fresh_world)))
    by reflexivity.
  split; [exact H1|]. split; [exact H2|].
  destruct (negative_base_price_is_halved fresh_world (-200) risky_customer
              None H1 H2) as (r & w' & Hrun & Hd & _).
  rewrite Hrun. cbn [fst returned_with]. rewrite Hd. reflexivity.
Defined.

(** ** A price depends on the configuration, the customer and the time *)

Section Repeatable.

Lemma locals_trace_functional (w w' : World) (base : Q) (features : Features)
    (ts ts' : option datetime) (l l' : Locals.t) :
  configuration_kept w w' ->
  effective_time ts w = effective_time ts' w' ->
  locals_trace w base features ts l ->
  locals_trace w' base features ts' l' ->
  l = l'.
Proof.
  intros (Hh & _ & Hw & Hc & Hd & Hcm & Hsm) Ht T T'.
  unfold locals_trace, elasticity_value, churn_value in *.
  rewrite Hh, Hw, Hc, Hd, Hcm, Hsm, <- Ht in T'.
  destruct l, l'. cbn in *.
  destruct T as (-> & -> & -> & -> & -> & -> & -> & -> & -> & -> & -> & ->).
  destruct T' as (-> & -> & -> & -> & -> & -> & -> & -> & -> & -> & -> & ->).
  reflexivity.
Qed.

Lemma result_of_functional (w w' : World) (base : Q) (t : datetime)
    (l : Locals.t) (r r' : PricingResult) :
  weights (self w') = weights (self w) ->
  result_of w base (Some t) l r ->
  result_of w' base (Some t) l r' ->
  r = r'.
Proof.
  intros Hw R R'. unfold result_of in *. rewrite Hw in R'.
  destruct r as [? ? ? ? [? ? ? ?] ? ? ? ?].
  destruct r' as [? ? ? ? [? ? ? ?] ? ? ? ?]. cbn in *.
  destruct R as (-> & -> & -> & -> & -> & -> & -> & -> & -> & -> & -> & ->).
  destruct R' as (-> & -> & -> & -> & -> & -> & -> & -> & -> & -> & -> & ->).
  reflexivity.
Qed.

Lemma returned_result_repeatable (w w' : World) (base : Q)
    (features : Features) (t : datetime) (r r' : PricingResult)
    (w1 w1' : World) :
  configuration_kept w w' ->
  ~ base == 0 ->
  calculate_dynamic_price base features (Some t) w = (Returned r, w1) ->
  calculate_dynamic_price base features (Some t) w' = (Returned r', w1') ->
  r' = r.
Proof.
  intros K Hnz Hcall Hcall'.
  destruct (calculate_dynamic_price_returns w base features (Some t) Hnz)
    as (l & r0 & Hrun & _ & T & R).
  destruct (calculate_dynamic_price_returns w' base features (Some t) Hnz)
    as (l' & r0' & Hrun' & _ & T' & R').
  rewrite Hrun in Hcall. injection Hcall as <- _.
  rewrite Hrun' in Hcall'. injection Hcall' as <- _.
  assert (El : l = l').
  { apply (locals_trace_functional w w' base features (Some t) (Some t));
      [exact K|reflexivity|exact T|exact T']. }
  subst l'. symmetry.
  eapply result_of_functional; [|exact R|exact R'].
  apply K.
Qed.

(** X5.  With an explicit timestamp, the outcome of
    [calculate_dynamic_price] is a function of the base price, the features,
    the timestamp and the configuration alone: in any two worlds with the
    same configuration it is the same result, entry for entry, however many
    prices were recorded or clock readings taken in between. *)
Theorem price_ignores_history_and_clock (w w' : World) (base : Q)
    (features : Features) (t : datetime) :
  configuration_kept w w' ->
  fst (calculate_dynamic_price base features (Some t) w')
  = fst (calculate_dynamic_price base features (Some t) w).
Proof.
  intros K.
  destruct (Qeq_dec base 0) as [Hz|Hnz].
  - now rewrite !calculate_dynamic_price_raises.
  - destruct (calculate_dynamic_price_returns w base features (Some t) Hnz)
      as (l & r & Hrun & _).
    destruct (calculate_dynamic_price_returns w' base features (Some t) Hnz)
      as (l' & r' & Hrun' & _).
    rewrite (returned_result_repeatable w w' base features t r r' _ _
               K Hnz Hrun Hrun') in Hrun'.
    now rewrite Hrun, Hrun'.
Qed.

End Repeatable.

Lemma price_ignores_history_and_clock_witness :
  configuration_kept fresh_world twice_priced_world
  /\ fst (calculate_dynamic_price 799 risky_customer (Some saturday_20h)
            twice_priced_world)
     = fst (calculate_dynamic_price 799 risky_customer (Some saturday_20h)
              fresh_world).
Proof.
  assert (K : configuration_kept fresh_world twice_priced_world)
    by (repeat split).
  split; [exact K|].
  exact (price_ignores_history_and_clock fresh_world twice_priced_world 799
           risky_customer saturday_20h K).
Defined.

(** ** Which way each signal moves the price *)

Section Directions.

Lemma clamp_monotone (lo hi x y : Q) :
  x <= y -> Py.max lo (Py.min hi x) <= Py.max lo (Py.min hi y).
Proof.
  intros Hxy.
  destruct (max_cases lo (Py.min hi x)) as [[? ?]|[? ?]];
  destruct (max_cases lo (Py.min hi y)) as [[? ?]|[? ?]];
  destruct (min_cases hi x) as [[? ?]|[? ?]];
  destruct (min_cases hi y) as [[? ?]|[? ?]]; lra.
Qed.

Lemma floor_monotone (lo x y : Q) : x <= y -> Py.max lo x <= Py.max lo y.
Proof.
  intros Hxy.
  destruct (max_cases lo x) as [[? ?]|[? ?]];
  destruct (max_cases lo y) as [[? ?]|[? ?]]; lra.
Qed.

(** The discount intensity falls as the elasticity rises. *)
Lemma elasticity_factor_antitone (e1 e2 : Q) :
  e1 <= e2 ->
  Py.max 0 (Py.min 1 ((- e2 - 0.2) / 2.3))
  <= Py.max 0 (Py.min 1 ((- e1 - 0.2) / 2.3)).
Proof.
  intros H. apply clamp_monotone.
  assert (E1 : (- e1 - 0.2) / 2.3 == (- e1 - 0.2) * (10 # 23)) by field.
  assert (E2 : (- e2 - 0.2) / 2.3 == (- e2 - 0.2) * (10 # 23)) by field.
  lra.
Qed.

Lemma elasticity_factor_nonneg (e : Q) :
  0 <= Py.max 0 (Py.min 1 ((- e - 0.2) / 2.3)).
Proof. apply clamp_lower. Qed.

(** Two calls under the same weights and constraints: a larger weighted sum
    gives a larger price, for a base price that is not negative. *)
Lemma price_monotone_in_combined (w : World) (base : Q)
    (f1 f2 : Features) (ts1 ts2 : option datetime) (l1 l2 : Locals.t) :
  0 <= base ->
  locals_trace w base f1 ts1 l1 ->
  locals_trace w base f2 ts2 l2 ->
  Locals.combined l1 <= Locals.combined l2 ->
  Locals.adjustment l1 <= Locals.adjustment l2
  /\ Locals.dynamic_price l1 <= Locals.dynamic_price l2.
Proof.
  intros Hb T1 T2 Hc.
  destruct T1 as (_ & _ & _ & _ & _ & _ & _ & _ & _ & A1 & U1 & D1).
  destruct T2 as (_ & _ & _ & _ & _ & _ & _ & _ & _ & A2 & U2 & D2).
  assert (Ha : Locals.adjustment l1 <= Locals.adjustment l2).
  { rewrite A1, A2. now apply clamp_monotone. }
  split; [exact Ha|].
  rewrite D1, D2, U1, U2. apply floor_monotone. nra.
Qed.

Lemma combined_formula (w : World) (base : Q) (features : Features)
    (ts : option datetime) (l : Locals.t) :
  locals_trace w base features ts l ->
  Locals.combined l
  == alpha (heap w !!! weights (self w)) * Locals.demand_factor l
     - beta (heap w !!! weights (self w)) * Locals.elasticity_factor l
     - gamma (heap w !!! weights (self w)) * Locals.churn_risk l.
Proof.
  intros (_ & _ & _ & Ha & Hb & Hg & _ & Hcd & Hco & _).
  rewrite Hco, Hcd, Ha, Hb, Hg. ring.
Qed.

Lemma returned_price_monotone (w : World) (base : Q)
    (f1 f2 : Features) (ts1 ts2 : option datetime) :
  0 < base ->
  (forall l1 l2,
     locals_trace w base f1 ts1 l1 -> locals_trace w base f2 ts2 l2 ->
     Locals.combined l1 <= Locals.combined l2) ->
  exists (r1 r2 : PricingResult) (w1 w2 : World),
    calculate_dynamic_price base f1 ts1 w = (Returned r1, w1)
    /\ calculate_dynamic_price base f2 ts2 w = (Returned r2, w2)
    /\ adjustment r1 <= adjustment r2
    /\ dynamic_price r1 <= dynamic_price r2.
Proof.
  intros Hb Hc.
  assert (Hnz : ~ base == 0) by lra.
  destruct (calculate_dynamic_price_returns w base f1 ts1 Hnz)
    as (l1 & r1 & Hrun1 & _ & T1 & R1).
  destruct (calculate_dynamic_price_returns w base f2 ts2 Hnz)
    as (l2 & r2 & Hrun2 & _ & T2 & R2).
  exists r1, r2, (after_call w ts1 r1), (after_call w ts2 r2).
  split; [exact Hrun1|]. split; [exact Hrun2|].
  destruct (price_monotone_in_combined w base f1 f2 ts1 ts2 l1 l2)
    as [Ha Hd]; [lra|exact T1|exact T2|now apply Hc|].
  destruct R1 as (_ & D1 & _ & _ & _ & _ & _ & _ & _ & A1 & _).
  destruct R2 as (_ & D2 & _ & _ & _ & _ & _ & _ & _ & A2 & _).
  rewrite D1, D2, A1, A2. split; now apply round_monotone.
Qed.

(** X6.  For a customer and a positive base price, under a demand weight
    [alpha >= 0] and a table with [offpeak_multiplier <= peak_multiplier],
    a call at a peak hour never returns a lower price than a call at an
    off-peak hour of a day of the same kind (both on a weekend, or both on
    weekdays). *)
Theorem peak_hour_never_cheaper (w : World) (base : Q) (features : Features)
    (t_peak t_off : datetime) :
  let df := demand_factors (self w) in
  0 < base ->
  0 <= alpha (heap w !!! weights (self w)) ->
  offpeak_multiplier df <= peak_multiplier df ->
  in_peak_window df t_peak ->
  ~ in_peak_window df t_off ->
  (on_weekend t_peak <-> on_weekend t_off) ->
  exists (r_off r_peak : PricingResult) (w1 w2 : World),
    calculate_dynamic_price base features (Some t_off) w = (Returned r_off, w1)
    /\ calculate_dynamic_price base features (Some t_peak) w
       = (Returned r_peak, w2)
    /\ adjustment r_off <= adjustment r_peak
    /\ dynamic_price r_off <= dynamic_price r_peak.
Proof.
  intros df Hb Ha Hm Hp Ho Hw.
  apply returned_price_monotone; [exact Hb|].
  intros l1 l2 T1 T2.
  rewrite (combined_formula _ _ _ _ _ T1), (combined_formula _ _ _ _ _ T2).
  destruct T1 as (D1 & E1 & C1 & _ & _ & _ & F1 & _).
  destruct T2 as (D2 & E2 & C2 & _ & _ & _ & F2 & _).
  assert (Hd : Locals.demand_factor l1 <= Locals.demand_factor l2).
  { rewrite D1, D2. cbn [effective_time]. unfold spec_demand_factor.
    fold df. apply round_monotone.
    repeat case_decide; try tauto; lra. }
  assert (Hef : Locals.elasticity_factor l1 = Locals.elasticity_factor l2).
  { rewrite F1, F2, E1, E2. reflexivity. }
  rewrite Hef, C1, C2.
  set (a := alpha _) in *. nra.
Qed.

Lemma peak_hour_never_cheaper_witness :
  0 < 799
  /\ 0 <= alpha (heap fresh_world !!! weights (self fresh_world))
  /\ offpeak_multiplier (demand_factors (self fresh_world))
     <= peak_multiplier (demand_factors (self fresh_world))
  /\ in_peak_window (demand_factors (self fresh_world)) saturday_20h
  /\ ~ in_peak_window (demand_factors (self fresh_world)) saturday_10h
  /\ (on_weekend saturday_20h <-> on_weekend saturday_10h)
  /\ exists (r_off r_peak : PricingResult) (w1 w2 : World),
       calculate_dynamic_price 799 risky_customer (Some saturday_10h)
         fresh_world = (Returned r_off, w1)
       /\ calculate_dynamic_price 799 risky_customer (Some saturday_20h)
            fresh_world = (Returned r_peak, w2)
       /\ adjustment r_off <= adjustment r_peak
       /\ dynamic_price r_off <= dynamic_price r_peak.
Proof.
  assert (H1 : 0 < 799) by reflexivity.
  assert (H2 : 0 <= alpha (heap fresh_world !!! weights (self fresh_world)))
    by q_decide.
  assert (H3 : offpeak_multiplier (demand_factors (self fresh_world))
               <= peak_multiplier (demand_factors (self fresh_world)))
    by q_decide.
  assert (H4 : in_peak_window (demand_factors (self fresh_world)) saturday_20h)
    by (vm_compute; split; discriminate).
  assert (H5 : ~ in_peak_window (demand_factors (self fresh_world))
                 saturday_10h)
    by (vm_compute; intros [H _]; apply H; reflexivity).
  assert (H6 : on_weekend saturday_20h <-> on_weekend saturday_10h)
    by (split; intros _; left; reflexivity).
  repeat (split; [assumption|]).
  exact (peak_hour_never_cheaper fresh_world 799 risky_customer
           saturday_20h saturday_10h H1 H2 H3 H4 H5 H6).
Defined.

End Directions.

Section Discounts.

Lemma churn_value_nonneg (e : Engine) (features : Features) :
  churn_risk_nonnegative e features -> 0 <= churn_value e features.
Proof.
  unfold churn_risk_nonnegative, churn_value. intros H.
  assert (Hh : get features "nps_score" 5 <= 10 ->
               0 <= Py.round (churn_heuristic features) 4).
  { intros Hn. apply (round_lower_bound 0 4); [reflexivity|].
    unfold churn_heuristic. cbv zeta.
    pose proof (normalize_range (- get features "usage_change_30d" 0) 0 30).
    pose proof (normalize_range (get features "days_since_login" 0) 0 30).
    pose proof (normalize_range (get features "payment_failures_90d" 0) 0 3).
    pose proof (normalize_range (get features "support_tickets" 0) 0 5).
    assert (E : get features "nps_score" 5 / 10
                == get features "nps_score" 5 * (1 # 10)) by field.
    lra. }
  destruct (churn_model e) as [m|]; [|now apply Hh].
  destruct (churn_is_fitted m); [|now apply Hh].
  apply (round_lower_bound 0 4); [reflexivity|exact H].
Qed.

(** X7.  Under weights [beta >= 0] and [gamma >= 0], for a customer whose
    churn estimate cannot be negative, elasticity and churn risk only ever
    lower the price: the weighted sum is at most [alpha * demand_factor] and
    the adjustment at most that product clamped by the constraints.  So when
    [alpha * demand_factor <= 0] and [min_discount <= 0], no call adds a
    premium: the adjustment is at most 0. *)
Theorem elasticity_and_churn_only_discount (w : World) (base : Q)
    (features : Features) (ts : option datetime) :
  let wts := heap w !!! weights (self w) in
  let c := constraints (self w) in
  0 <= beta wts ->
  0 <= gamma wts ->
  churn_risk_nonnegative (self w) features ->
  exists (l : Locals.t) (w' : World),
    pricing_locals base features ts w = (Returned l, w')
    /\ Locals.combined l <= alpha wts * Locals.demand_factor l
    /\ Locals.adjustment l
       <= Py.max (min_discount c)
            (Py.min (max_premium c) (alpha wts * Locals.demand_factor l))
    /\ (alpha wts * Locals.demand_factor l <= 0 -> min_discount c <= 0 ->
        Locals.adjustment l <= 0).
Proof.
  intros wts c Hb Hg Hch.
  destruct (pricing_locals_run w base features ts) as (l & Hrun & T).
  exists l, (after_clock ts w). split; [exact Hrun|].
  pose proof (combined_formula _ _ _ _ _ T) as Hco. fold wts in Hco.
  pose proof T as (_ & _ & C & _ & _ & _ & F & _ & _ & A & _).
  assert (Hc0 : 0 <= Locals.churn_risk l)
    by (rewrite C; now apply churn_value_nonneg).
  assert (Hf0 : 0 <= Locals.elasticity_factor l)
    by (rewrite F; apply elasticity_factor_nonneg).
  assert (Hle : Locals.combined l <= alpha wts * Locals.demand_factor l).
  { rewrite Hco. nra. }
  assert (Hadj : Locals.adjustment l
                 <= Py.max (min_discount c)
                      (Py.min (max_premium c)
                         (alpha wts * Locals.demand_factor l))).
  { rewrite A. now apply clamp_monotone. }
  split; [exact Hle|]. split; [exact Hadj|].
  intros Hd Hm.
  destruct (max_cases (min_discount c)
              (Py.min (max_premium c) (alpha wts * Locals.demand_factor l)))
    as [[? ?]|[? ?]];
  destruct (min_cases (max_premium c) (alpha wts * Locals.demand_factor l))
    as [[? ?]|[? ?]]; lra.
Qed.

Lemma elasticity_and_churn_only_discount_witness :
  0 <= beta (heap fresh_world !!! weights (self fresh_world))
  /\ 0 <= gamma (heap fresh_world !!! weights (self fresh_world))
  /\ churn_risk_nonnegative (self fresh_world) risky_customer
  /\ returned_with
       (fun l => Locals.combined l
                 <= alpha (heap fresh_world !!! weights (self fresh_world))
                    * Locals.demand_factor l)
       (fst (pricing_locals 799 risky_customer (Some monday_20h) fresh_world)).
Proof.
  assert (H1 : 0 <= beta (heap fresh_world !!! weights (self fresh_world)))
    by q_decide.
  assert (H2 : 0 <= gamma (heap fresh_world !!! weights (self fresh_world)))
    by q_decide.
  assert (H3 : churn_risk_nonnegative (self fresh_world) risky_customer)
    by q_decide.
  split; [exact H1|]. split; [exact H2|]. split; [exact H3|].
  destruct (elasticity_and_churn_only_discount fresh_world 799 risky_customer
              (Some monday_20h) H1 H2 H3) as (l & w' & Hrun & Hle & _).
  rewrite Hrun. exact Hle.
Defined.

Lemma get_insert_eq (features : Features) (key : string) (v d : Q) :
  get (<[key := v]> features) key d = v.
Proof. unfold get. now rewrite lookup_insert_eq. Qed.

Lemma get_insert_ne (features : Features) (key key' : string) (v d : Q) :
  key <> key' -> get (<[key := v]> features) key' d = get features key' d.
Proof. intros H. unfold get. now rewrite lookup_insert_ne. Qed.

Lemma normalize_monotone (x y lo hi : Q) :
  lo < hi -> x <= y -> normalize x lo hi <= normalize y lo hi.
Proof.
  intros Hlh Hxy. unfold normalize. apply clamp_monotone.
  apply Qmult_le_compat_r; [lra|].
  apply Qlt_le_weak, Qinv_lt_0_compat. lra.
Qed.

(** Raising one of the event counts raises the churn heuristic and leaves
    the elasticity heuristic alone. *)
Lemma risk_indicator_effect (features : Features) (key : string) (v v' : Q) :
  risk_indicator key -> v <= v' ->
  churn_heuristic (<[key := v]> features)
    <= churn_heuristic (<[key := v']> features)
  /\ elasticity_heuristic (<[key := v']> features)
     = elasticity_heuristic (<[key := v]> features).
Proof.
  intros Hk Hv. unfold churn_heuristic, elasticity_heuristic. cbv zeta.
  destruct Hk as [->|[->| ->]];
    rewrite ?get_insert_eq, !get_insert_ne by discriminate;
    (split; [|reflexivity]);
    [ pose proof (normalize_monotone v v' 0 30)
    | pose proof (normalize_monotone v v' 0 3)
    | pose proof (normalize_monotone v v' 0 5) ]; lra.
Qed.

(** X8.  With no fitted collaborator attached and a churn weight
    [gamma >= 0], raising one of the event counts of a customer (days since
    login, payment failures, support tickets) never raises the price: for a
    positive base price the call with the larger count returns an adjustment
    and a dynamic price that are at most those of the call with the smaller
    count. *)
Theorem more_risk_never_raises_price (w : World) (base : Q)
    (features : Features) (ts : option datetime) (key : string) (v v' : Q) :
  0 < base ->
  0 <= gamma (heap w !!! weights (self w)) ->
  no_fitted_churn (self w) ->
  no_fitted_segmentation (self w) ->
  risk_indicator key ->
  v <= v' ->
  exists (r_more r_less : PricingResult) (w1 w2 : World),
    calculate_dynamic_price base (<[key := v']> features) ts w
      = (Returned r_more, w1)
    /\ calculate_dynamic_price base (<[key := v]> features) ts w
       = (Returned r_less, w2)
    /\ adjustment r_more <= adjustment r_less
    /\ dynamic_price r_more <= dynamic_price r_less.
Proof.
  intros Hb Hg Hnc Hns Hk Hv.
  apply returned_price_monotone; [exact Hb|].
  intros l1 l2 T1 T2.
  rewrite (combined_formula _ _ _ _ _ T1), (combined_formula _ _ _ _ _ T2).
  destruct T1 as (D1 & E1 & C1 & _ & _ & _ & F1 & _).
  destruct T2 as (D2 & E2 & C2 & _ & _ & _ & F2 & _).
  destruct (risk_indicator_effect features key v v' Hk Hv) as [Hch Hel].
  rewrite (churn_value_fallback _ _ Hnc) in C1.
  rewrite (churn_value_fallback _ _ Hnc) in C2.
  rewrite (elasticity_value_fallback _ _ Hns) in E1.
  rewrite (elasticity_value_fallback _ _ Hns) in E2.
  assert (Hd : Locals.demand_factor l1 = Locals.demand_factor l2)
    by (rewrite D1, D2; reflexivity).
  assert (Hf : Locals.elasticity_factor l1 = Locals.elasticity_factor l2)
    by (rewrite F1, F2, E1, E2, Hel; reflexivity).
  assert (Hc : Locals.churn_risk l2 <= Locals.churn_risk l1)
    by (rewrite C1, C2; now apply round_monotone).
  rewrite Hd, Hf. set (g := gamma _) in *. nra.
Qed.

Lemma more_risk_never_raises_price_witness :
  0 < 799
  /\ 0 <= gamma (heap fresh_world !!! weights (self fresh_world))
  /\ no_fitted_churn (self fresh_world)
  /\ no_fitted_segmentation (self fresh_world)
  /\ risk_indicator "payment_failures_90d"
  /\ 0 <= 2
  /\ exists (r_more r_less : PricingResult) (w1 w2 : World),
       calculate_dynamic_price 799 (<["payment_failures_90d" := 2]> ∅)
         (Some monday_20h) fresh_world = (Returned r_more, w1)
       /\ calculate_dynamic_price 799 (<["payment_failures_90d" := 0]> ∅)
            (Some monday_20h) fresh_world = (Returned r_less, w2)
       /\ adjustment r_more <= adjustment r_less
       /\ dynamic_price r_more <= dynamic_price r_less.
Proof.
  assert (H1 : 0 < 799) by reflexivity.
  assert (H2 : 0 <= gamma (heap fresh_world !!! weights (self fresh_world)))
    by q_decide.
  assert (H3 : no_fitted_churn (self fresh_world)) by exact I.
  assert (H4 : no_fitted_segmentation (self fresh_world)) by exact I.
  assert (H5 : risk_indicator "payment_failures_90d")
    by (right; left; reflexivity).
  assert (H6 : 0 <= 2) by discriminate.
  repeat (split; [assumption|]).
  exact (more_risk_never_raises_price fresh_world 799 ∅ (Some monday_20h)
           "payment_failures_90d" 0 2 H1 H2 H3 H4 H5 H6).
Defined.

End Discounts.

Section Satisfaction.

Lemma nps_effect (features : Features) (v v' : Q) :
  v <= v' ->
  churn_heuristic (<["nps_score" := v']> features)
    <= churn_heuristic (<["nps_score" := v]> features)
  /\ elasticity_heuristic (<["nps_score" := v]> features)
     <= elasticity_heuristic (<["nps_score" := v']> features).
Proof.
  intros Hv. unfold churn_heuristic, elasticity_heuristic. cbv zeta.
  rewrite !get_insert_eq, !get_insert_ne by discriminate.
  assert (E : v / 10 == v * (1 # 10)) by field.
  assert (E' : v' / 10 == v' * (1 # 10)) by field.
  split; [lra|].
  apply clamp_monotone. lra.
Qed.

(** X9.  With no fitted collaborator attached and weights [beta >= 0] and
    [gamma >= 0], a higher NPS score never lowers the price: it lowers the
    churn heuristic and raises the elasticity heuristic, and both move the
    adjustment up.  For a positive base price the call with the higher score
    returns an adjustment and a dynamic price at least those of the call
    with the lower score. *)
Theorem higher_nps_never_lowers_price (w : World) (base : Q)
    (features : Features) (ts : option datetime) (v v' : Q) :
  0 < base ->
  0 <= beta (heap w !!! weights (self w)) ->
  0 <= gamma (heap w !!! weights (self w)) ->
  no_fitted_churn (self w) ->
  no_fitted_segmentation (self w) ->
  v <= v' ->
  exists (r_low r_high : PricingResult) (w1 w2 : World),
    calculate_dynamic_price base (<["nps_score" := v]> features) ts w
      = (Returned r_low, w1)
    /\ calculate_dynamic_price base (<["nps_score" := v']> features) ts w
       = (Returned r_high, w2)
    /\ adjustment r_low <= adjustment r_high
    /\ dynamic_price r_low <= dynamic_price r_high.
Proof.
  intros Hb Hbe Hg Hnc Hns Hv.
  apply returned_price_monotone; [exact Hb|].
  intros l1 l2 T1 T2.
  rewrite (combined_formula _ _ _ _ _ T1), (combined_formula _ _ _ _ _ T2).
  destruct T1 as (D1 & E1 & C1 & _ & _ & _ & F1 & _).
  destruct T2 as (D2 & E2 & C2 & _ & _ & _ & F2 & _).
  destruct (nps_effect features v v' Hv) as [Hch Hel].
  rewrite (churn_value_fallback _ _ Hnc) in C1.
  rewrite (churn_value_fallback _ _ Hnc) in C2.
  rewrite (elasticity_value_fallback _ _ Hns) in E1.
  rewrite (elasticity_value_fallback _ _ Hns) in E2.
  assert (Hd : Locals.demand_factor l1 = Locals.demand_factor l2)
    by (rewrite D1, D2; reflexivity).
  assert (He : Locals.elasticity l1 <= Locals.elasticity l2)
    by (rewrite E1, E2; now apply round_monotone).
  assert (Hf : Locals.elasticity_factor l2 <= Locals.elasticity_factor l1)
    by (rewrite F1, F2; now apply elasticity_factor_antitone).
  assert (Hc : Locals.churn_risk l2 <= Locals.churn_risk l1)
    by (rewrite C1, C2; now apply round_monotone).
  rewrite Hd. set (g := gamma _) in *. set (b := beta _) in *. nra.
Qed.

Lemma higher_nps_never_lowers_price_witness :
  0 < 799
  /\ 0 <= beta (heap fresh_world !!! weights (self fresh_world))
  /\ 0 <= gamma (heap fresh_world !!! weights (self fresh_world))
  /\ no_fitted_churn (self fresh_world)
  /\ no_fitted_segmentation (self fresh_world)
  /\ 3 <= 9
  /\ exists (r_low r_high : PricingResult) (w1 w2 : World),
       calculate_dynamic_price 799 (<["nps_score" := 3]> risky_customer)
         (Some monday_20h) fresh_world = (Returned r_low, w1)
       /\ calculate_dynamic_price 799 (<["nps_score" := 9]> risky_customer)
            (Some monday_20h) fresh_world = (Returned r_high, w2)
       /\ adjustment r_low <= adjustment r_high
       /\ dynamic_price r_low <= dynamic_price r_high.
Proof.
  assert (H1 : 0 < 799) by reflexivity.
  assert (H2 : 0 <= beta (heap fresh_world !!! weights (self fresh_world)))
    by q_decide.
  assert (H3 : 0 <= gamma (heap fresh_world !!! weights (self fresh_world)))
    by q_decide.
  assert (H4 : no_fitted_churn (self fresh_world)) by exact I.
  assert (H5 : no_fitted_segmentation (self fresh_world)) by exact I.
  assert (H6 : 3 <= 9) by discriminate.
  repeat (split; [assumption|]).
  exact (higher_nps_never_lowers_price fresh_world 799 risky_customer
           (Some monday_20h) 3 9 H1 H2 H3 H4 H5 H6).
Defined.

End Satisfaction.

(** ** Scenario simulation *)

Section Simulation.

Variables (w : World) (base : Q) (features : Features).
Hypothesis base_nonzero : ~ base == 0.

Lemma simulate_loop_known (scenarios : list string) :
  forall (results : gmap string PricingResult) (w1 : World),
    configuration_kept w w1 ->
    Forall known_scenario scenarios ->
    exists (m : gmap string PricingResult) (w2 : World),
      simulate_loop base features scenarios results w1 = (Returned m, w2)
      /\ configuration_kept w w2
      /\ clock_reads w2 = clock_reads w1
      /\ length (pricing_history (self w2))
         = (length (pricing_history (self w1)) + length scenarios)%nat
      /\ (forall name, name ∈ scenarios ->
            scenario_priced_as_in w base features m name)
      /\ (forall name, name ∉ scenarios -> m !! name = results !! name).
Proof.
  induction scenarios as [|s rest IH]; intros results w1 K Hknown.
  - exists results, w1. cbn.
    split; [reflexivity|]. split; [exact K|]. split; [reflexivity|].
    split; [lia|]. split; [|reflexivity].
    intros name Hin. now apply elem_of_nil in Hin.
  - apply Forall_cons in Hknown as [[t Ht] Hrest].
    cbn [simulate_loop]. run_monad. rewrite Ht.
    destruct (calculate_dynamic_price_returns w1 base features (Some t)
                base_nonzero) as (l & r & Hrun & _).
    rewrite Hrun.
    assert (K1 : configuration_kept w (after_call w1 (Some t) r)).
    { eapply configuration_kept_trans; [exact K|]. repeat split. }
    destruct (IH (<[s := r]> results) (after_call w1 (Some t) r) K1 Hrest)
      as (m & w2 & Hloop & K2 & Hclk & Hlen & Hin & Hout).
    exists m, w2. split; [exact Hloop|]. split; [exact K2|].
    split; [exact Hclk|]. split; [|split].
    + rewrite Hlen. cbn. rewrite length_app. cbn. lia.
    + intros name Hname.
      destruct (decide (name ∈ rest)) as [Hr|Hr]; [now apply Hin|].
      apply elem_of_cons in Hname as [->|Hname]; [|contradiction].
      exists t, r. split; [exact Ht|]. split.
      * rewrite (Hout s Hr). apply lookup_insert_eq.
      * destruct (calculate_dynamic_price_returns w base features (Some t)
                    base_nonzero) as (l0 & r0 & Hrun0 & _).
        rewrite Hrun0. cbn [fst]. f_equal. symmetry.
        exact (returned_result_repeatable w w1 base features t r0 r _ _
                 K base_nonzero Hrun0 Hrun).
    + intros name Hname. apply not_elem_of_cons in Hname as [Hne Hr].
      rewrite (Hout name Hr). now apply lookup_insert_ne.
Qed.

(** X10.  For a non-zero base price and scenario names among the four known
    ones, [simulate_pricing_scenarios] returns a dictionary with exactly the
    names asked for; each holds the result [calculate_dynamic_price] gives
    at that scenario's fixed timestamp, unaffected by the scenarios run
    before it.  The clock is not read, the configuration is kept, and the
    history grows by one entry per name in the list, repeated names
    included. *)
Theorem simulate_known_scenarios (scenarios : list string) :
  Forall known_scenario scenarios ->
  exists (m : gmap string PricingResult) (w' : World),
    simulate_pricing_scenarios base features (Some scenarios) w
      = (Returned m, w')
    /\ configuration_kept w w'
    /\ clock_reads w' = clock_reads w
    /\ length (pricing_history (self w'))
       = (length (pricing_history (self w)) + length scenarios)%nat
    /\ (forall name, name ∈ scenarios ->
          scenario_priced_as_in w base features m name)
    /\ (forall name, name ∉ scenarios -> m !! name = None).
Proof.
  intros Hknown.
  destruct (simulate_loop_known scenarios ∅ w (configuration_kept_refl w)
              Hknown)
    as (m & w2 & Hloop & K & Hclk & Hlen & Hin & Hout).
  exists m, w2. unfold simulate_pricing_scenarios. cbn [default].
  split; [exact Hloop|]. split; [exact K|]. split; [exact Hclk|].
  split; [exact Hlen|]. split; [exact Hin|].
  intros name Hname. rewrite (Hout name Hname). apply lookup_empty.
Qed.

(** X11.  The dictionary [simulate_pricing_scenarios] returns does not
    depend on the order of the scenario names, nor on how often a name is
    repeated: two lists of known names with the same members give the same
    dictionary. *)
Theorem simulate_order_independent (scenarios scenarios' : list string) :
  Forall known_scenario scenarios ->
  Forall known_scenario scenarios' ->
  (forall name, name ∈ scenarios <-> name ∈ scenarios') ->
  fst (simulate_pricing_scenarios base features (Some scenarios) w)
  = fst (simulate_pricing_scenarios base features (Some scenarios') w).
Proof.
  intros H1 H2 Hsame.
  destruct (simulate_loop_known scenarios ∅ w (configuration_kept_refl w) H1)
    as (m1 & w1 & Hrun1 & _ & _ & _ & Hin1 & Hout1).
  destruct (simulate_loop_known scenarios' ∅ w (configuration_kept_refl w) H2)
    as (m2 & w2 & Hrun2 & _ & _ & _ & Hin2 & Hout2).
  change (fst (simulate_loop base features scenarios ∅ w)
          = fst (simulate_loop base features scenarios' ∅ w)).
  rewrite Hrun1, Hrun2. cbn [fst]. f_equal.
  apply map_eq. intros name.
  destruct (decide (name ∈ scenarios)) as [Hn|Hn].
  - destruct (Hin1 name Hn) as (t1 & r1 & Ht1 & Hm1 & Hr1).
    destruct (Hin2 name (proj1 (Hsame name) Hn)) as (t2 & r2 & Ht2 & Hm2 & Hr2).
    rewrite Hm1, Hm2. congruence.
  - rewrite (Hout1 name Hn).
    rewrite (Hout2 name); [reflexivity|].
    intros Hn'. apply Hn, Hsame, Hn'.
Qed.

End Simulation.

Lemma default_scenarios_known : Forall known_scenario default_scenarios.
Proof. repeat constructor; eexists; reflexivity. Qed.

Lemma simulate_known_scenarios_witness :
  ~ 799 == 0
  /\ Forall known_scenario default_scenarios
  /\ exists (m : gmap string PricingResult) (w' : World),
       simulate_pricing_scenarios 799 risky_customer (Some default_scenarios)
         fresh_world = (Returned m, w')
       /\ clock_reads w' = clock_reads fresh_world
       /\ length (pricing_history (self w')) = 4%nat
       /\ is_Some (m !! "peak_weekend")
       /\ m !! "midnight" = None.
Proof.
  assert (H1 : ~ 799 == 0) by discriminate.
  pose proof default_scenarios_known as H2.
  split; [exact H1|]. split; [exact H2|].
  destruct (simulate_known_scenarios fresh_world 799 risky_customer H1
              default_scenarios H2)
    as (m & w' & Hrun & _ & Hclk & Hlen & Hin & Hout).
  exists m, w'. split; [exact Hrun|]. split; [exact Hclk|].
  split; [rewrite Hlen; reflexivity|]. split.
  - destruct (Hin "peak_weekend") as (t & r & _ & Hm & _).
    + apply list_elem_of_In. cbn. tauto.
    + rewrite Hm. eauto.
  - apply Hout. intros H. apply list_elem_of_In in H. cbn in H.
    intuition discriminate.
Defined.

Lemma simulate_order_independent_witness :
  ~ 799 == 0
  /\ Forall known_scenario ["peak_weekday"; "offpeak_weekend"]
  /\ Forall known_scenario
       ["offpeak_weekend"; "peak_weekday"; "offpeak_weekend"]
  /\ fst (simulate_pricing_scenarios 799 risky_customer
            (Some ["peak_weekday"; "offpeak_weekend"]) fresh_world)
     = fst (simulate_pricing_scenarios 799 risky_customer
              (Some ["offpeak_weekend"; "peak_weekday"; "offpeak_weekend"])
              fresh_world).
Proof.
  assert (H1 : ~ 799 == 0) by discriminate.
  assert (H2 : Forall known_scenario ["peak_weekday"; "offpeak_weekend"])
    by (repeat constructor; eexists; reflexivity).
  assert (H3 : Forall known_scenario
                 ["offpeak_weekend"; "peak_weekday"; "offpeak_weekend"])
    by (repeat constructor; eexists; reflexivity).
  split; [exact H1|]. split; [exact H2|]. split; [exact H3|].
  apply (simulate_order_independent fresh_world 799 risky_customer H1 _ _ H2 H3).
  intros name. rewrite !list_elem_of_In. cbn. tauto.
Defined.

(** ** Saving and loading *)

Section SaveLoad.

Lemma load_run (d : EngineData) (w1 : World) :
  exists w2 : World,
    load (Some d) w1 = (Returned tt, w2)
    /\ weights (self w2) = fresh (dom (heap w1))
    /\ heap w2 = <[fresh (dom (heap w1)) := ed_weights d]> (heap w1)
    /\ constraints (self w2) = ed_constraints d
    /\ demand_factors (self w2) = ed_demand_factors d
    /\ churn_model (self w2) = churn_model (self w1)
    /\ segmentation_model (self w2) = segmentation_model (self w1)
    /\ pricing_history (self w2) = pricing_history (self w1)
    /\ wall_clock w2 = wall_clock w1
    /\ clock_reads w2 = clock_reads w1.
Proof.
  unfold load, alloc. run_monad. eexists. split; [reflexivity|].
  cbn. repeat split.
Qed.

Lemma fresh_not_allocated (h : gmap loc Weights) (l : loc) :
  is_Some (h !! l) -> l <> fresh (dom h).
Proof.
  intros Hl E. pose proof (is_fresh (dom h)) as Hf.
  rewrite <- E in Hf. apply Hf. now apply elem_of_dom.
Qed.

(** X12.  What [save] writes, [load] restores: after loading the saved
    content into the engine, in whatever state it is by then, the weights,
    the constraints and the demand-factor table are those of the moment of
    saving.  [save] itself changes nothing; [load] keeps the history and the
    collaborators of the engine it loads into, and puts the weights into a
    new dictionary, leaving every existing one as it was. *)
Theorem save_then_load_restores (w w1 : World) :
  exists (d : EngineData) (w2 : World),
    save w = (Returned d, w)
    /\ load (Some d) w1 = (Returned tt, w2)
    /\ heap w2 !!! weights (self w2) = heap w !!! weights (self w)
    /\ constraints (self w2) = constraints (self w)
    /\ demand_factors (self w2) = demand_factors (self w)
    /\ pricing_history (self w2) = pricing_history (self w1)
    /\ churn_model (self w2) = churn_model (self w1)
    /\ segmentation_model (self w2) = segmentation_model (self w1)
    /\ (forall l : loc, is_Some (heap w1 !! l) -> heap w2 !! l = heap w1 !! l).
Proof.
  eexists. 
  destruct (load_run
              {| ed_weights := heap w !!! weights (self w);
                 ed_constraints := constraints (self w);
                 ed_demand_factors := demand_factors (self w) |} w1)
    as (w2 & Hload & Hw & Hh & Hc & Hd & Hcm & Hsm & Hp & _).
  exists w2. split; [reflexivity|]. split; [exact Hload|].
  repeat split; try assumption.
  - rewrite Hw, Hh. apply lookup_total_insert_eq.
  - intros l Hl. rewrite Hh. apply lookup_insert_ne.
    intros E. now apply (fresh_not_allocated _ _ Hl).
Qed.

(** X13.  [load] ends the sharing between the engine's weights and the
    results recorded so far: once a file has been loaded, no
    [update_weights] changes the weights that a result recorded before the
    load shows. *)
Theorem load_freezes_recorded_weights (w1 : World) (d : EngineData)
    (a b g : option Q) (r : PricingResult) :
  well_formed w1 ->
  In r (pricing_history (self w1)) ->
  exists w2 w3 : World,
    load (Some d) w1 = (Returned tt, w2)
    /\ update_weights a b g w2 = (Returned tt, w3)
    /\ In r (pricing_history (self w3))
    /\ recorded_weights w3 r = recorded_weights w1 r.
Proof.
  intros [_ Hh] Hr.
  destruct (load_run d w1)
    as (w2 & Hload & Hw & Hheap & _ & _ & _ & _ & Hp & _).
  destruct (update_weights_run a b g w2)
    as (w3 & Hupd & S & _ & _ & _ & O & _).
  exists w2, w3. split; [exact Hload|]. split; [exact Hupd|].
  split; [now rewrite S, Hp|].
  assert (Hl : is_Some (heap w1 !! result_weights r)).
  { rewrite Forall_forall in Hh. apply Hh. now apply list_elem_of_In. }
  pose proof (fresh_not_allocated _ _ Hl) as Hne.
  unfold recorded_weights. rewrite !lookup_total_alt.
  rewrite O by (rewrite Hw; exact Hne).
  rewrite Hheap. now rewrite lookup_insert_ne by (intros E; now apply Hne).
Qed.

Lemma load_freezes_recorded_weights_witness :
  well_formed twice_priced_world
  /\ exists r : PricingResult,
       In r (pricing_history (self twice_priced_world))
       /\ exists w2 w3 : World,
            load (Some inverted_constraints_file) twice_priced_world
              = (Returned tt, w2)
            /\ update_weights (Some 0.9) None None w2 = (Returned tt, w3)
            /\ In r (pricing_history (self w3))
            /\ recorded_weights w3 r = recorded_weights twice_priced_world r.
Proof.
  assert (H1 : well_formed twice_priced_world).
  { split; [vm_compute; eauto|].
    repeat (constructor; [vm_compute; eauto|]). constructor. }
  split; [exact H1|].
  destruct (pricing_history (self twice_priced_world)) as [|r rest] eqn:E;
    [vm_compute in E; discriminate|].
  exists r.
  assert (H2 : In r (pricing_history (self twice_priced_world)))
    by (rewrite E; now left).
  split; [rewrite <- E; exact H2|].
  exact (load_freezes_recorded_weights twice_priced_world
           inverted_constraints_file (Some 0.9) None None r H1 H2).
Defined.

End SaveLoad.

(** ** ROI projection: when it returns *)

Section RoiReturns.

Variables (w : World) (customers_saved : Z) (avg_revenue_per_user : Q)
          (avg_lifetime_months : Z) (implementation_cost : Q).




End RoiReturns.


(** ** Batch revenue: lists of unequal length, and failure on the way *)

Section OptimizeRevenueEdges.




Lemma priced_in_turn_extends (w w' : World) (pairs : list (Features * Q))
    (rs : list PricingResult) :
  priced_in_turn w pairs rs w' ->
  configuration_kept w w' /\ history_extended_by rs w w'
  /\ length rs = length pairs.
Proof.
  induction 1 as [w|w w1 w2 features base r rest rs Hcall _ IH].
  - split; [apply configuration_kept_refl|].
    unfold history_extended_by. now rewrite app_nil_r.
  - destruct (calculate_dynamic_price_frame _ _ _ _ _ _ Hcall)
      as (K1 & H1 & _).
    destruct IH as (K2 & H2 & Hlen).
    split; [eapply configuration_kept_trans; eassumption|].
    split; [|cbn; now rewrite Hlen].
    apply (history_extended_trans [r] rs w w1 w2); assumption.
Qed.

Lemma optimize_loop_stops (before : list (Features * Q)) :
  forall (after : list (Features * Q)) (features : Features) (zero : Q)
         (results : list PricingResult) (tb td : Q) (w : World),
    Forall (fun p => ~ snd p == 0) before ->
    zero == 0 ->
    exists (rs : list PricingResult) (w1 : World),
      priced_in_turn w before rs w1
      /\ optimize_loop (before ++ (features, zero) :: after) results tb td w
         = (Raised ZeroDivisionError, tick w1).
Proof.
  induction before as [|[f b] rest IH];
    intros after features zero results tb td w Hnz Hz.
  - exists [], w. split; [constructor|].
    cbn [app optimize_loop]. run_monad.
    now rewrite (calculate_dynamic_price_raises w zero features None Hz).
  - apply Forall_cons in Hnz as [Hb Hrest]. cbn [snd] in Hb.
    destruct (calculate_dynamic_price_returns w b f None Hb)
      as (l & r & Hrun & _).
    destruct (IH after features zero (results ++ [r]) (tb + b)
                 (td + dynamic_price r) (after_call w None r) Hrest Hz)
      as (rs & w1 & Hseq & Hloop).
    exists (r :: rs), w1. split; [econstructor; eassumption|].
    cbn [app optimize_loop]. run_monad. now rewrite Hrun, Hloop.
Qed.

(** X16.  [optimize_revenue] does not undo what it did when it fails: if
    the first zero base price comes after [k] pairs with non-zero prices,
    the call raises [ZeroDivisionError], and the results of those [k]
    customers, priced in turn, stay at the end of the pricing history;
    the configuration is as before. *)
Theorem optimize_revenue_no_rollback (w : World) (customers : list Features)
    (base_prices : list Q) (before after : list (Features * Q))
    (features : Features) (zero : Q) :
  zip customers base_prices = before ++ (features, zero) :: after ->
  Forall (fun p => ~ snd p == 0) before ->
  zero == 0 ->
  exists (rs : list PricingResult) (w1 w' : World),
    optimize_revenue customers base_prices w = (Raised ZeroDivisionError, w')
    /\ priced_in_turn w before rs w1
    /\ length rs = length before
    /\ history_extended_by rs w w'
    /\ configuration_kept w w'.
Proof.
  intros Hzip Hnz Hz.
  destruct (optimize_loop_stops before after features zero [] 0 0 w Hnz Hz)
    as (rs & w1 & Hseq & Hloop).
  destruct (priced_in_turn_extends _ _ _ _ Hseq) as (K & H & Hlen).
  exists rs, w1, (tick w1).
  unfold optimize_revenue. run_monad. rewrite Hzip, Hloop.
  split; [reflexivity|]. split; [exact Hseq|]. split; [exact Hlen|].
  split; [exact H|].
  eapply configuration_kept_trans; [exact K|apply configuration_kept_tick].
Qed.

Lemma optimize_revenue_no_rollback_witness :
  zip [(∅ : Features); risky_customer; ∅] [999; 0; 1499]
    = [(∅, 999)] ++ (risky_customer, 0) :: [(∅, 1499)]
  /\ Forall (fun p : Features * Q => ~ snd p == 0) [(∅, 999)]
  /\ 0 == 0
  /\ exists (rs : list PricingResult) (w' : World),
       optimize_revenue [∅; risky_customer; ∅] [999; 0; 1499] fresh_world
         = (Raised ZeroDivisionError, w')
       /\ length rs = 1%nat
       /\ history_extended_by rs fresh_world w'.
Proof.
  assert (H1 : zip [(∅ : Features); risky_customer; ∅] [999; 0; 1499]
               = [(∅, 999)] ++ (risky_customer, 0) :: [(∅, 1499)])
    by reflexivity.
  assert (H2 : Forall (fun p : Features * Q => ~ snd p == 0) [(∅, 999)])
    by (repeat constructor; discriminate).
  assert (H3 : 0 == 0) by reflexivity.
  split; [exact H1|]. split; [exact H2|]. split; [exact H3|].
  destruct (optimize_revenue_no_rollback fresh_world
              [∅; risky_customer; ∅] [999; 0; 1499]
              [(∅, 999)] [(∅, 1499)] risky_customer 0 H1 H2 H3)
    as (rs & w1 & w' & Hrun & _ & Hlen & Hext & _).
  exists rs, w'. split; [exact Hrun|]. split; [exact Hlen|exact Hext].
Defined.

End OptimizeRevenueEdges.

(** * The collaborators *)

Section ChurnCollaborator.

Variables (m : ChurnPredictor) (features : Features).

Let probability := churn_predict_proba m features.

(** X17.  A fitted [ChurnPredictor] answers [predict_single] with a risk
    level that is one of low, medium and high and that agrees with the
    binary prediction: high risk is predicted to churn, low risk is
    predicted to stay.  The probability it reports stays within [[0, 1]]
    when the classifier's is.  The recommendation goes with the level: it
    is the stable message exactly for low risk, and it starts with URGENT
    exactly for high risk. *)
Theorem churn_prediction_consistent :
  churn_is_fitted m = true ->
  exists p : ChurnPrediction,
    Churn.predict_single m features = Returned p
    /\ (risk_level p = "low" \/ risk_level p = "medium"
        \/ risk_level p = "high")
    /\ (risk_level p = "high" -> churn_prediction p = 1%Z)
    /\ (risk_level p = "low" -> churn_prediction p = 0%Z)
    /\ (0 <= probability <= 1 -> 0 <= churn_probability p <= 1)
    /\ (risk_level p = "low"
        <-> Churn._get_recommendation probability features = stable_message)
    /\ (risk_level p = "high"
        <-> String.prefix "URGENT"
              (Churn._get_recommendation probability features) = true).
Proof.
  intros Hfit. unfold Churn.predict_single. rewrite Hfit. cbn [negb].
  eexists. split; [reflexivity|]. cbn.
  fold probability.
  unfold Churn._get_recommendation, stable_message.
  set (rf := (_ ++ _ : list string)).
  destruct (Py.ltb probability 0.3) eqn:E3.
  - apply ltb_true in E3.
    assert (E5 : Py.leb 0.5 probability = false) by (apply leb_false; lra).
    rewrite E5.
    split; [now left|]. split; [discriminate|]. split; [reflexivity|].
    split; [|split; [tauto|split; discriminate]].
    intros [H0 H1]. split.
    + apply (round_lower_bound 0 4); [reflexivity|exact H0].
    + apply (round_upper_bound 10000 4); [reflexivity|exact H1].
  - apply ltb_false in E3.
    assert (Hrange : 0 <= probability <= 1 ->
                     0 <= Py.round probability 4 <= 1).
    { intros [H0 H1]. split.
      - apply (round_lower_bound 0 4); [reflexivity|exact H0].
      - apply (round_upper_bound 10000 4); [reflexivity|exact H1]. }
    destruct (Py.ltb probability 0.6) eqn:E6.
    + apply ltb_true in E6.
      assert (E6' : Py.leb 0.6 probability = false)
        by (apply leb_false; lra).
      rewrite E6'.
      split; [right; now left|]. split; [discriminate|].
      split; [discriminate|]. split; [exact Hrange|].
      destruct rf; cbn; split; split; discriminate.
    + apply ltb_false in E6.
      assert (E6' : Py.leb 0.6 probability = true) by (now apply leb_true).
      assert (E5 : Py.leb 0.5 probability = true) by (apply leb_true; lra).
      rewrite E6', E5.
      split; [right; now right|]. split; [reflexivity|].
      split; [discriminate|]. split; [exact Hrange|].
      destruct rf; cbn; split; split; try discriminate; reflexivity.
Qed.

End ChurnCollaborator.

Lemma churn_prediction_consistent_witness :
  churn_is_fitted fitted_churn = true
  /\ exists p : ChurnPrediction,
       Churn.predict_single fitted_churn risky_customer = Returned p
       /\ (risk_level p = "high" -> churn_prediction p = 1%Z).
Proof.
  assert (H : churn_is_fitted fitted_churn = true) by reflexivity.
  split; [exact H|].
  destruct (churn_prediction_consistent fitted_churn risky_customer H)
    as (p & Hrun & _ & Hhigh & _).
  exists p. split; [exact Hrun|exact Hhigh].
Defined.

Section SegmentationCollaborator.

Lemma _match_segment_definition_configured (avg_price avg_usage avg_nps : Q) :
  exists (k : Z) (d : SegmentDefinition),
    Segmentation._match_segment_definition avg_price avg_usage avg_nps
      = Some d
    /\ Config.segment_definitions k = Some d.
Proof.
  unfold Segmentation._match_segment_definition.
  destruct (_ && _ && _); [exists 0%Z; eexists; split; reflexivity|].
  destruct (_ && _); [exists 3%Z; eexists; split; reflexivity|].
  destruct (_ && _); [exists 4%Z; eexists; split; reflexivity|].
  destruct (Py.ltb avg_nps 5);
    [exists 1%Z|exists 2%Z]; eexists; split; reflexivity.
Qed.

Lemma configured_segment_cases (k : Z) (d : SegmentDefinition) :
  Config.segment_definitions k = Some d ->
  (k = 0%Z /\ d = Config.premium_power_users)
  \/ (k = 1%Z /\ d = Config.price_conscious)
  \/ (k = 2%Z /\ d = Config.value_seekers)
  \/ (k = 3%Z /\ d = Config.budget_users)
  \/ (k = 4%Z /\ d = Config.casual_premium).
Proof.
  unfold Config.segment_definitions. intros H.
  destruct k as [|p|p];
    [|repeat (destruct p as [p|p|]; try discriminate)|discriminate];
    injection H as <-; tauto.
Qed.

(** X18.  Every segment definition of [SEGMENTATION_CONFIG] has a pricing
    strategy of its own in [_get_pricing_strategy]: the fallback text is
    never stored in a profile that training creates, and two configured
    segments with the same strategy are the same segment.  A fitted
    [CustomerSegmentation] whose profiles come from training therefore
    answers [predict_single] with a strategy other than the fallback text,
    or with the empty strategy and the name Unknown when the predicted
    cluster has no profile. *)
Theorem pricing_strategies_cover_configuration :
  (forall (k : Z) (d : SegmentDefinition),
     Config.segment_definitions k = Some d ->
     Segmentation._get_pricing_strategy d <> "Standard pricing strategy")
  /\ (forall (k k' : Z) (d d' : SegmentDefinition),
        Config.segment_definitions k = Some d ->
        Config.segment_definitions k' = Some d' ->
        Segmentation._get_pricing_strategy d
          = Segmentation._get_pricing_strategy d' ->
        k = k')
  /\ (forall (m : CustomerSegmentation) (features : Features),
        seg_is_fitted m = true ->
        Segmentation.profiles_from_training m ->
        exists p : SegmentPrediction,
          Segmentation.predict_single m features = Returned p
          /\ pricing_strategy p <> "Standard pricing strategy"
          /\ (pricing_strategy p = ""
              <-> segment_profiles m !! seg_predict m features = None)
          /\ (segment_profiles m !! seg_predict m features = None ->
              segment_name p = "Unknown" /\ price_elasticity p = -1.0)).
Proof.
  split; [|split].
  - intros k d H.
    destruct (configured_segment_cases k d H)
      as [[_ ->]|[[_ ->]|[[_ ->]|[[_ ->]|[_ ->]]]]]; discriminate.
  - intros k k' d d' H H' E.
    destruct (configured_segment_cases k d H)
      as [[-> ->]|[[-> ->]|[[-> ->]|[[-> ->]|[-> ->]]]]];
    destruct (configured_segment_cases k' d' H')
      as [[-> ->]|[[-> ->]|[[-> ->]|[[-> ->]|[-> ->]]]]];
    first [reflexivity|vm_compute in E; discriminate].
  - intros m features Hfit Htrained.
    unfold Segmentation.predict_single. rewrite Hfit. cbn [negb].
    eexists. split; [reflexivity|]. cbn.
    destruct (segment_profiles m !! seg_predict m features) as [p|] eqn:E;
      cbn.
    + destruct (Htrained _ _ E) as (a & b & c & d & Hd & ->).
      destruct (_match_segment_definition_configured a b c)
        as (k & d' & Hd' & Hk).
      rewrite Hd in Hd'. injection Hd' as <-.
      destruct (configured_segment_cases k d Hk)
        as [[_ ->]|[[_ ->]|[[_ ->]|[[_ ->]|[_ ->]]]]];
        (split; [discriminate|]); (split; [|discriminate]);
        split; discriminate.
    + split; [discriminate|]. split; [tauto|]. intros _. now split.
Qed.

End SegmentationCollaborator.

Lemma pricing_strategies_cover_configuration_witness :
  Config.segment_definitions 4 = Some Config.casual_premium
  /\ Segmentation._get_pricing_strategy Config.casual_premium
     <> "Standard pricing strategy".
Proof.
  assert (H : Config.segment_definitions 4 = Some Config.casual_premium)
    by reflexivity.
  split; [exact H|].
  exact (proj1 pricing_strategies_cover_configuration 4%Z
           Config.casual_premium H).
Defined.

(** * The pricing routes *)

(** ** What the engine sees of a validated request *)

Section ApiFeatures.

Variable f : CustomerFeatures.t.

Lemma features_to_dict_nps (dflt : Q) :
  get (PricingRoutes.features_to_dict f) "nps_score" dflt
  = inject_Z (CustomerFeatures.nps_score f).
Proof. reflexivity. Qed.

Lemma features_to_dict_payment_failures (dflt : Q) :
  get (PricingRoutes.features_to_dict f) "payment_failures_90d" dflt
  = inject_Z (CustomerFeatures.payment_failures_90d f).
Proof. reflexivity. Qed.

Lemma validated_nps :
  CustomerFeatures.validated f ->
  0 <= get (PricingRoutes.features_to_dict f) "nps_score" 5 <= 10.
Proof.
  intros (_ & _ & _ & _ & _ & _ & _ & _ & _ & _ & _ & [H0 H1] & _).
  rewrite features_to_dict_nps.
  split; [change 0 with (inject_Z 0)|change 10 with (inject_Z 10)];
    now rewrite <- Zle_Qle.
Qed.

Lemma validated_churn_value (e : Engine) :
  CustomerFeatures.validated f ->
  no_fitted_churn e ->
  0 <= churn_value e (PricingRoutes.features_to_dict f) <= 1.
Proof.
  intros Hv Hm. rewrite (churn_value_fallback e _ Hm).
  apply churn_heuristic_range, validated_nps, Hv.
Qed.

End ApiFeatures.

Lemma round_positive (x : Q) : 0.005 < x -> 0 < Py.round x 2.
Proof.
  intros Hx. pose proof (round_error x 2) as [H _].
  assert (H' : - 0.005 <= Py.round x 2 - x).
  { eapply Qle_trans; [|exact H]. q_decide. }
  lra.
Qed.

(** ** [POST /pricing/calculate] *)

Section CalculateRoute.

Variables (w : World) (request : DynamicPricingRequest.t).

Let base := DynamicPricingRequest.base_price request.
Let features_dict :=
  PricingRoutes.features_to_dict (DynamicPricingRequest.features request).
Let ts := DynamicPricingRequest.timestamp request.

(** X19.  A request that passed validation is always priced: the schema's
    [base_price > 0] rules out the engine's only failure.  The response
    carries the figures of the engine's result, which is the one new entry
    of the pricing history; its price is never negative, and positive for
    a base price above 0.01.  The response's timestamp is the server's
    clock after the pricing, also when the request named the time to price
    at. *)
Theorem validated_request_is_priced :
  DynamicPricingRequest.validated request ->
  exists (r : PricingResult) (response : DynamicPricingResponse.t)
         (w' : World),
    fst (calculate_dynamic_price base features_dict ts w) = Returned r
    /\ PricingRoutes.calculate_dynamic_price request w
       = (Returned response, w')
    /\ configuration_kept w w'
    /\ history_extended_by [r] w w'
    /\ DynamicPricingResponse.base_price response = base
    /\ DynamicPricingResponse.dynamic_price response = dynamic_price r
    /\ DynamicPricingResponse.price_change_percent response
       = price_change_percent r
    /\ DynamicPricingResponse.factors response = factors r
    /\ DynamicPricingResponse.recommendation response = recommendation r
    /\ 0 <= DynamicPricingResponse.dynamic_price response
    /\ (0.01 < base -> 0 < DynamicPricingResponse.dynamic_price response)
    /\ DynamicPricingResponse.timestamp response
       = wall_clock w (clock_reads w' - 1).
Proof.
  intros [Hbase _]. fold base in Hbase.
  assert (Hnz : ~ base == 0) by lra.
  destruct (calculate_dynamic_price_returns w base features_dict ts Hnz)
    as (l & r & Hrun & _ & Htrace & Hres).
  destruct (calculate_dynamic_price_frame _ _ _ _ _ _ Hrun) as (K & H & _).
  exists r. unfold PricingRoutes.calculate_dynamic_price.
  fold base features_dict ts. run_monad. rewrite Hrun.
  eexists; eexists. split; [reflexivity|]. split; [reflexivity|].
  cbn [DynamicPricingResponse.base_price DynamicPricingResponse.dynamic_price
       DynamicPricingResponse.price_change_percent
       DynamicPricingResponse.factors DynamicPricingResponse.recommendation
       DynamicPricingResponse.timestamp].
  assert (Hfloor : base * 0.5 <= Locals.dynamic_price l).
  { destruct Htrace as (_ & _ & _ & _ & _ & _ & _ & _ & _ & _ & _ & Hd).
    rewrite Hd.
    destruct (max_cases (base * 0.5) (Locals.unfloored_price l))
      as [[Hle E]|[Hle E]]; rewrite E; lra. }
  destruct Hres as (Hb & Hd & _).
  split; [|split; [|split; [exact Hb|split; [reflexivity|split;
    [reflexivity|split; [|split; [reflexivity|split; [|split]]]]]]]].
  - destruct K as (? & ? & ? & ? & ? & ? & ?). repeat split; assumption.
  - exact H.
  - now destruct (factors r).
  - rewrite Hd. apply (round_lower_bound 0 2); [reflexivity|lra].
  - intros Hbig. rewrite Hd. apply round_positive. lra.
  - unfold after_call. destruct ts; cbn; f_equal; lia.
Qed.

End CalculateRoute.

Lemma validated_request_is_priced_witness :
  DynamicPricingRequest.validated example_request
  /\ exists (response : DynamicPricingResponse.t) (w' : World),
       PricingRoutes.calculate_dynamic_price example_request fresh_world
         = (Returned response, w')
       /\ 0 <= DynamicPricingResponse.dynamic_price response.
Proof.
  assert (H : DynamicPricingRequest.validated example_request).
  { split; [reflexivity|]. cbn. repeat split; (lia || discriminate). }
  split; [exact H|].
  destruct (validated_request_is_priced fresh_world example_request H)
    as (r & response & w' & _ & Hrun & _ & _ & _ & _ & _ & _ & _ & Hp & _).
  exists response, w'. split; [exact Hrun|exact Hp].
Defined.

(** ** [POST /pricing/customer-analysis] *)

Ltac bool_facts :=
  repeat match goal with
         | H : Py.leb _ _ = true |- _ => apply leb_true in H
         | H : Py.leb _ _ = false |- _ => apply leb_false in H
         | H : Py.ltb _ _ = true |- _ => apply ltb_true in H
         | H : Py.ltb _ _ = false |- _ => apply ltb_false in H
         end.

Lemma round_threshold (a : Z) (p t : Q) :
  t == inject_Z a / Py.pow10 4 ->
  clear_of_rounding p t ->
  t <= Py.round p 4 <-> t <= p.
Proof.
  intros Ht Hclear. split; intros H.
  - destruct Hclear as [Hlow|Hge]; [|exact Hge].
    pose proof (round_error p 4) as [_ Herr].
    assert (Herr' : Py.round p 4 - p <= 0.00005).
    { eapply Qle_trans; [exact Herr|]. q_decide. }
    lra.
  - apply (round_lower_bound a 4); assumption.
Qed.

Lemma leb_round (a : Z) (p t : Q) :
  t == inject_Z a / Py.pow10 4 ->
  clear_of_rounding p t ->
  Py.leb t (Py.round p 4) = Py.leb t p.
Proof.
  intros Ht Hclear. pose proof (round_threshold a p t Ht Hclear) as [T1 T2].
  destruct (Py.leb t p) eqn:E.
  - apply leb_true. apply T2. now apply leb_true.
  - destruct (Py.leb t (Py.round p 4)) eqn:E'; [|reflexivity].
    apply leb_true in E'. apply T1 in E'. apply leb_true in E'. congruence.
Qed.

Section AnalysisRoute.

Variables (w : World) (request : CustomerAnalysisRequest.t).

Let base := CustomerAnalysisRequest.base_price request.
Let features_dict :=
  PricingRoutes.features_to_dict (CustomerAnalysisRequest.features request).
Let risk := churn_value (self w) features_dict.
Let sensitivity := elasticity_value (self w) features_dict.

(** The route, run: the response in terms of the engine's two estimates. *)
Lemma analyze_customer_run :
  ~ base == 0 ->
  exists (r : PricingResult) (response : CustomerAnalysisResponse.t)
         (w' : World),
    PricingRoutes.analyze_customer request w = (Returned response, w')
    /\ fst (calculate_dynamic_price base features_dict None w) = Returned r
    /\ CustomerAnalysisResponse.churn_probability response = risk
    /\ CustomerAnalysisResponse.churn_prediction response
       = (if Py.leb 0.5 risk then 1%Z else 0%Z)
    /\ CustomerAnalysisResponse.risk_level response
       = (if Py.leb 0.6 risk then "high"
          else if Py.leb 0.3 risk then "medium" else "low")
    /\ (CustomerAnalysisResponse.segment_name response,
        CustomerAnalysisResponse.segment_id response)
       = PricingRoutes.segment_of_elasticity sensitivity
    /\ CustomerAnalysisResponse.price_elasticity response = sensitivity
    /\ CustomerAnalysisResponse.recommended_price response = dynamic_price r
    /\ CustomerAnalysisResponse.action_items response
       = (let items : list string :=
            (if Py.leb 0.6 risk
             then ["URGENT: Initiate proactive retention outreach";
                   "Apply retention discount immediately"]
             else if Py.leb 0.3 risk
             then ["Schedule customer success check-in";
                   "Consider loyalty rewards program"]
             else [])
            ++ (if Py.ltb 0.3 risk
                then ["Review and resolve any pending support tickets"]
                else [])
            ++ (if Py.ltb 0
                     (inject_Z (CustomerFeatures.payment_failures_90d
                                  (CustomerAnalysisRequest.features request)))
                then ["Address payment issues with customer"] else []) in
          match items with
          | [] => ["Maintain current engagement level";
                   "Consider upsell opportunities"]
          | _ => items
          end).
Proof.
  intros Hnz.
  destruct (calculate_dynamic_price_returns w base features_dict None Hnz)
    as (l & r & Hrun & _ & Htrace & Hres).
  destruct Htrace as (_ & Hel & Hch & _).
  destruct Hres as (_ & _ & _ & _ & _ & Hre & _ & Hrc & _).
  rewrite Hel in Hre. rewrite Hch in Hrc.
  fold sensitivity in Hre. fold risk in Hrc.
  exists r. unfold PricingRoutes.analyze_customer.
  fold base features_dict. run_monad. rewrite Hrun.
  rewrite Hre, Hrc.
  unfold features_dict at 1. rewrite features_to_dict_payment_failures.
  destruct (PricingRoutes.segment_of_elasticity sensitivity)
    as [name id] eqn:Eseg.
  eexists; eexists. split; [reflexivity|]. split; [reflexivity|].
  cbn. repeat split.
  destruct (Py.leb 0.6 risk); [reflexivity|].
  destruct (Py.leb 0.3 risk); reflexivity.
Qed.

(** X20.  For a validated request, [analyze_customer] always answers, and
    never with an empty list of action items.  The advice to maintain the
    current engagement is given exactly to customers with a churn risk
    below 0.3 and no payment failure.  A high risk level comes with a
    churn prediction of 1 and the urgent outreach as first action item, a
    low one with a prediction of 0.  When the engine has no fitted churn
    model, the reported churn probability lies within [[0, 1]]: the
    schema's bound on the NPS score keeps the heuristic in range. *)
Theorem analysis_action_items :
  CustomerAnalysisRequest.validated request ->
  exists (response : CustomerAnalysisResponse.t) (w' : World),
    PricingRoutes.analyze_customer request w = (Returned response, w')
    /\ CustomerAnalysisResponse.action_items response <> []
    /\ (In "Maintain current engagement level"
          (CustomerAnalysisResponse.action_items response)
        <-> CustomerAnalysisResponse.churn_probability response < 0.3
            /\ CustomerFeatures.payment_failures_90d
                 (CustomerAnalysisRequest.features request) = 0%Z)
    /\ (CustomerAnalysisResponse.risk_level response = "high" ->
        CustomerAnalysisResponse.churn_prediction response = 1%Z
        /\ head (CustomerAnalysisResponse.action_items response)
           = Some "URGENT: Initiate proactive retention outreach")
    /\ (CustomerAnalysisResponse.risk_level response = "low" ->
        CustomerAnalysisResponse.churn_prediction response = 0%Z)
    /\ (no_fitted_churn (self w) ->
        0 <= CustomerAnalysisResponse.churn_probability response <= 1).
Proof.
  intros [Hbase Hvalid]. fold base in Hbase.
  assert (Hnz : ~ base == 0) by lra.
  destruct (analyze_customer_run Hnz)
    as (r & response & w' & Hrun & _ & Hp & Hpred & Hlevel & _ & _ & _
        & Hitems).
  exists response, w'. split; [exact Hrun|].
  rewrite Hp, Hpred, Hlevel, Hitems. clear Hp Hpred Hlevel Hitems Hrun.
  assert (Hpf : (0 <= CustomerFeatures.payment_failures_90d
                        (CustomerAnalysisRequest.features request))%Z)
    by (destruct Hvalid as (_ & _ & _ & _ & H & _); exact H).
  assert (Hfail :
            (Py.ltb 0 (inject_Z (CustomerFeatures.payment_failures_90d
                                   (CustomerAnalysisRequest.features request)))
             = false
             /\ CustomerFeatures.payment_failures_90d
                  (CustomerAnalysisRequest.features request) = 0%Z)
            \/ (Py.ltb 0 (inject_Z (CustomerFeatures.payment_failures_90d
                                      (CustomerAnalysisRequest.features
                                         request)))
                = true
                /\ CustomerFeatures.payment_failures_90d
                     (CustomerAnalysisRequest.features request) <> 0%Z)).
  { destruct (Z.eq_dec (CustomerFeatures.payment_failures_90d
                          (CustomerAnalysisRequest.features request)) 0%Z)
      as [E|E].
    - left. rewrite E. split; reflexivity.
    - right. split; [|exact E]. apply ltb_true.
      change 0 with (inject_Z 0). rewrite <- Zlt_Qlt. lia. }
  split; [|split; [|split; [|split]]].
  - destruct Hfail as [[-> _]|[-> _]];
      destruct (Py.leb 0.6 risk); try discriminate;
      destruct (Py.leb 0.3 risk); try discriminate;
      destruct (Py.ltb 0.3 risk); discriminate.
  - destruct Hfail as [[-> Hz]|[-> Hz]];
      destruct (Py.leb 0.6 risk) eqn:E6;
      destruct (Py.leb 0.3 risk) eqn:E3;
      destruct (Py.ltb 0.3 risk) eqn:E3';
      bool_facts; cbn; split;
      try (intros [?|[?|[?|[?|?]]]]; try discriminate; try tauto);
      try (intros [?|[?|[?|?]]]; try discriminate; try tauto);
      try (intros [?|[?|?]]; try discriminate; try tauto);
      try (intros [?|?]; try discriminate; try tauto);
      try (intros [? ?]; try lra; try lia; try tauto);
      try (split; [lra|assumption]);
      try (left; reflexivity).
  - destruct (Py.leb 0.6 risk) eqn:E6.
    + intros _. bool_facts.
      assert (E5 : Py.leb 0.5 risk = true) by (apply leb_true; lra).
      rewrite E5. split; reflexivity.
    + destruct (Py.leb 0.3 risk); discriminate.
  - destruct (Py.leb 0.6 risk) eqn:E6; [discriminate|].
    destruct (Py.leb 0.3 risk) eqn:E3; [discriminate|].
    intros _. bool_facts.
    assert (E5 : Py.leb 0.5 risk = false) by (apply leb_false; lra).
    now rewrite E5.
  - intros Hm. apply validated_churn_value; assumption.
Qed.

(** X21.  When the engine holds a fitted segmentation model whose profiles
    come from training and the customer's cluster has a profile, the
    segment name [analyze_customer] derives from the elasticity alone is
    the name the segmentation model itself gives the customer, and the
    segment identifier of the response is the key of that segment in
    [SEGMENTATION_CONFIG], whatever label the cluster has in the model. *)
Theorem analysis_segment_agrees_with_model (m : CustomerSegmentation)
    (profile : SegmentProfile) :
  CustomerAnalysisRequest.validated request ->
  segmentation_model (self w) = Some m ->
  seg_is_fitted m = true ->
  Segmentation.profiles_from_training m ->
  segment_profiles m !! seg_predict m features_dict = Some profile ->
  exists (response : CustomerAnalysisResponse.t) (w' : World)
         (p : SegmentPrediction) (d : SegmentDefinition),
    PricingRoutes.analyze_customer request w = (Returned response, w')
    /\ Segmentation.predict_single m features_dict = Returned p
    /\ CustomerAnalysisResponse.segment_name response = segment_name p
    /\ CustomerAnalysisResponse.price_elasticity response = price_elasticity p
    /\ Config.segment_definitions
         (CustomerAnalysisResponse.segment_id response) = Some d
    /\ sd_name d = CustomerAnalysisResponse.segment_name response
    /\ sd_elasticity d = CustomerAnalysisResponse.price_elasticity response.
Proof.
  intros [Hbase _] Hm Hfit Htrained Hprofile. fold base in Hbase.
  assert (Hnz : ~ base == 0) by lra.
  destruct (analyze_customer_run Hnz)
    as (r & response & w' & Hrun & _ & _ & _ & _ & Hseg & Hel & _).
  assert (Hs : sensitivity = sp_price_elasticity profile).
  { unfold sensitivity, elasticity_value. now rewrite Hm, Hfit, Hprofile. }
  destruct (Htrained _ _ Hprofile) as (a & b & c & d & Hd & Hcreate).
  destruct (_match_segment_definition_configured a b c)
    as (k & d' & Hd' & Hk).
  rewrite Hd in Hd'. injection Hd' as <-.
  exists response, w'. eexists. exists d.
  split; [exact Hrun|].
  unfold Segmentation.predict_single. rewrite Hfit, Hprofile. cbn [negb].
  split; [reflexivity|]. cbn.
  rewrite Hel, Hs. rewrite Hs in Hseg. subst profile.
  cbn [Segmentation.create_profile sp_price_elasticity sp_name] in *.
  destruct (configured_segment_cases k d Hk)
    as [[-> ->]|[[-> ->]|[[-> ->]|[[-> ->]|[-> ->]]]]];
    match type of Hseg with
    | _ = ?rhs =>
        let v := eval vm_compute in rhs in
        replace rhs with v in Hseg by (vm_compute; reflexivity)
    end;
    injection Hseg as -> ->; repeat split.
Qed.

(** X22.  When the engine holds a fitted churn model, [analyze_customer]
    derives the risk level and the prediction from the probability rounded
    to four places, the churn model from the probability itself.  The two
    agree whenever the probability is not within 0.00005 below one of the
    thresholds 0.3, 0.5 and 0.6. *)
Theorem analysis_risk_level_agrees_with_model (m : ChurnPredictor) :
  CustomerAnalysisRequest.validated request ->
  churn_model (self w) = Some m ->
  churn_is_fitted m = true ->
  clear_of_rounding (churn_predict_proba m features_dict) 0.3 ->
  clear_of_rounding (churn_predict_proba m features_dict) 0.5 ->
  clear_of_rounding (churn_predict_proba m features_dict) 0.6 ->
  exists (response : CustomerAnalysisResponse.t) (w' : World)
         (p : ChurnPrediction),
    PricingRoutes.analyze_customer request w = (Returned response, w')
    /\ Churn.predict_single m features_dict = Returned p
    /\ CustomerAnalysisResponse.churn_probability response
       = churn_probability p
    /\ CustomerAnalysisResponse.risk_level response = risk_level p
    /\ CustomerAnalysisResponse.churn_prediction response
       = churn_prediction p.
Proof.
  intros [Hbase _] Hm Hfit H3 H5 H6. fold base in Hbase.
  assert (Hnz : ~ base == 0) by lra.
  destruct (analyze_customer_run Hnz)
    as (r & response & w' & Hrun & _ & Hp & Hpred & Hlevel & _).
  assert (Hr : risk = Py.round (churn_predict_proba m features_dict) 4).
  { unfold risk, churn_value. now rewrite Hm, Hfit. }
  exists response, w'. eexists.
  split; [exact Hrun|].
  unfold Churn.predict_single. rewrite Hfit. cbn [negb].
  split; [reflexivity|].
  cbn [churn_probability risk_level churn_prediction].
  rewrite Hp, Hlevel, Hpred, Hr.
  set (p := churn_predict_proba m features_dict) in *.
  rewrite (leb_round 3000 p 0.3 ltac:(reflexivity) H3).
  rewrite (leb_round 5000 p 0.5 ltac:(reflexivity) H5).
  rewrite (leb_round 6000 p 0.6 ltac:(reflexivity) H6).
  split; [reflexivity|].
  unfold Py.ltb. fold (Py.leb 0.3 p). fold (Py.leb 0.6 p).
  destruct (Py.leb 0.6 p) eqn:E6; destruct (Py.leb 0.3 p) eqn:E3;
    cbn [negb]; try (split; reflexivity).
  bool_facts. exfalso. lra.
Qed.

End AnalysisRoute.

Lemma example_analysis_request_validated :
  CustomerAnalysisRequest.validated example_analysis_request.
Proof.
  split; [reflexivity|]. cbn. repeat split; (lia || discriminate).
Qed.

Lemma analysis_action_items_witness :
  CustomerAnalysisRequest.validated example_analysis_request
  /\ exists (response : CustomerAnalysisResponse.t) (w' : World),
       PricingRoutes.analyze_customer example_analysis_request fresh_world
         = (Returned response, w')
       /\ CustomerAnalysisResponse.action_items response <> [].
Proof.
  pose proof example_analysis_request_validated as H.
  split; [exact H|].
  destruct (analysis_action_items fresh_world example_analysis_request H)
    as (response & w' & Hrun & Hne & _).
  exists response, w'. split; [exact Hrun|exact Hne].
Defined.

Lemma analysis_segment_agrees_with_model_witness :
  CustomerAnalysisRequest.validated example_analysis_request
  /\ segmentation_model (self segmented_world) = Some trained_segmentation
  /\ seg_is_fitted trained_segmentation = true
  /\ Segmentation.profiles_from_training trained_segmentation
  /\ segment_profiles trained_segmentation
       !! seg_predict trained_segmentation
            (PricingRoutes.features_to_dict
               (CustomerAnalysisRequest.features example_analysis_request))
     = Some (Segmentation.create_profile Config.value_seekers)
  /\ exists (response : CustomerAnalysisResponse.t) (w' : World)
            (p : SegmentPrediction),
       PricingRoutes.analyze_customer example_analysis_request segmented_world
         = (Returned response, w')
       /\ Segmentation.predict_single trained_segmentation
            (PricingRoutes.features_to_dict
               (CustomerAnalysisRequest.features example_analysis_request))
          = Returned p
       /\ CustomerAnalysisResponse.segment_name response = segment_name p.
Proof.
  pose proof example_analysis_request_validated as H1.
  assert (H2 : segmentation_model (self segmented_world)
               = Some trained_segmentation) by reflexivity.
  assert (H3 : seg_is_fitted trained_segmentation = true) by reflexivity.
  pose proof trained_segmentation_profiles as H4.
  assert (H5 : segment_profiles trained_segmentation
                 !! seg_predict trained_segmentation
                      (PricingRoutes.features_to_dict
                         (CustomerAnalysisRequest.features
                            example_analysis_request))
               = Some (Segmentation.create_profile Config.value_seekers))
    by reflexivity.
  split; [exact H1|]. split; [exact H2|]. split; [exact H3|].
  split; [exact H4|]. split; [exact H5|].
  destruct (analysis_segment_agrees_with_model segmented_world
              example_analysis_request trained_segmentation
              (Segmentation.create_profile Config.value_seekers)
              H1 H2 H3 H4 H5)
    as (response & w' & p & d & Hrun & Hp & Hname & _).
  exists response, w', p. split; [exact Hrun|]. split; [exact Hp|exact Hname].
Defined.

Lemma analysis_risk_level_agrees_with_model_witness :
  CustomerAnalysisRequest.validated example_analysis_request
  /\ churn_model (self churn_fitted_world) = Some fitted_churn
  /\ churn_is_fitted fitted_churn = true
  /\ clear_of_rounding
       (churn_predict_proba fitted_churn
          (PricingRoutes.features_to_dict
             (CustomerAnalysisRequest.features example_analysis_request)))
       0.3
  /\ clear_of_rounding
       (churn_predict_proba fitted_churn
          (PricingRoutes.features_to_dict
             (CustomerAnalysisRequest.features example_analysis_request)))
       0.5
  /\ clear_of_rounding
       (churn_predict_proba fitted_churn
          (PricingRoutes.features_to_dict
             (CustomerAnalysisRequest.features example_analysis_request)))
       0.6
  /\ exists (response : CustomerAnalysisResponse.t) (w' : World)
            (p : ChurnPrediction),
       PricingRoutes.analyze_customer example_analysis_request
         churn_fitted_world
         = (Returned response, w')
       /\ Churn.predict_single fitted_churn
            (PricingRoutes.features_to_dict
               (CustomerAnalysisRequest.features example_analysis_request))
          = Returned p
       /\ CustomerAnalysisResponse.risk_level response = risk_level p.
Proof.
  pose proof example_analysis_request_validated as H1.
  assert (H2 : churn_model (self churn_fitted_world) = Some fitted_churn)
    by reflexivity.
  assert (H3 : churn_is_fitted fitted_churn = true) by reflexivity.
  assert (H4 : clear_of_rounding
                 (churn_predict_proba fitted_churn
                    (PricingRoutes.features_to_dict
                       (CustomerAnalysisRequest.features
                          example_analysis_request))) 0.3)
    by (left; vm_compute; reflexivity).
  assert (H5 : clear_of_rounding
                 (churn_predict_proba fitted_churn
                    (PricingRoutes.features_to_dict
                       (CustomerAnalysisRequest.features
                          example_analysis_request))) 0.5)
    by (left; vm_compute; reflexivity).
  assert (H6 : clear_of_rounding
                 (churn_predict_proba fitted_churn
                    (PricingRoutes.features_to_dict
                       (CustomerAnalysisRequest.features
                          example_analysis_request))) 0.6)
    by (left; vm_compute; reflexivity).
  split; [exact H1|]. split; [exact H2|]. split; [exact H3|].
  split; [exact H4|]. split; [exact H5|]. split; [exact H6|].
  destruct (analysis_risk_level_agrees_with_model churn_fitted_world
              example_analysis_request fitted_churn H1 H2 H3 H4 H5 H6)
    as (response & w' & p & Hrun & Hp & _ & Hlevel & _).
  exists response, w', p. split; [exact Hrun|]. split; [exact Hp|exact Hlevel].
Defined.

(** Just below a threshold the two disagree: a probability of 0.29996 is
    low risk for the churn model and, rounded to 0.3, medium risk for the
    analysis. *)
Example analysis_risk_level_disagrees :
  ~ clear_of_rounding
      (churn_predict_proba borderline_churn
         (PricingRoutes.features_to_dict
            (CustomerAnalysisRequest.features example_analysis_request)))
      0.3
  /\ returned_with (fun p => risk_level p = "low")
       (Churn.predict_single borderline_churn
          (PricingRoutes.features_to_dict
             (CustomerAnalysisRequest.features example_analysis_request)))
  /\ returned_with
       (fun response =>
          CustomerAnalysisResponse.risk_level response = "medium")
       (fst (PricingRoutes.analyze_customer example_analysis_request
               borderline_world)).
Proof.
  split; [|split].
  - intros [H|H]; vm_compute in H; [discriminate|now apply H].
  - reflexivity.
  - destruct (fst (PricingRoutes.analyze_customer _ _)) as [response|e] eqn:E;
      vm_compute in E; [injection E as <-|discriminate].
    reflexivity.
Qed.

(** ** [POST /pricing/batch] *)

Section BatchRoute.

Lemma optimize_loop_priced (w w' : World) (pairs : list (Features * Q))
    (rs : list PricingResult) :
  priced_in_turn w pairs rs w' ->
  forall (results : list PricingResult) (tb td : Q),
    optimize_loop pairs results tb td w
    = (Returned (results ++ rs, foldl Qplus tb (snd <$> pairs),
                 foldl Qplus td (dynamic_price <$> rs)), w').
Proof.
  induction 1 as [w|w w1 w2 features base r rest rs Hcall _ IH];
    intros results tb td; cbn [optimize_loop]; run_monad.
  - now rewrite app_nil_r.
  - rewrite Hcall, IH, <- app_assoc. reflexivity.
Qed.

Lemma batch_loop_returns (customers : list DynamicPricingRequest.t) :
  forall (results : list Batch.entry) (tb td : Q) (w : World),
    Forall (fun c => 0 < DynamicPricingRequest.base_price c) customers ->
    exists (rs : list PricingResult) (w' : World),
      PricingRoutes.batch_loop customers results tb td w
      = (Returned
           (results ++ zip_with PricingRoutes.batch_entry customers rs,
            foldl Qplus tb (DynamicPricingRequest.base_price <$> customers),
            foldl Qplus td (dynamic_price <$> rs)), w')
      /\ length rs = length customers
      /\ configuration_kept w w'
      /\ history_extended_by rs w w'
      /\ (Forall (fun c => DynamicPricingRequest.timestamp c = None)
            customers ->
          priced_in_turn w (pricing_pair <$> customers) rs w').
Proof.
  induction customers as [|c rest IH]; intros results tb td w Hpos.
  - exists [], w. cbn. rewrite app_nil_r.
    split; [reflexivity|]. split; [reflexivity|].
    split; [apply configuration_kept_refl|].
    split; [unfold history_extended_by; now rewrite app_nil_r|].
    intros _. constructor.
  - apply Forall_cons in Hpos as [Hc Hrest].
    assert (Hnz : ~ DynamicPricingRequest.base_price c == 0) by lra.
    destruct (calculate_dynamic_price_returns w
                (DynamicPricingRequest.base_price c)
                (PricingRoutes.features_to_dict
                   (DynamicPricingRequest.features c))
                (DynamicPricingRequest.timestamp c) Hnz)
      as (l & r & Hrun & _ & _ & Hres).
    destruct Hres as (Hb & _).
    destruct (calculate_dynamic_price_frame _ _ _ _ _ _ Hrun) as (K1 & H1 & _).
    destruct (IH (results ++ [PricingRoutes.batch_entry c r])
                 (tb + DynamicPricingRequest.base_price c)
                 (td + dynamic_price r)
                 (after_call w (DynamicPricingRequest.timestamp c) r) Hrest)
      as (rs & w' & Hloop & Hlen & K2 & H2 & Hseq).
    exists (r :: rs), w'. cbn [PricingRoutes.batch_loop]. run_monad.
    rewrite Hrun, Hb, Hloop, <- app_assoc.
    split; [reflexivity|]. split; [cbn; now rewrite Hlen|].
    split; [eapply configuration_kept_trans; eassumption|].
    split; [apply (history_extended_trans [r] rs _ _ _ H1 H2)|].
    intros Hnone. apply Forall_cons in Hnone as [Hts Hnone].
    rewrite Hts in Hrun. cbn [fmap list_fmap]. unfold pricing_pair at 1.
    econstructor; [exact Hrun|]. rewrite Hts in Hseq. now apply Hseq.
Qed.

Lemma zip_with_batch_entry_prices (customers : list DynamicPricingRequest.t) :
  forall rs : list PricingResult,
    length rs = length customers ->
    Batch.dynamic_price <$> zip_with PricingRoutes.batch_entry customers rs
    = dynamic_price <$> rs.
Proof.
  induction customers as [|c rest IH]; intros [|r rs] Hlen;
    try discriminate; [reflexivity|].
  cbn. f_equal. apply IH. cbn in Hlen. lia.
Qed.

Lemma pricing_pair_snd (customers : list DynamicPricingRequest.t) :
  snd <$> (pricing_pair <$> customers)
  = DynamicPricingRequest.base_price <$> customers.
Proof.
  induction customers as [|c rest IH]; [reflexivity|]. cbn. now rewrite IH.
Qed.

Lemma validated_base_prices (customers : list DynamicPricingRequest.t) :
  Forall DynamicPricingRequest.validated customers ->
  Forall (fun c => 0 < DynamicPricingRequest.base_price c) customers
  /\ Forall (fun x => 0 < x) (DynamicPricingRequest.base_price <$> customers).
Proof.
  intros Hv. split; [|rewrite Forall_fmap];
    (eapply Forall_impl; [exact Hv|]); now intros c [Hc _].
Qed.


(** X24.  On validated requests without timestamps, the batch route and
    [optimize_revenue] are two ways to the same figures: run from the same
    world on the same customers and base prices, both return, they leave
    the same world behind, and they agree on the number of customers, on
    the two revenue totals, on the revenue change and its percentage, and
    on every customer's dynamic price. *)
Theorem batch_route_agrees_with_optimize_revenue (w : World)
    (customers : list DynamicPricingRequest.t) :
  Forall DynamicPricingRequest.validated customers ->
  Forall (fun c => DynamicPricingRequest.timestamp c = None) customers ->
  customers <> [] ->
  exists (response : Batch.t) (report : RevenueReport) (w' : World),
    PricingRoutes.calculate_batch_pricing customers w
      = (Returned response, w')
    /\ optimize_revenue (fst <$> (pricing_pair <$> customers))
         (snd <$> (pricing_pair <$> customers)) w
       = (Returned report, w')
    /\ Batch.total_customers (Batch.summarized response)
       = customers_processed report
    /\ Batch.total_base_revenue (Batch.summarized response)
       = total_base_revenue report
    /\ Batch.total_dynamic_revenue (Batch.summarized response)
       = total_dynamic_revenue report
    /\ Batch.revenue_change (Batch.summarized response)
       = revenue_change report
    /\ Batch.revenue_change_percent (Batch.summarized response)
       = revenue_change_percent report
    /\ Batch.dynamic_price <$> Batch.results response
       = dynamic_price <$> individual_results report.
Proof.
  intros Hv Hnone Hne.
  destruct (validated_base_prices customers Hv) as [Hpos Hpos'].
  destruct (batch_loop_returns customers [] 0 0 w Hpos)
    as (rs & w' & Hloop & Hlen & _ & _ & Hseq).
  specialize (Hseq Hnone). cbn [app] in Hloop.
  pose proof (optimize_loop_priced _ _ _ _ Hseq [] 0 0) as Hopt.
  cbn [app] in Hopt. rewrite pricing_pair_snd in Hopt.
  assert (Hsum : 0 < sum (DynamicPricingRequest.base_price <$> customers))
    by (apply sum_positive; [now destruct customers|exact Hpos']).
  unfold sum in Hsum.
  assert (Hrs : rs <> []).
  { intros ->. destruct customers; [congruence|discriminate]. }
  unfold PricingRoutes.calculate_batch_pricing, optimize_revenue. run_monad.
  rewrite zip_fst_snd, Hloop, Hopt.
  assert (E : Py.ltb 0 (foldl Qplus 0
                          (DynamicPricingRequest.base_price <$> customers))
              = true) by (now apply ltb_true).
  rewrite E. unfold truediv.
  destruct (Qeq_bool (foldl Qplus 0
                        (DynamicPricingRequest.base_price <$> customers)) 0)
    eqn:Ez; [apply Qeq_bool_iff in Ez; lra|].
  rewrite (len_nonzero rs Hrs).
  eexists; eexists; eexists. split; [reflexivity|]. split; [reflexivity|].
  cbn [Batch.results Batch.summarized Batch.total_customers
       Batch.total_base_revenue Batch.total_dynamic_revenue
       Batch.revenue_change Batch.revenue_change_percent
       customers_processed total_base_revenue total_dynamic_revenue
       revenue_change revenue_change_percent individual_results].
  split; [rewrite length_zip_with, !length_fmap; lia|].
  repeat split. now apply zip_with_batch_entry_prices.
Qed.

End BatchRoute.


Lemma batch_route_agrees_with_optimize_revenue_witness :
  Forall DynamicPricingRequest.validated [example_request; troubled_request]
  /\ Forall (fun c => DynamicPricingRequest.timestamp c = None)
       [example_request; troubled_request]
  /\ [example_request; troubled_request] <> []
  /\ exists (response : Batch.t) (report : RevenueReport) (w' : World),
       PricingRoutes.calculate_batch_pricing
         [example_request; troubled_request] fresh_world
         = (Returned response, w')
       /\ optimize_revenue
            (fst <$> (pricing_pair <$> [example_request; troubled_request]))
            (snd <$> (pricing_pair <$> [example_request; troubled_request]))
            fresh_world
          = (Returned report, w')
       /\ Batch.revenue_change_percent (Batch.summarized response)
          = revenue_change_percent report.
Proof.
  assert (H1 : Forall DynamicPricingRequest.validated
                 [example_request; troubled_request]).
  { repeat constructor; cbn; (lia || discriminate || reflexivity). }
  assert (H2 : Forall (fun c => DynamicPricingRequest.timestamp c = None)
                 [example_request; troubled_request])
    by (repeat constructor).
  assert (H3 : [example_request; troubled_request] <> []) by discriminate.
  split; [exact H1|]. split; [exact H2|]. split; [exact H3|].
  destruct (batch_route_agrees_with_optimize_revenue fresh_world
              [example_request; troubled_request] H1 H2 H3)
    as (response & report & w' & Hrun & Hopt & _ & _ & _ & _ & Hp & _).
  exists response, report, w'.
  split; [exact Hrun|]. split; [exact Hopt|exact Hp].
Defined.

(** ** [POST /pricing/simulate] *)

Section SimulateRoute.

Lemma min_of_fold (xs : list Q) :
  forall a : Q,
    foldl (fun m y => if Py.ltb y m then y else m) a xs <= a
    /\ Forall (fun x => foldl (fun m y => if Py.ltb y m then y else m) a xs
                        <= x) xs
    /\ (foldl (fun m y => if Py.ltb y m then y else m) a xs = a
        \/ foldl (fun m y => if Py.ltb y m then y else m) a xs ∈ xs).
Proof.
  induction xs as [|x xs IH]; intros a; cbn [foldl].
  - split; [lra|]. split; [constructor|now left].
  - destruct (Py.ltb x a) eqn:E; bool_facts.
    + destruct (IH x) as (H1 & H2 & H3).
      split; [lra|]. split; [constructor; assumption|].
      right. apply elem_of_cons. destruct H3 as [H3|H3]; [now left|now right].
    + destruct (IH a) as (H1 & H2 & H3).
      split; [exact H1|]. split; [constructor; [lra|exact H2]|].
      destruct H3 as [H3|H3]; [now left|].
      right. apply elem_of_cons. now right.
Qed.

Lemma max_of_fold (xs : list Q) :
  forall a : Q,
    a <= foldl (fun m y => if Py.ltb m y then y else m) a xs
    /\ Forall (fun x => x <= foldl (fun m y => if Py.ltb m y then y else m)
                               a xs) xs
    /\ (foldl (fun m y => if Py.ltb m y then y else m) a xs = a
        \/ foldl (fun m y => if Py.ltb m y then y else m) a xs ∈ xs).
Proof.
  induction xs as [|x xs IH]; intros a; cbn [foldl].
  - split; [lra|]. split; [constructor|now left].
  - destruct (Py.ltb a x) eqn:E; bool_facts.
    + destruct (IH x) as (H1 & H2 & H3).
      split; [lra|]. split; [constructor; assumption|].
      right. apply elem_of_cons. destruct H3 as [H3|H3]; [now left|now right].
    + destruct (IH a) as (H1 & H2 & H3).
      split; [exact H1|]. split; [constructor; [lra|exact H2]|].
      destruct H3 as [H3|H3]; [now left|].
      right. apply elem_of_cons. now right.
Qed.

Lemma min_of_spec (xs : list Q) :
  xs <> [] ->
  exists m : Q,
    PricingRoutes.min_of xs = Returned m
    /\ Forall (fun x => m <= x) xs /\ m ∈ xs.
Proof.
  intros Hne. destruct xs as [|x xs]; [congruence|].
  destruct (min_of_fold xs x) as (H1 & H2 & H3).
  eexists. split; [reflexivity|]. split; [constructor; assumption|].
  apply elem_of_cons. destruct H3 as [H3|H3]; [now left|now right].
Qed.

Lemma max_of_spec (xs : list Q) :
  xs <> [] ->
  exists m : Q,
    PricingRoutes.max_of xs = Returned m
    /\ Forall (fun x => x <= m) xs /\ m ∈ xs.
Proof.
  intros Hne. destruct xs as [|x xs]; [congruence|].
  destruct (max_of_fold xs x) as (H1 & H2 & H3).
  eexists. split; [reflexivity|]. split; [constructor; assumption|].
  apply elem_of_cons. destruct H3 as [H3|H3]; [now left|now right].
Qed.

Lemma len_cons {A} (x : A) (xs : list A) : len (x :: xs) == len xs + 1.
Proof.
  unfold len. cbn [length]. rewrite Nat2Z.inj_succ, <- Z.add_1_r.
  now rewrite inject_Z_plus.
Qed.

Lemma len_positive {A} (xs : list A) : xs <> [] -> 0 < len xs.
Proof.
  intros Hne. destruct xs as [|x xs]; [congruence|].
  unfold len. change 0 with (inject_Z 0). rewrite <- Zlt_Qlt. cbn. lia.
Qed.

Lemma sum_bounds (lo hi : Q) (xs : list Q) :
  Forall (fun x => lo <= x <= hi) xs ->
  forall a : Q,
    a + lo * len xs <= foldl Qplus a xs <= a + hi * len xs.
Proof.
  induction 1 as [|x xs [Hlo Hhi] _ IH]; intros a.
  - unfold len. cbn [foldl length].
    change (inject_Z (Z.of_nat 0)) with 0. lra.
  - cbn [foldl]. specialize (IH (a + x)).
    rewrite (len_cons x xs). nra.
Qed.

Lemma average_between (lo hi : Q) (xs : list Q) :
  xs <> [] ->
  Forall (fun x => lo <= x) xs ->
  Forall (fun x => x <= hi) xs ->
  lo <= sum xs / len xs <= hi.
Proof.
  intros Hne Hlo Hhi. pose proof (len_positive xs Hne) as Hlen.
  assert (Hboth : Forall (fun x => lo <= x <= hi) xs).
  { rewrite Forall_forall in *. intros x Hx. split; auto. }
  pose proof (sum_bounds lo hi xs Hboth 0) as [H1 H2]. fold (sum xs) in *.
  split.
  - apply Qle_shift_div_l; [exact Hlen|lra].
  - apply Qle_shift_div_r; [exact Hlen|lra].
Qed.

Lemma simulate_loop_returns (base : Q) (features : Features)
    (scenarios : list string) :
  forall (results : gmap string PricingResult) (w : World),
    ~ base == 0 ->
    exists (m : gmap string PricingResult) (w' : World),
      simulate_loop base features scenarios results w = (Returned m, w')
      /\ forall name : string,
           is_Some (m !! name)
           <-> is_Some (results !! name) \/ name ∈ scenarios.
Proof.
  induction scenarios as [|scenario rest IH]; intros results w Hnz.
  - exists results, w. split; [reflexivity|].
    intros name. split; [now left|].
    intros [H|H]; [exact H|]. now apply elem_of_nil in H.
  - cbn [simulate_loop]. run_monad.
    assert (Hts : exists (t : datetime) (w0 : World),
               match scenario_timestamp scenario with
               | Some t => (fun w => (Returned t, w)) : M datetime
               | None => fun w =>
                   (Returned (wall_clock w (clock_reads w)),
                    {| heap := heap w; wall_clock := wall_clock w;
                       clock_reads := S (clock_reads w); self := self w |})
               end w = (Returned t, w0)).
    { destruct (scenario_timestamp scenario); eexists; eexists; reflexivity. }
    destruct Hts as (t & w0 & Ets). rewrite Ets.
    destruct (calculate_dynamic_price_returns w0 base features (Some t) Hnz)
      as (l & r & Hrun & _).
    rewrite Hrun.
    destruct (IH (<[scenario := r]> results) (after_call w0 (Some t) r) Hnz)
      as (m & w' & Hloop & Hdom).
    exists m, w'. split; [exact Hloop|].
    intros name. rewrite Hdom, lookup_insert_is_Some, elem_of_cons.
    destruct (decide (scenario = name)) as [->|Hne]; [tauto|].
    split; [intros [[?|[_ ?]]|?]|intros [?|[?|?]]]; try tauto; try congruence.
Qed.

(** X25.  The simulation route fails on an empty list of scenarios: the
    engine returns an empty dictionary, without pricing anything, and the
    comparison's [min] over no value raises [ValueError]. *)
Theorem simulate_route_empty_scenarios (w : World)
    (request : PricingSimulationRequest.t) :
  PricingSimulationRequest.scenarios request = Some [] ->
  simulate_pricing_scenarios
    (PricingSimulationRequest.base_price request)
    (PricingRoutes.features_to_dict
       (PricingSimulationRequest.features request))
    (PricingSimulationRequest.scenarios request) w
  = (Returned ∅, w)
  /\ exists msg : string,
       PricingRoutes.simulate_pricing_scenarios request w
       = (Raised (ValueError msg), w).
Proof.
  intros Hs. unfold PricingRoutes.simulate_pricing_scenarios.
  rewrite Hs. split; [reflexivity|]. eexists. reflexivity.
Qed.

(** X26.  For a validated request whose list of scenarios is absent or not
    empty, the simulation route answers; it has one entry for every
    scenario named, known or not, and none for any other name.  In its
    comparison, every scenario's price lies between the minimum and the
    maximum, and both are the price of some scenario. *)
Theorem simulate_route_comparison (w : World)
    (request : PricingSimulationRequest.t) :
  PricingSimulationRequest.validated request ->
  PricingSimulationRequest.scenarios request <> Some [] ->
  exists (response : SimulationResult.t) (w' : World),
    PricingRoutes.simulate_pricing_scenarios request w
      = (Returned response, w')
    /\ (forall name : string,
          is_Some (SimulationResult.scenarios response !! name)
          <-> name ∈ default default_scenarios
                       (PricingSimulationRequest.scenarios request))
    /\ (forall (name : string) (s : SimulationResult.scenario),
          SimulationResult.scenarios response !! name = Some s ->
          SimulationResult.min_price (SimulationResult.compared response)
            <= SimulationResult.dynamic_price s
            <= SimulationResult.max_price (SimulationResult.compared response))
    /\ (exists (name : string) (s : SimulationResult.scenario),
          SimulationResult.scenarios response !! name = Some s
          /\ SimulationResult.dynamic_price s
             = SimulationResult.min_price (SimulationResult.compared response))
    /\ (exists (name : string) (s : SimulationResult.scenario),
          SimulationResult.scenarios response !! name = Some s
          /\ SimulationResult.dynamic_price s
             = SimulationResult.max_price (SimulationResult.compared response)).
Proof.
  intros [Hbase _] Hne.
  assert (Hnz : ~ PricingSimulationRequest.base_price request == 0) by lra.
  set (names := default default_scenarios
                  (PricingSimulationRequest.scenarios request)).
  assert (Hnames : exists name : string, name ∈ names).
  { unfold names.
    destruct (PricingSimulationRequest.scenarios request) as [[|name l]|];
      [congruence|exists name|exists "peak_weekday"];
      cbn; apply elem_of_cons; now left. }
  destruct (simulate_loop_returns
              (PricingSimulationRequest.base_price request)
              (PricingRoutes.features_to_dict
                 (PricingSimulationRequest.features request))
              names ∅ w Hnz)
    as (m & w' & Hloop & Hdom).
  assert (Hkeys : forall name : string,
             is_Some ((PricingRoutes.format_scenario <$> m) !! name)
             <-> name ∈ names).
  { intros name. rewrite lookup_fmap, fmap_is_Some, Hdom, lookup_empty.
    split; [intros [H|H]; [now destruct H|exact H]|now right]. }
  set (formatted := PricingRoutes.format_scenario <$> m) in *.
  set (prices := PricingRoutes.scenario_prices formatted).
  assert (Hprices : prices <> []).
  { destruct Hnames as (name & Hname).
    destruct (proj2 (Hkeys name) Hname) as [s Hs].
    apply elem_of_map_to_list in Hs.
    apply (list_elem_of_fmap_2
             (fun item : string * SimulationResult.scenario =>
                SimulationResult.dynamic_price (snd item))) in Hs.
    fold (PricingRoutes.scenario_prices formatted) in Hs. fold prices in Hs.
    intros E. rewrite E in Hs. now apply elem_of_nil in Hs. }
  assert (Hin : forall (name : string) (s : SimulationResult.scenario),
             formatted !! name = Some s ->
             SimulationResult.dynamic_price s ∈ prices).
  { intros name s Hs. apply elem_of_map_to_list in Hs.
    apply (list_elem_of_fmap_2
             (fun item : string * SimulationResult.scenario =>
                SimulationResult.dynamic_price (snd item))) in Hs.
    exact Hs. }
  assert (Hout : forall x : Q,
             x ∈ prices ->
             exists (name : string) (s : SimulationResult.scenario),
               formatted !! name = Some s /\ SimulationResult.dynamic_price s = x).
  { intros x Hx.
    destruct (list_elem_of_fmap_1 _ _ _ Hx) as ([name s] & E & Hitem).
    apply elem_of_map_to_list in Hitem. exists name, s.
    split; [exact Hitem|now rewrite E]. }
  destruct (min_of_spec prices Hprices) as (lo & Hmin & Hlo & Hlo').
  destruct (max_of_spec prices Hprices) as (hi & Hmax & Hhi & Hhi').
  unfold PricingRoutes.simulate_pricing_scenarios,
    simulate_pricing_scenarios.
  fold names. run_monad. rewrite Hloop.
  fold formatted. fold prices. rewrite Hmin, Hmax.
  unfold truediv. rewrite (len_nonzero prices Hprices).
  eexists; eexists. split; [reflexivity|].
  cbn [SimulationResult.scenarios SimulationResult.compared SimulationResult.min_price
       SimulationResult.max_price SimulationResult.avg_price].
  split; [exact Hkeys|]. split; [|split].
  - intros name s Hs. apply Hin in Hs.
    rewrite Forall_forall in Hlo, Hhi. split; [now apply Hlo|now apply Hhi].
  - apply Hout, Hlo'.
  - apply Hout, Hhi'.
Qed.

End SimulateRoute.

Lemma simulate_route_empty_scenarios_witness :
  PricingSimulationRequest.scenarios
    {| PricingSimulationRequest.base_price := 999;
       PricingSimulationRequest.features := example_features;
       PricingSimulationRequest.scenarios := Some [] |}
  = Some []
  /\ exists msg : string,
       PricingRoutes.simulate_pricing_scenarios
         {| PricingSimulationRequest.base_price := 999;
            PricingSimulationRequest.features := example_features;
            PricingSimulationRequest.scenarios := Some [] |}
         fresh_world
       = (Raised (ValueError msg), fresh_world).
Proof.
  split; [reflexivity|].
  exact (proj2 (simulate_route_empty_scenarios fresh_world
                  {| PricingSimulationRequest.base_price := 999;
                     PricingSimulationRequest.features := example_features;
                     PricingSimulationRequest.scenarios := Some [] |}
                  eq_refl)).
Defined.

Lemma simulate_route_comparison_witness :
  PricingSimulationRequest.validated
    {| PricingSimulationRequest.base_price := 999;
       PricingSimulationRequest.features := example_features;
       PricingSimulationRequest.scenarios := None |}
  /\ PricingSimulationRequest.scenarios
       {| PricingSimulationRequest.base_price := 999;
          PricingSimulationRequest.features := example_features;
          PricingSimulationRequest.scenarios := None |}
     <> Some []
  /\ exists (response : SimulationResult.t) (w' : World),
       PricingRoutes.simulate_pricing_scenarios
         {| PricingSimulationRequest.base_price := 999;
            PricingSimulationRequest.features := example_features;
            PricingSimulationRequest.scenarios := None |}
         fresh_world
       = (Returned response, w')
       /\ (forall name : string,
             is_Some (SimulationResult.scenarios response !! name)
             <-> name ∈ default_scenarios)
       /\ (forall (name : string) (s : SimulationResult.scenario),
             SimulationResult.scenarios response !! name = Some s ->
             SimulationResult.min_price (SimulationResult.compared response)
               <= SimulationResult.dynamic_price s
               <= SimulationResult.max_price
                    (SimulationResult.compared response)).
Proof.
  assert (H1 : PricingSimulationRequest.validated
                 {| PricingSimulationRequest.base_price := 999;
                    PricingSimulationRequest.features := example_features;
                    PricingSimulationRequest.scenarios := None |}).
  { split; [reflexivity|]. cbn. repeat split; (lia || discriminate). }
  assert (H2 : PricingSimulationRequest.scenarios
                 {| PricingSimulationRequest.base_price := 999;
                    PricingSimulationRequest.features := example_features;
                    PricingSimulationRequest.scenarios := None |}
               <> Some []) by discriminate.
  split; [exact H1|]. split; [exact H2|].
  destruct (simulate_route_comparison fresh_world _ H1 H2)
    as (response & w' & Hrun & Hkeys & Hbetween & _).
  exists response, w'. split; [exact Hrun|].
  split; [exact Hkeys|exact Hbetween].
Defined.

(** * The churn routes *)

Section ChurnBatchRoute.

Variable model : ChurnPredictor.
Hypothesis model_fitted : churn_is_fitted model = true.

Lemma predict_single_levels (features : Features) :
  exists result : ChurnPrediction,
    Churn.predict_single model features = Returned result
    /\ churn_probability result
       = Py.round (churn_predict_proba model features) 4
    /\ ((risk_level result = "high" /\ churn_prediction result = 1%Z)
        \/ (risk_level result = "medium"
            /\ (churn_prediction result = 0%Z
                \/ churn_prediction result = 1%Z))
        \/ (risk_level result = "low" /\ churn_prediction result = 0%Z)).
Proof.
  unfold Churn.predict_single. rewrite model_fitted. cbn [negb].
  eexists. split; [reflexivity|]. split; [reflexivity|].
  cbn [risk_level churn_prediction].
  set (p := churn_predict_proba model features).
  destruct (Py.ltb p 0.3) eqn:E3.
  - right; right. split; [reflexivity|].
    apply ltb_true in E3.
    assert (E5 : Py.leb 0.5 p = false) by (apply leb_false; lra).
    now rewrite E5.
  - destruct (Py.ltb p 0.6) eqn:E6.
    + right; left. split; [reflexivity|].
      destruct (Py.leb 0.5 p); [now right|now left].
    + left. split; [reflexivity|].
      apply ltb_false in E6.
      assert (E5 : Py.leb 0.5 p = true) by (apply leb_true; lra).
      now rewrite E5.
Qed.

Lemma respond_run (request : ChurnPredictionRequest.t) (w : World) :
  probability_in_range model request ->
  exists (result : ChurnPrediction) (response : ChurnPredictionResponse.t),
    ChurnRoutes.respond model request w = (Returned (result, response), tick w)
    /\ ((risk_level result = "high" /\ churn_prediction result = 1%Z)
        \/ (risk_level result = "medium"
            /\ (churn_prediction result = 0%Z
                \/ churn_prediction result = 1%Z))
        \/ (risk_level result = "low" /\ churn_prediction result = 0%Z))
    /\ ChurnPredictionResponse.customer_id response
       = ChurnPredictionRequest.customer_id request
    /\ ChurnPredictionResponse.churn_prediction response
       = churn_prediction result
    /\ ChurnPredictionResponse.risk_level response = risk_level result
    /\ 0 <= ChurnPredictionResponse.churn_probability response <= 1.
Proof.
  intros [H0 H1].
  destruct (predict_single_levels
              (ChurnRoutes.features_to_dict
                 (ChurnPredictionRequest.features request)))
    as (result & Hsingle & Hp & Hlevels).
  assert (Hrange : 0 <= churn_probability result <= 1).
  { rewrite Hp. split.
    - apply (round_lower_bound 0 4); [reflexivity|exact H0].
    - apply (round_upper_bound 10000 4); [reflexivity|exact H1]. }
  assert (Hpred : (0 <=? churn_prediction result)%Z
                  && (churn_prediction result <=? 1)%Z = true).
  { destruct Hlevels as [[_ ->]|[[_ [->| ->]]|[_ ->]]]; reflexivity. }
  exists result. unfold ChurnRoutes.respond. run_monad. rewrite Hsingle.
  unfold ChurnPredictionResponse.create.
  destruct Hrange as [R0 R1].
  rewrite (proj2 (leb_true _ _) R0), (proj2 (leb_true _ _) R1).
  cbn [andb]. rewrite Hpred.
  eexists. split; [reflexivity|]. split; [exact Hlevels|].
  cbn. repeat split; assumption.
Qed.

Lemma churn_batch_loop_returns
    (customers : list ChurnPredictionRequest.t) :
  forall (predictions : list ChurnPredictionResponse.t)
         (high medium low : nat) (w : World),
    Forall (probability_in_range model) customers ->
    exists (new : list ChurnPredictionResponse.t) (dh dm dl : nat)
           (w' : World),
      ChurnRoutes.batch_loop model customers predictions high medium low w
      = (Returned (predictions ++ new, (high + dh)%nat, (medium + dm)%nat,
                   (low + dl)%nat), w')
      /\ length new = length customers
      /\ (dh + dm + dl)%nat = length new
      /\ (dh <= ChurnRoutes.count_churners new <= dh + dm)%nat
      /\ Forall (fun p =>
                   0 <= ChurnPredictionResponse.churn_probability p <= 1) new
      /\ ChurnPredictionResponse.customer_id <$> new
         = ChurnPredictionRequest.customer_id <$> customers
      /\ self w' = self w
      /\ heap w' = heap w
      /\ clock_reads w' = (clock_reads w + length customers)%nat.
Proof.
  induction customers as [|c rest IH];
    intros predictions high medium low w Hrange.
  - exists [], 0%nat, 0%nat, 0%nat, w. cbn.
    rewrite app_nil_r, !Nat.add_0_r.
    repeat split; try reflexivity; try lia. constructor.
  - apply Forall_cons in Hrange as [Hc Hrest].
    destruct (respond_run c w Hc)
      as (result & response & Hrun & Hlevels & Hid & Hpred & _ & Hp).
    cbn [ChurnRoutes.batch_loop]. run_monad. rewrite Hrun.
    unfold ChurnRoutes.count_churners in *.
    destruct Hlevels as [[Hl Hq]|[[Hl Hq]|[Hl Hq]]]; rewrite Hl;
      cbn [String.eqb Ascii.eqb Bool.eqb andb].
    + destruct (IH (predictions ++ [response]) (high + 1)%nat medium low
                  (tick w) Hrest)
        as (new & dh & dm & dl & w' & Hloop & Hlen & Hsum & Hch & Hall
            & Hids & Hs & Hh & Hclk).
      exists (response :: new), (1 + dh)%nat, dm, dl, w'.
      rewrite Hloop, <- app_assoc, <- Nat.add_assoc.
      split; [reflexivity|]. split; [cbn; lia|]. split; [cbn; lia|].
      split; [cbn [List.filter]; rewrite Hpred, Hq; cbn; lia|].
      split; [constructor; assumption|].
      split; [cbn; now rewrite Hid, Hids|].
      split; [exact Hs|]. split; [exact Hh|]. rewrite Hclk. cbn. lia.
    + destruct (IH (predictions ++ [response]) high (medium + 1)%nat low
                  (tick w) Hrest)
        as (new & dh & dm & dl & w' & Hloop & Hlen & Hsum & Hch & Hall
            & Hids & Hs & Hh & Hclk).
      exists (response :: new), dh, (1 + dm)%nat, dl, w'.
      rewrite Hloop, <- app_assoc, <- Nat.add_assoc.
      split; [reflexivity|]. split; [cbn; lia|]. split; [cbn; lia|].
      split; [cbn [List.filter]; rewrite Hpred;
              destruct Hq as [-> | ->]; cbn; lia|].
      split; [constructor; assumption|].
      split; [cbn; now rewrite Hid, Hids|].
      split; [exact Hs|]. split; [exact Hh|]. rewrite Hclk. cbn. lia.
    + destruct (IH (predictions ++ [response]) high medium (low + 1)%nat
                  (tick w) Hrest)
        as (new & dh & dm & dl & w' & Hloop & Hlen & Hsum & Hch & Hall
            & Hids & Hs & Hh & Hclk).
      exists (response :: new), dh, dm, (1 + dl)%nat, w'.
      rewrite Hloop, <- app_assoc, <- Nat.add_assoc.
      split; [reflexivity|]. split; [cbn; lia|]. split; [cbn; lia|].
      split; [cbn [List.filter]; rewrite Hpred, Hq; cbn; lia|].
      split; [constructor; assumption|].
      split; [cbn; now rewrite Hid, Hids|].
      split; [exact Hs|]. split; [exact Hh|]. rewrite Hclk. cbn. lia.
Qed.

(** X27.  With a fitted model whose probabilities lie in [[0, 1]], the
    batch route of the churn service answers every list of requests, in
    order, one prediction per request; it reads the clock once per request
    and leaves the pricing engine alone.  In its summary the three risk
    counters add up to the number of customers; every high-risk customer
    is a predicted churner and every predicted churner is at high or medium
    risk; the average probability lies in [[0, 1]], and is 0 for the empty
    list, on which nothing is divided. *)
Theorem churn_batch_summary (customers : list ChurnPredictionRequest.t)
    (w : World) :
  Forall (probability_in_range model) customers ->
  exists (response : BatchChurn.t) (w' : World),
    ChurnRoutes.predict_churn_batch model customers w
      = (Returned response, w')
    /\ self w' = self w
    /\ heap w' = heap w
    /\ clock_reads w' = (clock_reads w + length customers)%nat
    /\ ChurnPredictionResponse.customer_id <$> BatchChurn.predictions response
       = ChurnPredictionRequest.customer_id <$> customers
    /\ BatchChurn.total_customers (BatchChurn.summarized response)
       = length customers
    /\ (BatchChurn.high_risk (BatchChurn.summarized response)
        + BatchChurn.medium_risk (BatchChurn.summarized response)
        + BatchChurn.low_risk (BatchChurn.summarized response))%nat
       = BatchChurn.total_customers (BatchChurn.summarized response)
    /\ (BatchChurn.high_risk (BatchChurn.summarized response)
        <= BatchChurn.predicted_churners (BatchChurn.summarized response)
        <= BatchChurn.high_risk (BatchChurn.summarized response)
           + BatchChurn.medium_risk (BatchChurn.summarized response))%nat
    /\ 0 <= BatchChurn.avg_churn_probability (BatchChurn.summarized response)
         <= 1
    /\ (customers = [] ->
        BatchChurn.avg_churn_probability (BatchChurn.summarized response)
        == 0).
Proof.
  intros Hrange.
  destruct (churn_batch_loop_returns customers [] 0%nat 0%nat 0%nat w Hrange)
    as (new & dh & dm & dl & w' & Hloop & Hlen & Hsum & Hch & Hall & Hids
        & Hs & Hh & Hclk).
  cbn [app Nat.add] in Hloop.
  unfold ChurnRoutes.predict_churn_batch. run_monad. rewrite Hloop.
  destruct new as [|p new].
  - destruct customers; [|discriminate].
    cbn in Hsum, Hch, Hclk.
    eexists; eexists. split; [reflexivity|].
    cbn [BatchChurn.predictions BatchChurn.summarized
         BatchChurn.total_customers BatchChurn.high_risk
         BatchChurn.medium_risk BatchChurn.low_risk
         BatchChurn.avg_churn_probability BatchChurn.predicted_churners
         length fmap list_fmap].
    split; [exact Hs|]. split; [exact Hh|]. split; [lia|].
    split; [reflexivity|]. split; [reflexivity|]. split; [lia|].
    split; [cbn; lia|]. split; [split; q_decide|]. intros _. q_decide.
  - assert (Hne : p :: new <> []) by discriminate.
    assert (E : (0 <? length (p :: new))%nat = true) by reflexivity.
    rewrite E. unfold truediv. rewrite (len_nonzero (p :: new) Hne).
    eexists; eexists. split; [reflexivity|].
    cbn [BatchChurn.predictions BatchChurn.summarized
         BatchChurn.total_customers BatchChurn.high_risk
         BatchChurn.medium_risk BatchChurn.low_risk
         BatchChurn.avg_churn_probability BatchChurn.predicted_churners].
    split; [exact Hs|]. split; [exact Hh|]. split; [exact Hclk|].
    split; [exact Hids|]. split; [exact Hlen|]. split; [exact Hsum|].
    split; [exact Hch|].
    assert (Havg : 0 <= sum (ChurnPredictionResponse.churn_probability
                             <$> p :: new)
                        / len (ChurnPredictionResponse.churn_probability
                               <$> p :: new) <= 1).
    { apply average_between; [discriminate| |];
        rewrite Forall_fmap; (eapply Forall_impl; [exact Hall|]);
        intros x [Hx0 Hx1]; assumption. }
    assert (Hl : len (ChurnPredictionResponse.churn_probability <$> p :: new)
                 = len (p :: new)).
    { unfold len. now rewrite length_fmap. }
    rewrite Hl in Havg. destruct Havg as [A0 A1].
    split; [split|].
    + apply (round_lower_bound 0 4); [reflexivity|exact A0].
    + apply (round_upper_bound 10000 4); [reflexivity|exact A1].
    + intros ->. discriminate.
Qed.

End ChurnBatchRoute.

Lemma churn_batch_summary_witness :
  churn_is_fitted fitted_churn = true
  /\ Forall (probability_in_range fitted_churn)
       [example_churn_request; troubled_churn_request]
  /\ exists (response : BatchChurn.t) (w' : World),
       ChurnRoutes.predict_churn_batch fitted_churn
         [example_churn_request; troubled_churn_request] fresh_world
         = (Returned response, w')
       /\ (BatchChurn.high_risk (BatchChurn.summarized response)
           + BatchChurn.medium_risk (BatchChurn.summarized response)
           + BatchChurn.low_risk (BatchChurn.summarized response))%nat
          = BatchChurn.total_customers (BatchChurn.summarized response).
Proof.
  assert (H1 : churn_is_fitted fitted_churn = true) by reflexivity.
  assert (H2 : Forall (probability_in_range fitted_churn)
                 [example_churn_request; troubled_churn_request]).
  { repeat constructor; vm_compute; discriminate. }
  split; [exact H1|]. split; [exact H2|].
  destruct (churn_batch_summary fitted_churn H1
              [example_churn_request; troubled_churn_request] fresh_world H2)
    as (response & w' & Hrun & _ & _ & _ & _ & _ & Hsum & _).
  exists response, w'. split; [exact Hrun|exact Hsum].
Defined.
